(** * PlayBG: background playback of a list of sound files on a channel

    A shallow embedding of [apps/app_playbg.c].  The module keeps one
    [playbg_state] per channel in a datastore, and plays the files of the
    state one after the other through a generator: [playbg_generator] is
    called by the host with a number of samples to produce, and pulls frames
    with [playbg_readframe], which opens, seeks and advances files through
    [playbg_seek].  [playbg_start], [playbg_stop] and [playbg_exec_resume]
    install, remove and re-activate the state.

    The C code works on a channel by pointer; here every function takes the
    channel and returns the new one (explicit state passing).  The state is
    reached through the channel's datastore, as in the source, where every
    function looks it up again with [ast_channel_datastore_find].

    Integers are in [Z].  The sample counts of the generator are C [int]s:
    [playbg_generator_int] is the generator with their wrap-around
    written out, and agrees with [playbg_generator] while the offset and
    the queue stay within an [int]. *)

From Stdlib Require Import ZArith List String Ascii Bool Lia.
Import ListNotations.
Open Scope string_scope.
Open Scope Z_scope.

(** ** Data *)

(** A decoded frame: only its sample count is read by the module
    ([f->samples]). *)
Record ast_frame := mkFrame { frame_samples : Z }.

(** [struct playbg_state].  The C fields are [int]; no computation of the
    module wraps around for the inputs considered (the counters stay within
    the sizes of the files and of the requests), so they are integers here.
    An entry of [filearray] is a [char *] and can be NULL (a failed
    [ast_strdup]). *)
Record playbg_state := mkState {
  filearray : list (option string);
  pos : Z;
  nfiles : Z;
  origwfmt : Z;
  samples : Z;
  sample_queue : Z
}.

(** The datastore of type PLAYBGSTATE and uid "playbg"; [data] can be NULL. *)
Record ast_datastore := mkDatastore { data : option playbg_state }.

(** An open stream on a sound file: the frames of the file and the frames
    still to be read. *)
Record ast_filestream := mkStream {
  fs_name : string;
  fs_frames : list ast_frame;
  fs_rest : list ast_frame
}.

(** What the module asks of the host, in the order it asks it. *)
Inductive event :=
| EvOpen (name : string) (opened : bool)
| EvSeek (name : string) (offset : Z)
| EvRead (name : string) (f : option ast_frame)
| EvClose (name : string)
| EvWrite (f : ast_frame) (res : Z)
| EvSetWriteFormat (fmt : Z) (res : Z).

(** The part of [struct ast_channel] the module touches: [chan->stream],
    [chan->writeformat], the playbg datastore, [chan->generatordata] (non
    NULL, here [true], when the playbg generator is active), and the
    history of the calls made to the host. *)
Record ast_channel := mkChan {
  stream : option ast_filestream;
  writeformat : Z;
  datastore : option ast_datastore;
  generatordata : bool;
  events : list event
}.

Definition set_stream (ch : ast_channel) (s : option ast_filestream) :=
  mkChan s (writeformat ch) (datastore ch) (generatordata ch) (events ch).
Definition set_writeformat (ch : ast_channel) (w : Z) :=
  mkChan (stream ch) w (datastore ch) (generatordata ch) (events ch).
Definition set_datastore (ch : ast_channel) (d : option ast_datastore) :=
  mkChan (stream ch) (writeformat ch) d (generatordata ch) (events ch).
Definition set_generatordata (ch : ast_channel) (g : bool) :=
  mkChan (stream ch) (writeformat ch) (datastore ch) g (events ch).
Definition log (ch : ast_channel) (e : event) :=
  mkChan (stream ch) (writeformat ch) (datastore ch) (generatordata ch)
         (events ch ++ [e]).

Definition set_pos (st : playbg_state) (p : Z) :=
  mkState (filearray st) p (nfiles st) (origwfmt st) (samples st) (sample_queue st).
Definition set_origwfmt (st : playbg_state) (w : Z) :=
  mkState (filearray st) (pos st) (nfiles st) w (samples st) (sample_queue st).
Definition set_samples (st : playbg_state) (n : Z) :=
  mkState (filearray st) (pos st) (nfiles st) (origwfmt st) n (sample_queue st).
Definition set_sample_queue (st : playbg_state) (n : Z) :=
  mkState (filearray st) (pos st) (nfiles st) (origwfmt st) (samples st) n.

(** [datastore->data = state], and every write through the [state] pointer,
    which the datastore shares. *)
Definition store_state (ch : ast_channel) (st : playbg_state) :=
  set_datastore ch (Some (mkDatastore (Some st))).

(** The state a channel carries, when it carries one. *)
Definition chan_state (ch : ast_channel) : option playbg_state :=
  match datastore ch with
  | Some ds => data ds
  | None => None
  end.

(** [state->filearray[i]]: NULL outside of the entries that were set (the
    array comes from [ast_calloc]). *)
Definition filearray_at (st : playbg_state) (i : Z) : option string :=
  if i <? 0 then None
  else match nth_error (filearray st) (Z.to_nat i) with
       | Some e => e
       | None => None
       end.

(** ** The host *)

(** The host is a parameter of the module: which sound files can be opened
    and the frames each one holds, whether a write of a frame succeeds
    (given what happened before), which write formats the channel accepts,
    and whether the allocations of [playbg_start] succeed. *)
Record host := mkHost {
  sounds : string -> option (list ast_frame);
  write_ok : list event -> ast_frame -> bool;
  fmt_ok : Z -> bool;
  datastore_alloc_ok : bool;
  state_alloc_ok : bool;
  filearray_alloc_ok : bool;
  strdup_ok : string -> bool
}.

(** [ast_seekstream(s, off, SEEK_SET)] on the frames of a file: the frames
    that start at or after sample [off]. *)
Fixpoint seek_frames (off : Z) (l : list ast_frame) : list ast_frame :=
  match l with
  | [] => []
  | f :: t => if off <=? 0 then l else seek_frames (off - frame_samples f) t
  end.

(** ** Parsing the list of files *)

(** [strchr(s, '&')] as a test. *)
Fixpoint strchr_amp (s : string) : bool :=
  match s with
  | EmptyString => false
  | String c r => if Ascii.eqb c "&" then true else strchr_amp r
  end.

(** The tokens that the loop [while ((cur = strsep(&s, "&")))] goes
    through: the pieces of [s] between the '&', empty ones included. *)
Fixpoint strsep_all (s : string) : list string :=
  match s with
  | EmptyString => [EmptyString]
  | String c r =>
      if Ascii.eqb c "&" then EmptyString :: strsep_all r
      else match strsep_all r with
           | t :: ts => String c t :: ts
           | [] => [String c EmptyString]
           end
  end.

(** [ast_strlen_zero]: a NULL or empty string. *)
Definition ast_strlen_zero (s : option string) : bool :=
  match s with
  | None => true
  | Some s => (String.length s =? 0)%nat
  end.

Section Host.

Variable h : host.

(** Modelled from the spec: [openResource(channel, name)] of the host
    ([ast_openstream_full(chan, name, chan->language, 1)]), which sets
    [chan->stream] to a stream at the start of the file when the file can
    be opened and leaves the channel as it is otherwise. *)
Definition ast_openstream_full (ch : ast_channel) (name : string)
  : option ast_filestream * ast_channel :=
  match sounds h name with
  | Some fr =>
      let s := mkStream name fr fr in
      (Some s, set_stream (log ch (EvOpen name true)) (Some s))
  | None => (None, log ch (EvOpen name false))
  end.

(** Modelled from the spec: [readFrame(streamHandle)] of the host
    ([ast_readframe(chan->stream)]): the next frame of the stream, none at
    the end of the file. *)
Definition ast_readframe (ch : ast_channel) : option ast_frame * ast_channel :=
  match stream ch with
  | None => (None, ch)
  | Some s =>
      match fs_rest s with
      | [] => (None, log ch (EvRead (fs_name s) None))
      | f :: r =>
          (Some f,
           log (set_stream ch (Some (mkStream (fs_name s) (fs_frames s) r)))
               (EvRead (fs_name s) (Some f)))
      end
  end.

(** Modelled from the spec: [seek(streamHandle, sampleOffset)] of the host
    ([ast_seekstream(chan->stream, off, SEEK_SET)]). *)
Definition ast_seekstream (ch : ast_channel) (off : Z) : ast_channel :=
  match stream ch with
  | None => ch
  | Some s =>
      log (set_stream ch
             (Some (mkStream (fs_name s) (fs_frames s)
                             (seek_frames off (fs_frames s)))))
          (EvSeek (fs_name s) off)
  end.

(** [if (chan->stream) { ast_closestream(chan->stream); chan->stream = NULL; }] *)
Definition close_stream (ch : ast_channel) : ast_channel :=
  match stream ch with
  | Some s => set_stream (log ch (EvClose (fs_name s))) None
  | None => ch
  end.

(** Modelled from the spec: [writeFrame(channel, frame)] of the host
    ([ast_write]): 0, or -1 when the write fails. *)
Definition ast_write (ch : ast_channel) (f : ast_frame) : Z * ast_channel :=
  let res := if write_ok h (events ch) f then 0 else -1 in
  (res, log ch (EvWrite f res)).

(** Modelled from the spec: the setter of the channel's write format
    ([ast_set_write_format]): 0 and the format is set, or -1 and the channel
    keeps its format. *)
Definition ast_set_write_format (ch : ast_channel) (fmt : Z) : Z * ast_channel :=
  if fmt_ok h fmt
  then (0, set_writeformat (log ch (EvSetWriteFormat fmt 0)) fmt)
  else (-1, log ch (EvSetWriteFormat fmt (-1))).

Definition ast_channel_datastore_find (ch : ast_channel) : option ast_datastore :=
  datastore ch.

(** ** The generator *)

(** [playbg_release] (the channel is passed by value here, so the test of a
    NULL channel has no counterpart). *)
Definition playbg_release (ch : ast_channel) : ast_channel :=
  match ast_channel_datastore_find ch with
  | None => ch
  | Some ds =>
      match data ds with
      | None => ch
      | Some state =>
          let ch := close_stream ch in
          if origwfmt state =? 0 then ch
          else snd (ast_set_write_format ch (origwfmt state))
      end
  end.

(** [playbg_seek]: 0 when a file is open at the recorded offset, -1
    otherwise. *)
Definition playbg_seek (ch : ast_channel) : Z * ast_channel :=
  match ast_channel_datastore_find ch with
  | None => (-1, ch)
  | Some ds =>
      match data ds with
      | None => (-1, ch)
      | Some state =>
          let ch := close_stream ch in
          let curr_pos := pos state in
          let state := if curr_pos >=? nfiles state then set_pos state 0 else state in
          let curr_pos := if curr_pos >=? nfiles state then 0 else curr_pos in
          let ch := store_state ch state in
          match filearray_at state curr_pos with
          | None => (-1, store_state ch (set_pos state (pos state + 1)))
          | Some name =>
              match ast_openstream_full ch name with
              | (None, ch) => (-1, store_state ch (set_pos state (pos state + 1)))
              | (Some _, ch) =>
                  let ch := if samples state =? 0 then ch
                            else ast_seekstream ch (samples state) in
                  (0, ch)
              end
          end
      end
  end.

(** [if (!playbg_seek(chan)) f = ast_readframe(chan->stream);], which
    [playbg_readframe] does twice. *)
Definition seek_and_read (ch : ast_channel) : option ast_frame * ast_channel :=
  let (r, ch) := playbg_seek ch in
  if r =? 0 then ast_readframe ch else (None, ch).

(** [playbg_readframe] *)
Definition playbg_readframe (ch : ast_channel) : option ast_frame * ast_channel :=
  let (f, ch) :=
    match ast_readframe ch with
    | (Some f, ch) => (Some f, ch)
    | (None, ch) => seek_and_read ch
    end in
  match f with
  | Some f => (Some f, ch)
  | None =>
      match ast_channel_datastore_find ch with
      | None => (None, ch)
      | Some ds =>
          match data ds with
          | None => (None, ch)
          | Some state =>
              let state := set_pos state (pos state + 1) in
              let state := set_samples state 0 in
              seek_and_read (store_state ch state)
          end
      end
  end.

(** The [while (state->sample_queue > 0)] loop of [playbg_generator]; [res]
    is the local of that name.  The loop runs as long as frames come and the
    queue is positive, so it takes fuel here: [None] is a loop that did not
    finish within [fuel] turns. *)
Fixpoint generator_loop (fuel : nat) (ch : ast_channel) (res : Z)
  : option (Z * ast_channel) :=
  match chan_state ch with
  | None => Some (-1, ch)
  | Some state =>
      if sample_queue state >? 0 then
        match fuel with
        | O => None
        | S fuel =>
            match playbg_readframe ch with
            | (Some f, ch) =>
                match chan_state ch with
                | None => Some (-1, ch)
                | Some state =>
                    let state := set_samples state (samples state + frame_samples f) in
                    let state := set_sample_queue state (sample_queue state - frame_samples f) in
                    let ch := store_state ch state in
                    let (res, ch) := ast_write ch f in
                    if res <? 0 then Some (-1, ch)
                    else generator_loop fuel ch res
                end
            | (None, ch) => Some (-1, ch)
            end
        end
      else Some (res, ch)
  end.

(** [playbg_generator(chan, data, len, samples)]; [data] and [len] are not
    used by the function. *)
Definition playbg_generator (fuel : nat) (ch : ast_channel) (nsamples : Z)
  : option (Z * ast_channel) :=
  match ast_channel_datastore_find ch with
  | None => Some (-1, ch)
  | Some ds =>
      match data ds with
      | None => Some (-1, ch)
      | Some state =>
          let state := set_sample_queue state (sample_queue state + nsamples) in
          generator_loop fuel (store_state ch state) 0
      end
  end.

(** [playbg_alloc]: the state the generator works on, after the current
    write format of the channel went into it. *)
Definition playbg_alloc (ch : ast_channel) : option playbg_state * ast_channel :=
  match ast_channel_datastore_find ch with
  | None => (None, ch)
  | Some ds =>
      match data ds with
      | None => (None, ch)
      | Some state =>
          let state := set_origwfmt state (writeformat ch) in
          (Some state, store_state ch state)
      end
  end.

(** Modelled from the spec: [activateGenerator(channel, generatorVTable)]
    of the host ([ast_activate_generator(chan, &playbg_stream, NULL)]): an
    active generator is released first, then [alloc] is called, and the
    generator is active when [alloc] returned a state. *)
Definition ast_activate_generator (ch : ast_channel) : Z * ast_channel :=
  let ch := if generatordata ch
            then set_generatordata (playbg_release ch) false else ch in
  match playbg_alloc ch with
  | (Some _, ch) => (0, set_generatordata ch true)
  | (None, ch) => (-1, ch)
  end.

(** Modelled from the spec: [deactivateGenerator(channel)] of the host
    ([ast_deactivate_generator]): the release hook of an active generator
    is called and the generator slot is emptied. *)
Definition ast_deactivate_generator (ch : ast_channel) : ast_channel :=
  if generatordata ch then set_generatordata (playbg_release ch) false else ch.

(** ** Start, stop and resume *)

Definition ast_strdup (s : string) : option string :=
  if strdup_ok h s then Some s else None.

(** [playbg_start] *)
Definition playbg_start (ch : ast_channel) (opts : option string) : Z * ast_channel :=
  match opts with
  | None => (-1, ch)
  | Some opt =>
      if ast_strlen_zero opts then (-1, ch)
      else
        let nfiles := if strchr_amp opt
                      then Z.of_nat (List.length (strsep_all opt)) else 1 in
        if nfiles <? 1 then (-1, ch)
        else
          (* if we found a datastore, override current one *)
          let ch :=
            match ast_channel_datastore_find ch with
            | Some _ =>
                let ch := set_datastore ch None in
                let ch := ast_deactivate_generator ch in
                close_stream ch
            | None => ch
            end in
          if negb (datastore_alloc_ok h) then (-1, ch)
          else if negb (state_alloc_ok h) then (-1, ch)
          else if negb (filearray_alloc_ok h) then (-1, ch)
          else
            let files := if strchr_amp opt
                         then map ast_strdup (strsep_all opt)
                         else [ast_strdup opt] in
            let state := mkState files 0 nfiles (writeformat ch) 0 0 in
            let ch := set_datastore ch (Some (mkDatastore (Some state))) in
            ast_activate_generator ch
  end.

(** [playbg_stop] *)
Definition playbg_stop (ch : ast_channel) : ast_channel :=
  match ast_channel_datastore_find ch with
  | None => ch
  | Some ds =>
      match data ds with
      | None => ch
      | Some _ =>
          let ch := set_datastore ch None in
          let ch := ast_deactivate_generator ch in
          close_stream ch
      end
  end.

(** [playbg_exec_stop] *)
Definition playbg_exec_stop (ch : ast_channel) : Z * ast_channel :=
  (0, playbg_stop ch).

(** [playbg_exec_start]; [data] is the argument of the application, NULL
    when there is none. *)
Definition playbg_exec_start (ch : ast_channel) (data : option string)
  : Z * ast_channel :=
  match data with
  | None => (-1, ch)
  | Some d =>
      if (String.length d =? 0)%nat then (-1, ch)
      else playbg_start ch (Some d)
  end.

(** [playbg_exec_resume] *)
Definition playbg_exec_resume (ch : ast_channel) : Z * ast_channel :=
  match ast_channel_datastore_find ch with
  | None => (-1, ch)
  | Some ds =>
      match data ds with
      | None => (-1, ch)
      | Some state =>
          let state := set_origwfmt state (writeformat ch) in
          ast_activate_generator (store_state ch state)
      end
  end.

(** ** Runs of the generator *)

(** The host calling the generator once per request of [reqs]; for each
    call, what it returned and the index and offset of the state after
    it. *)
Fixpoint generator_run (fuel : nat) (ch : ast_channel) (reqs : list Z)
  : option (list (Z * option (Z * Z)) * ast_channel) :=
  match reqs with
  | [] => Some ([], ch)
  | n :: reqs =>
      match playbg_generator fuel ch n with
      | None => None
      | Some (res, ch) =>
          match generator_run fuel ch reqs with
          | None => None
          | Some (l, ch') =>
              Some ((res, option_map (fun st => (pos st, samples st)) (chan_state ch)) :: l, ch')
          end
      end
  end.

End Host.

(** ** Channels and hosts to run the module on *)

(** A channel nothing happened on yet. *)
Definition fresh_chan (wfmt : Z) : ast_channel := mkChan None wfmt None false [].

(** A host where every allocation and every write succeeds and every write
    format is accepted, with the sound files of [files]. *)
Definition plain_host (files : string -> option (list ast_frame)) : host :=
  mkHost files (fun _ _ => true) (fun _ => true) true true true (fun _ => true).

(** Sound files given as a list of names with their frames. *)
Fixpoint sounds_of (l : list (string * list Z)) (name : string)
  : option (list ast_frame) :=
  match l with
  | [] => None
  | (n, fr) :: l => if String.eqb n name then Some (map mkFrame fr) else sounds_of l name
  end.

(** * Vocabulary of the properties *)

(** A name without '&'. *)
Definition no_amp (s : string) : Prop := strchr_amp s = false.

Section Vocabulary.

Variable h : host.

(** Events a [close_stream] adds. *)
Definition close_events (ch : ast_channel) : list event :=
  match stream ch with
  | Some s => [EvClose (fs_name s)]
  | None => []
  end.

(** The index [playbg_seek] works at: the index of the state, or 0 when
    the index is at or past the number of files. *)
Definition seek_pos (st : playbg_state) : Z :=
  if pos st >=? nfiles st then 0 else pos st.

(** The events of a successful open at offset [off]. *)
Definition open_events (name : string) (off : Z) : list event :=
  EvOpen name true :: (if off =? 0 then [] else [EvSeek name off]).

(** The events of a seek step that opens nothing. *)
Definition failed_open_events (st : playbg_state) : list event :=
  match filearray_at st (seek_pos st) with
  | Some name => [EvOpen name false]
  | None => []
  end.

(** Whether the entry the seek step works at can be opened. *)
Definition seek_target (st : playbg_state) : option (string * list ast_frame) :=
  match filearray_at st (seek_pos st) with
  | Some name =>
      match sounds h name with
      | Some fr => Some (name, fr)
      | None => None
      end
  | None => None
  end.

(** The state after [state->pos++; state->samples = 0;]. *)
Definition advance (st : playbg_state) : playbg_state :=
  set_samples (set_pos st (pos st + 1)) 0.

(** The events of a read that finds the open stream at its end, and of the
    close that follows. *)
Definition eof_events (ch : ast_channel) : list event :=
  match stream ch with
  | Some s => [EvRead (fs_name s) None; EvClose (fs_name s)]
  | None => []
  end.

(** The frames written to the channel, with the result of each write. *)
Fixpoint writes (evs : list event) : list (ast_frame * Z) :=
  match evs with
  | [] => []
  | EvWrite f r :: evs => (f, r) :: writes evs
  | _ :: evs => writes evs
  end.

(** The index is in range for a state with files, and a state whose index
    is past the files has offset 0 and no open stream. *)
Definition wrap_inv (ch : ast_channel) (st : playbg_state) : Prop :=
  1 <= nfiles st /\ 0 <= pos st
  /\ (nfiles st <= pos st -> samples st = 0 /\ stream ch = None).

(** The samples of the frames handed to [ast_write]. *)
Definition written_samples (evs : list event) : Z :=
  fold_right (fun w acc => frame_samples (fst w) + acc) 0 (writes evs).

(** Whether a write failed. *)
Definition write_failed (evs : list event) : bool :=
  existsb (fun w => snd w <? 0) (writes evs).

(** The frames the loop takes from a stream for a queue of [q] samples. *)
Fixpoint consume (q : Z) (l : list ast_frame) : list ast_frame :=
  match l with
  | [] => []
  | f :: t => if q >? 0 then f :: consume (q - frame_samples f) t else []
  end.

(** The samples of a list of frames. *)
Fixpoint sum_samples (l : list ast_frame) : Z :=
  match l with
  | [] => 0
  | f :: t => frame_samples f + sum_samples t
  end.

(** The events of frames read from the file [name] and written. *)
Definition play_events (name : string) (l : list ast_frame) : list event :=
  flat_map (fun f => [EvRead name (Some f); EvWrite f 0]) l.

(** Frames of at least one sample each. *)
Definition positive_frames (l : list ast_frame) : Prop :=
  Forall (fun f => 0 < frame_samples f) l.

(** Frames come from the sound files or from the stream that was open:
    [P] holds of every frame of every sound file, ... *)
Definition sounds_all (P : ast_frame -> Prop) : Prop :=
  forall name fr, sounds h name = Some fr -> Forall P fr.

(** ... and of every frame left in the open stream. *)
Definition stream_all (P : ast_frame -> Prop) (ch : ast_channel) : Prop :=
  forall s, stream ch = Some s -> Forall P (fs_rest s).

(** What [playbg_start] installs for the names [names], on a host whose
    allocations succeed. *)
Definition started_state (names : list string) (wfmt : Z) : playbg_state :=
  mkState (map Some names) 0 (Z.of_nat (List.length names)) wfmt 0 0.

(** The frames of the entry [i] of the state: none when the entry is NULL
    or names a file that cannot be opened. *)
Definition entry_frames (st : playbg_state) (i : Z) : option (list ast_frame) :=
  match filearray_at st i with
  | Some name => sounds h name
  | None => None
  end.

(** The index after [b], back to 0 past the last file. *)
Definition next_pos (st : playbg_state) (b : Z) : Z :=
  if b + 1 >=? nfiles st then 0 else b + 1.

(** The samples a sound file holds. *)
Definition duration (name : string) : Z :=
  match sounds h name with
  | Some fr => sum_samples fr
  | None => 0
  end.

(** A sound file that can be opened and holds frames, each of at least
    one sample. *)
Definition playable (name : string) : Prop :=
  exists f r, sounds h name = Some (f :: r) /\ positive_frames (f :: r).

(** The channel after the file [i] of [names] was played to its end: the
    index is [i], the offset is the duration of the file, the queue is
    empty and the stream is open at the end of the file. *)
Definition at_end_of (names : list string) (i : nat) (ch : ast_channel) : Prop :=
  exists st name fr,
    chan_state ch = Some st
    /\ filearray st = map Some names
    /\ nfiles st = Z.of_nat (List.length names)
    /\ pos st = Z.of_nat i
    /\ nth_error names i = Some name
    /\ sounds h name = Some fr
    /\ samples st = sum_samples fr
    /\ sample_queue st = 0
    /\ stream ch = Some (mkStream name fr []).

(** What an invocation that played the file [name] of index [i] to its end
    shows: it returned 0, the index is [i] and the offset the duration of
    the file. *)
Definition visit (i : nat) (name : string) : Z * option (Z * Z) :=
  (0, Some (Z.of_nat i, duration name)).

(** The same for the files [names], of indices [from], [from + 1], ... *)
Definition visits (from : nat) (names : list string) : list (Z * option (Z * Z)) :=
  map (fun p => visit (fst p) (snd p)) (combine (seq from (List.length names)) names).

(** The index after each invocation of a run. *)
Definition indices (l : list (Z * option (Z * Z))) : list Z :=
  map (fun x => match snd x with Some (p, _) => p | None => -1 end) l.

(** The index after Start and after each invocation of a run, for the
    specification [spec] and the requests [reqs]. *)
Definition index_trace (fuel : nat) (ch0 : ast_channel) (spec : string)
           (reqs : list Z) : option (list Z) :=
  let ch := snd (playbg_exec_start h ch0 (Some spec)) in
  match chan_state ch, generator_run h fuel ch reqs with
  | Some st, Some (l, _) => Some (pos st :: indices l)
  | _, _ => None
  end.

(** The channels the module can build: from a channel without a
    datastore, by Start, Stop and Resume, by invocations of the generator,
    and by the host deactivating the generator. *)
Inductive reachable : ast_channel -> Prop :=
| reach_idle ch : datastore ch = None -> reachable ch
| reach_start ch data :
    reachable ch -> reachable (snd (playbg_exec_start h ch data))
| reach_stop ch :
    reachable ch -> reachable (snd (playbg_exec_stop h ch))
| reach_resume ch :
    reachable ch -> reachable (snd (playbg_exec_resume h ch))
| reach_generator ch fuel n r ch' :
    reachable ch -> playbg_generator h fuel ch n = Some (r, ch') -> reachable ch'
| reach_deactivate ch :
    reachable ch -> reachable (ast_deactivate_generator h ch).

(** The events of a request for more samples than the single file of the
    list holds: the file is played, found at its end, opened again at the
    recorded offset [total], where it has no frame, then opened a third
    time, with no seek, and played from its start. *)
Definition wrap_events (name : string) (fr l2 : list ast_frame) (total : Z)
  : list event :=
  (EvOpen name true :: play_events name fr
   ++ [EvRead name None; EvClose name;
       EvOpen name true; EvSeek name total; EvRead name None; EvClose name;
       EvOpen name true]
   ++ play_events name l2)%list.

End Vocabulary.

(** ** Hosts and channels of the examples *)

(** Two files of one frame of 160 samples each. *)
Definition two_files_host : host :=
  plain_host (sounds_of [("a", [160]); ("b", [160])]).

(** One file, read as frames of the given samples. *)
Definition one_file_host (name : string) (fr : list Z) : host :=
  plain_host (sounds_of [(name, fr)]).

(** A file "good" of two frames; no file "bad". *)
Definition bad_good_host : host :=
  plain_host (sounds_of [("good", [160; 160])]).

(** Files "a" and "c" of one frame each; no file "bad". *)
Definition gap_host : host :=
  plain_host (sounds_of [("a", [160]); ("c", [160])]).

(** Files "a" of two frames and "b" of one. *)
Definition two_frames_host : host :=
  plain_host (sounds_of [("a", [160; 160]); ("b", [160])]).

(** The channel after Start on "a&b" and a request of 160 samples: the
    first frame of "a" went out and the stream is open after it. *)
Definition playing_chan : ast_channel :=
  let ch := snd (playbg_exec_start two_frames_host (fresh_chan 8) (Some "a&b")) in
  match playbg_generator two_frames_host 4 ch 160 with
  | Some (_, c) => c
  | None => ch
  end.

(** The state on [playing_chan]. *)
Definition playing_state : playbg_state :=
  mkState [Some "a"; Some "b"] 0 2 8 160 0.

(** The same after the host deactivated the generator (some other sound
    was played on the channel). *)
Definition interrupted_chan : ast_channel :=
  ast_deactivate_generator two_frames_host playing_chan.

(** The channel after Start on "bad&good", where "bad" cannot be opened. *)
Definition bad_good_chan : ast_channel :=
  snd (playbg_exec_start bad_good_host (fresh_chan 0) (Some "bad&good")).

(** The state on [bad_good_chan]. *)
Definition bad_good_state : playbg_state :=
  mkState [Some "bad"; Some "good"] 0 2 0 0 0.

(** The files opened, in the order of the opens. *)
Fixpoint opened (evs : list event) : list string :=
  match evs with
  | [] => []
  | EvOpen name true :: evs => name :: opened evs
  | _ :: evs => opened evs
  end.

(** ** Stronger statements, which the runs below refute *)

(** The index after Start and after each of the N invocations is 0, 1,
    ..., N-1, 0. *)
Definition visits_then_wraps (h : host) (fuel : nat) (ch0 : ast_channel)
           (names : list string) : Prop :=
  index_trace h fuel ch0 (String.concat "&" names) (map (duration h) names)
  = Some (map Z.of_nat (seq 0 (List.length names)) ++ [0])%list.

(** After a request of [n] samples on the one file [name] of [total]
    samples: the index is 0, the file was sought to 0, and [n - total]
    samples were taken from its start. *)
Definition wraps_exactly (h : host) (fuel : nat) (ch0 : ast_channel)
           (name : string) (n total : Z) : Prop :=
  exists ch' st',
    playbg_generator h fuel (snd (playbg_exec_start h ch0 (Some name))) n
    = Some (0, ch')
    /\ chan_state ch' = Some st'
    /\ pos st' = 0
    /\ samples st' = n - total
    /\ In (EvSeek name 0) (events ch').

(** No invocation of the run returns -1. *)
Definition never_halts (h : host) (fuel : nat) (ch0 : ast_channel)
           (spec : string) (reqs : list Z) : Prop :=
  exists l ch',
    generator_run h fuel (snd (playbg_exec_start h ch0 (Some spec))) reqs
    = Some (l, ch')
    /\ Forall (fun x => fst x <> -1) l.

(** * The rest of the module *)

(** ** Loading and unloading *)

(** The three applications of the module ([app1], [app2], [app3]). *)
Definition app1 : string := "StartPlayBG".
Definition app2 : string := "StopPlayBG".
Definition app3 : string := "ResumePlayBG".

(** The function an application runs: [playbg_exec_start],
    [playbg_exec_stop] or [playbg_exec_resume]. *)
Inductive app_exec := ExecStart | ExecStop | ExecResume.

(** What the loader of the host answers: the result of
    [ast_register_application] for a name and its function, and of
    [ast_unregister_application] for a name. *)
Record loader := mkLoader {
  register_res : string -> app_exec -> Z;
  unregister_res : string -> Z
}.

(** A call to the loader. *)
Inductive loader_call :=
| Register (name : string) (exec : app_exec)
| Unregister (name : string).

(** [load_module]: the result, and the calls made. *)
Definition load_module (l : loader) : Z * list loader_call :=
  let res := 0 in
  let res := Z.lor res (register_res l app1 ExecStart) in
  let res := Z.lor res (register_res l app2 ExecStop) in
  let res := Z.lor res (register_res l app3 ExecResume) in
  (res, [Register app1 ExecStart; Register app2 ExecStop; Register app3 ExecResume]).

(** [unload_module] *)
Definition unload_module (l : loader) : Z * list loader_call :=
  let res := 0 in
  let res := Z.lor res (unregister_res l app1) in
  let res := Z.lor res (unregister_res l app2) in
  let res := Z.lor res (unregister_res l app3) in
  (res, [Unregister app1; Unregister app2; Unregister app3]).

(** The name a call to the loader is about. *)
Definition call_name (c : loader_call) : string :=
  match c with
  | Register name _ => name
  | Unregister name => name
  end.

(** ** Vocabulary of the further properties *)

(** The number of '&' in a string. *)
Fixpoint count_amp (s : string) : nat :=
  match s with
  | EmptyString => 0%nat
  | String c r => if Ascii.eqb c "&" then S (count_amp r) else count_amp r
  end.

(** Successful opens less closes in a history: the streams left open. *)
Fixpoint open_balance (evs : list event) : Z :=
  match evs with
  | [] => 0
  | EvOpen _ true :: evs => 1 + open_balance evs
  | EvClose _ :: evs => open_balance evs - 1
  | _ :: evs => open_balance evs
  end.

(** The history accounts for the stream of the channel: one stream is
    left open when the channel has one, none otherwise. *)
Definition no_leak (ch : ast_channel) : Prop :=
  open_balance (events ch) = match stream ch with Some _ => 1 | None => 0 end.

(** The index after [i] in a list of [n] files. *)
Definition next_index (n i : nat) : nat :=
  if (S i <? n)%nat then S i else 0%nat.

Section Playlist.

Variable h : host.

(** The frames of the file [i] of [names]; none when there is no such file
    or when it cannot be opened. *)
Definition file_frames (names : list string) (i : nat) : list ast_frame :=
  match nth_error names i with
  | Some name =>
      match sounds h name with
      | Some fr => fr
      | None => []
      end
  | None => []
  end.

(** The next [n] frames of the list played round and round, from the
    frames [rest] left of the file [i]. *)
Fixpoint playlist (names : list string) (i : nat) (rest : list ast_frame)
         (n : nat) : list ast_frame :=
  match n with
  | O => []
  | S n =>
      match rest with
      | f :: r => f :: playlist names i r n
      | [] =>
          match file_frames names (next_index (List.length names) i) with
          | f :: r => f :: playlist names (next_index (List.length names) i) r n
          | [] => []
          end
      end
  end.

(** The file and the frames left of it after these [n] frames. *)
Fixpoint playlist_after (names : list string) (i : nat) (rest : list ast_frame)
         (n : nat) : nat * list ast_frame :=
  match n with
  | O => (i, rest)
  | S n =>
      match rest with
      | f :: r => playlist_after names i r n
      | [] =>
          match file_frames names (next_index (List.length names) i) with
          | f :: r => playlist_after names (next_index (List.length names) i) r n
          | [] => (i, rest)
          end
      end
  end.

(** The channel is at the file [i] of [names] with the frames [rest] of it
    still to come: the index is [i], the offset is the samples of the
    frames before [rest], and the stream, when there is one, is open on
    the file with [rest] left. *)
Definition playing_at (names : list string) (i : nat) (rest : list ast_frame)
           (ch : ast_channel) : Prop :=
  exists st name pre,
    chan_state ch = Some st
    /\ filearray st = map Some names
    /\ nfiles st = Z.of_nat (List.length names)
    /\ pos st = Z.of_nat i
    /\ nth_error names i = Some name
    /\ sounds h name = Some (pre ++ rest)%list
    /\ sum_samples pre = samples st
    /\ (stream ch = None
        \/ stream ch = Some (mkStream name (pre ++ rest)%list rest)).

(** [k] frames of the list played round are the fewest that hold the
    [q] samples asked for. *)
Definition shortest_cover (q : Z) (names : list string) (i : nat)
           (rest : list ast_frame) (k : nat) : Prop :=
  q - sum_samples (playlist names i rest k) <= 0
  /\ forall m, (m < k)%nat -> 0 < q - sum_samples (playlist names i rest m).

(** The array of the state holds [nfiles] entries and the index is within
    it, or one past its end. *)
Definition in_bounds (st : playbg_state) : Prop :=
  nfiles st = Z.of_nat (List.length (filearray st))
  /\ 1 <= nfiles st
  /\ 0 <= pos st <= nfiles st.

End Playlist.
(** ** Hosts of the further examples *)


(** The same files, on a host where the state cannot be allocated. *)
Definition no_memory_host : host :=
  mkHost (sounds_of [("a", [160; 160]); ("b", [160])])
         (fun _ _ => true) (fun _ => true) true false true (fun _ => true).

(** * The generator in the arithmetic of [int] *)

(** The sample counts and the fields of the state are C [int]s.  The
    functions above compute in [Z]; [playbg_generator_int] below is
    [playbg_generator] with its three updates computed as the 32-bit
    [int]s they are, and agrees with it as long as the offset and the
    queue stay within the values of an [int]. *)

(** The [int] that a result wraps around to (two's complement, 32 bits). *)
Definition wrap_int (z : Z) : Z :=
  (z + 2147483648) mod 4294967296 - 2147483648.

(** The values of an [int]. *)
Definition in_int (z : Z) : Prop := -2147483648 <= z <= 2147483647.

(** The sample count of a frame: an [int] that is not negative. *)
Definition sample_count (f : ast_frame) : Prop :=
  0 <= frame_samples f <= 2147483647.

Section HostInt.

Variable h : host.

(** The [while (state->sample_queue > 0)] loop of [playbg_generator], with
    [state->samples += f->samples] and [state->sample_queue -= f->samples]
    in the arithmetic of [int]. *)
Fixpoint generator_loop_int (fuel : nat) (ch : ast_channel) (res : Z)
  : option (Z * ast_channel) :=
  match chan_state ch with
  | None => Some (-1, ch)
  | Some state =>
      if sample_queue state >? 0 then
        match fuel with
        | O => None
        | S fuel =>
            match playbg_readframe h ch with
            | (Some f, ch) =>
                match chan_state ch with
                | None => Some (-1, ch)
                | Some state =>
                    let state :=
                      set_samples state (wrap_int (samples state + frame_samples f)) in
                    let state :=
                      set_sample_queue state
                        (wrap_int (sample_queue state - frame_samples f)) in
                    let ch := store_state ch state in
                    let (res, ch) := ast_write h ch f in
                    if res <? 0 then Some (-1, ch)
                    else generator_loop_int fuel ch res
                end
            | (None, ch) => Some (-1, ch)
            end
        end
      else Some (res, ch)
  end.

(** [playbg_generator], with [state->sample_queue += samples] in the
    arithmetic of [int]. *)
Definition playbg_generator_int (fuel : nat) (ch : ast_channel) (nsamples : Z)
  : option (Z * ast_channel) :=
  match ast_channel_datastore_find ch with
  | None => Some (-1, ch)
  | Some ds =>
      match data ds with
      | None => Some (-1, ch)
      | Some state =>
          let state :=
            set_sample_queue state (wrap_int (sample_queue state + nsamples)) in
          generator_loop_int fuel (store_state ch state) 0
      end
  end.

(** The host calling [playbg_generator_int] once per request of [reqs]:
    what each call returned. *)
Fixpoint generator_run_int (fuel : nat) (ch : ast_channel) (reqs : list Z)
  : option (list Z * ast_channel) :=
  match reqs with
  | [] => Some ([], ch)
  | n :: reqs =>
      match playbg_generator_int fuel ch n with
      | None => None
      | Some (res, ch) =>
          match generator_run_int fuel ch reqs with
          | None => None
          | Some (l, ch') => Some (res :: l, ch')
          end
      end
  end.

(** The offset and the queue of the channel are [int]s, and the offset is
    where the stream is: with the frames left of the stream it stays
    within the values of an [int]. *)
Definition offsets_in_int (ch : ast_channel) (st : playbg_state) : Prop :=
  in_int (sample_queue st)
  /\ 0 <= samples st <= 2147483647
  /\ (forall s, stream ch = Some s ->
                samples st + sum_samples (fs_rest s) <= 2147483647).

(** No sound file of the host holds more samples than an [int] counts. *)
Definition durations_in_int : Prop :=
  forall name fr, sounds h name = Some fr -> sum_samples fr <= 2147483647.

(** What the release hook asks the channel for, for the state [st]. *)
Definition restore_events (st : playbg_state) : list event :=
  if origwfmt st =? 0 then []
  else [EvSetWriteFormat (origwfmt st) (if fmt_ok h (origwfmt st) then 0 else -1)].

End HostInt.

(** ** More channels of the examples *)

(** The channel after Start on "bad" alone, which cannot be opened. *)
Definition bad_chan : ast_channel :=
  snd (playbg_exec_start bad_good_host (fresh_chan 0) (Some "bad")).

(** [playing_chan] once its datastore is removed, as Stop and Start have
    it when they deactivate the generator: the stream of "a" is open. *)
Definition detached_chan : ast_channel := set_datastore playing_chan None.

(** [playing_chan], whose state recorded the write format 8, with the
    write format 5. *)
Definition retuned_chan : ast_channel := set_writeformat playing_chan 5.

(** [interrupted_chan] after Resume: no stream is open, the index is 0
    and the offset 160. *)
Definition resumed_chan : ast_channel :=
  snd (playbg_exec_resume two_frames_host interrupted_chan).

(** The files of [two_frames_host], on a host where no write succeeds. *)
Definition deaf_host : host :=
  mkHost (sounds_of [("a", [160; 160]); ("b", [160])])
         (fun _ _ => false) (fun _ => true) true true true (fun _ => true).

(** The channel after Start on "a" on that host. *)
Definition deaf_chan : ast_channel :=
  snd (playbg_exec_start deaf_host (fresh_chan 0) (Some "a")).

(** ** More statements that runs refute *)

(** The queue is at or below 0 whenever an invocation returns. *)
Definition drained_on_return (h : host) (fuel : nat) (ch : ast_channel) (n : Z)
  : Prop :=
  forall r ch' st',
    playbg_generator_int h fuel ch n = Some (r, ch') -> chan_state ch' = Some st' ->
    sample_queue st' <= 0.

(** Every invocation of the run returns -1. *)
Definition every_invocation_fails (h : host) (fuel : nat) (ch : ast_channel)
           (reqs : list Z) : Prop :=
  exists l ch',
    generator_run_int h fuel ch reqs = Some (l, ch')
    /\ Forall (fun r => r = -1) l.

(** The release hook leaves no stream open. *)
Definition release_closes_stream (h : host) (ch : ast_channel) : Prop :=
  stream (playbg_release h ch) = None.

(** * Properties *)

(** ** Parsing *)

Lemma strsep_all_no_amp (s : string) : no_amp s -> strsep_all s = [s].
Proof.
  unfold no_amp. induction s as [|c r IH]; simpl; [reflexivity|].
  destruct (Ascii.eqb c "&"); [discriminate|].
  intros H. rewrite (IH H). reflexivity.
Qed.

Lemma strsep_all_app (a r : string) :
  no_amp a -> strsep_all (a ++ String "&" r) = a :: strsep_all r.
Proof.
  unfold no_amp. induction a as [|c a IH]; simpl; [reflexivity|].
  destruct (Ascii.eqb c "&"); [discriminate|].
  intros H. rewrite (IH H). reflexivity.
Qed.

Lemma strchr_amp_app (a r : string) : strchr_amp (a ++ String "&" r) = true.
Proof.
  induction a as [|c a IH]; simpl; [reflexivity|].
  destruct (Ascii.eqb c "&"); [reflexivity|exact IH].
Qed.

Lemma strsep_all_concat (names : list string) :
  names <> [] -> Forall no_amp names ->
  strsep_all (String.concat "&" names) = names.
Proof.
  induction names as [|a l IH]; [congruence|].
  intros _ Hall. inversion Hall as [|? ? Ha Hl]; subst.
  destruct l as [|b l].
  - simpl. apply strsep_all_no_amp, Ha.
  - change (String.concat "&" (a :: b :: l))
      with (a ++ String "&" (String.concat "&" (b :: l))).
    rewrite (strsep_all_app _ _ Ha), IH; [reflexivity|congruence|exact Hl].
Qed.

Lemma strchr_amp_concat (names : list string) :
  Forall no_amp names ->
  strchr_amp (String.concat "&" names) = (2 <=? List.length names)%nat.
Proof.
  intros Hall. destruct names as [|a [|b l]]; [reflexivity| |].
  - simpl. inversion Hall; subst. assumption.
  - change (String.concat "&" (a :: b :: l))
      with (a ++ String "&" (String.concat "&" (b :: l))).
    rewrite strchr_amp_app. reflexivity.
Qed.

(** The names and the count [playbg_start] stores do not depend on which of
    its two branches ran. *)
Lemma strsep_all_length (s : string) : (1 <= List.length (strsep_all s))%nat.
Proof.
  induction s as [|c r IH]; simpl; [lia|].
  destruct (Ascii.eqb c "&"); simpl; [lia|].
  destruct (strsep_all r); simpl in *; lia.
Qed.

Section Facts.

Variable h : host.

(** ** Frames of the channel record *)

Lemma chan_state_datastore (ch : ast_channel) (st : playbg_state) :
  chan_state ch = Some st -> datastore ch = Some (mkDatastore (Some st)).
Proof.
  unfold chan_state. destruct (datastore ch) as [[d]|]; cbn;
    [intros ->; reflexivity|discriminate].
Qed.

Lemma set_pos_same (st : playbg_state) : set_pos st (pos st) = st.
Proof. destruct st; reflexivity. Qed.

Lemma seek_frames_0 (l : list ast_frame) : seek_frames 0 l = l.
Proof. destruct l; reflexivity. Qed.

(** ** The seek step *)

(** What [playbg_seek] does on a channel with a state, by cases on the
    entry at the index it works at. *)
Lemma playbg_seek_spec (ch : ast_channel) (st : playbg_state) :
  chan_state ch = Some st ->
  let r := fst (playbg_seek h ch) in
  let ch' := snd (playbg_seek h ch) in
  writeformat ch' = writeformat ch /\ generatordata ch' = generatordata ch
  /\ match filearray_at st (seek_pos st) with
     | None =>
         r = -1
         /\ chan_state ch' = Some (set_pos st (seek_pos st + 1))
         /\ stream ch' = None
         /\ events ch' = (events ch ++ close_events ch)%list
     | Some name =>
         match sounds h name with
         | None =>
             r = -1
             /\ chan_state ch' = Some (set_pos st (seek_pos st + 1))
             /\ stream ch' = None
             /\ events ch'
                = (events ch ++ close_events ch ++ [EvOpen name false])%list
         | Some fr =>
             r = 0
             /\ chan_state ch' = Some (set_pos st (seek_pos st))
             /\ stream ch'
                = Some (mkStream name fr (seek_frames (samples st) fr))
             /\ events ch'
                = (events ch ++ close_events ch
                     ++ open_events name (samples st))%list
         end
     end.
Proof.
  intros Hst. pose proof (chan_state_datastore ch st Hst) as Hds.
  unfold playbg_seek, ast_channel_datastore_find. rewrite Hds. cbn [data].
  unfold seek_pos, open_events, close_events, ast_openstream_full.
  assert (Hfa : forall p q, filearray_at (set_pos st p) q = filearray_at st q)
    by reflexivity.
  assert (Hnf : forall p, nfiles (set_pos st p) = nfiles st) by reflexivity.
  assert (Hsm : forall p, samples (set_pos st p) = samples st) by reflexivity.
  assert (Hps : forall p, pos (set_pos st p) = p) by reflexivity.
  destruct ch as [[s|] w d g ev]; cbn in Hds; subst d;
    unfold close_stream; cbn [stream writeformat events generatordata];
    (destruct (pos st >=? nfiles st) eqn:Ege;
     rewrite ?Hnf, ?Ege, ?Hfa;
     [destruct (filearray_at st 0) as [name|] eqn:Efa
     |destruct (filearray_at st (pos st)) as [name|] eqn:Efa];
     [destruct (sounds h name) as [fr|] eqn:Esnd;
      [rewrite ?Hsm; destruct (samples st =? 0) eqn:Esam;
       [apply Z.eqb_eq in Esam|]|]| |
      destruct (sounds h name) as [fr|] eqn:Esnd;
      [rewrite ?Hsm; destruct (samples st =? 0) eqn:Esam;
       [apply Z.eqb_eq in Esam|]|]|]);
    cbn; rewrite ?Hps, ?set_pos_same, ?Esam, ?seek_frames_0, <- ?app_assoc,
      ?app_nil_r;
    repeat split; reflexivity.
Qed.

(** ** One frame *)

Lemma ast_readframe_spec (ch : ast_channel) (s : ast_filestream) :
  stream ch = Some s ->
  ast_readframe ch
  = (hd_error (fs_rest s),
     log (set_stream ch (Some (mkStream (fs_name s) (fs_frames s) (tl (fs_rest s)))))
         (EvRead (fs_name s) (hd_error (fs_rest s)))).
Proof.
  intros Hs. unfold ast_readframe. rewrite Hs.
  destruct s as [n fr [|f r]]; cbn; [|reflexivity].
  destruct ch; cbn in *; subst; reflexivity.
Qed.

(** A seek step that opens the file [name], of frames [fr], followed by a
    read. *)
Lemma seek_and_read_opens (ch : ast_channel) (st : playbg_state)
      (name : string) (fr : list ast_frame) :
  chan_state ch = Some st ->
  filearray_at st (seek_pos st) = Some name -> sounds h name = Some fr ->
  let res := seek_and_read h ch in
  let rest := seek_frames (samples st) fr in
  fst res = hd_error rest
  /\ chan_state (snd res) = Some (set_pos st (seek_pos st))
  /\ stream (snd res) = Some (mkStream name fr (tl rest))
  /\ events (snd res)
     = (events ch ++ close_events ch ++ open_events name (samples st)
          ++ [EvRead name (hd_error rest)])%list
  /\ writeformat (snd res) = writeformat ch
  /\ generatordata (snd res) = generatordata ch.
Proof.
  intros Hst Hfa Hsnd.
  pose proof (playbg_seek_spec ch st Hst) as H. cbn zeta in H.
  rewrite Hfa, Hsnd in H. unfold seek_and_read.
  destruct (playbg_seek h ch) as [r c]. cbn [fst snd] in H.
  destruct H as (Hw & Hg & -> & Hst' & Hs & He). cbn [Z.eqb].
  rewrite (ast_readframe_spec c _ Hs). cbn.
  rewrite He, <- !app_assoc. repeat split; assumption.
Qed.

Lemma seek_target_some (st : playbg_state) (name : string) (fr : list ast_frame) :
  seek_target h st = Some (name, fr) ->
  filearray_at st (seek_pos st) = Some name /\ sounds h name = Some fr.
Proof.
  unfold seek_target. destruct (filearray_at st (seek_pos st)) as [n|]; [|discriminate].
  destruct (sounds h n) as [l|] eqn:E; [|discriminate].
  intros [= -> ->]. split; [reflexivity|exact E].
Qed.

(** A seek step on an entry that is NULL or cannot be opened. *)
Lemma seek_and_read_fails (ch : ast_channel) (st : playbg_state) :
  chan_state ch = Some st -> seek_target h st = None ->
  let res := seek_and_read h ch in
  fst res = None
  /\ chan_state (snd res) = Some (set_pos st (seek_pos st + 1))
  /\ stream (snd res) = None
  /\ events (snd res)
     = (events ch ++ close_events ch ++ failed_open_events st)%list
  /\ writeformat (snd res) = writeformat ch
  /\ generatordata (snd res) = generatordata ch.
Proof.
  intros Hst Ht.
  pose proof (playbg_seek_spec ch st Hst) as H. cbn zeta in H.
  unfold seek_target in Ht. unfold failed_open_events, seek_and_read.
  destruct (playbg_seek h ch) as [r c]. cbn [fst snd] in H.
  destruct (filearray_at st (seek_pos st)) as [name|].
  - destruct (sounds h name); [discriminate|].
    destruct H as (Hw & Hg & -> & Hst' & Hs & He). cbn.
    repeat split; assumption.
  - destruct H as (Hw & Hg & -> & Hst' & Hs & He). cbn.
    rewrite app_nil_r. repeat split; assumption.
Qed.

(** [playbg_readframe] when the open stream has a frame. *)
Lemma playbg_readframe_hot (ch : ast_channel) (s : ast_filestream)
      (f : ast_frame) (r : list ast_frame) :
  stream ch = Some s -> fs_rest s = f :: r ->
  playbg_readframe h ch
  = (Some f,
     log (set_stream ch (Some (mkStream (fs_name s) (fs_frames s) r)))
         (EvRead (fs_name s) (Some f))).
Proof.
  intros Hs Hr. unfold playbg_readframe.
  rewrite (ast_readframe_spec ch s Hs), Hr. reflexivity.
Qed.

(** [playbg_readframe] when there is no stream, or no frame left in it. *)
Lemma playbg_readframe_cold (ch : ast_channel) :
  fst (ast_readframe ch) = None ->
  playbg_readframe h ch
  = match seek_and_read h (snd (ast_readframe ch)) with
    | (Some f, c) => (Some f, c)
    | (None, c) =>
        match chan_state c with
        | Some st => seek_and_read h (store_state c (advance st))
        | None => (None, c)
        end
    end.
Proof.
  intros Hn. unfold playbg_readframe.
  destruct (ast_readframe ch) as [[f|] c]; cbn in Hn; [discriminate|]. cbn [snd].
  destruct (seek_and_read h c) as [[f|] c']; [reflexivity|].
  unfold ast_channel_datastore_find, chan_state.
  destruct (datastore c') as [[[st|]]|]; reflexivity.
Qed.

(** ** Frame requests that open a file *)

Lemma ast_readframe_none (ch : ast_channel) :
  fst (ast_readframe ch) = None ->
  let c := snd (ast_readframe ch) in
  datastore c = datastore ch /\ writeformat c = writeformat ch
  /\ generatordata c = generatordata ch
  /\ (events c ++ close_events c)%list = (events ch ++ eof_events ch)%list.
Proof.
  unfold ast_readframe, eof_events, close_events.
  destruct (stream ch) as [[n fr [|f r]]|] eqn:E; cbn; rewrite ?E; cbn;
    try discriminate; intros _; rewrite <- ?app_assoc; repeat split; reflexivity.
Qed.

Lemma seek_and_read_appends (ch : ast_channel) (st : playbg_state) :
  chan_state ch = Some st ->
  exists tail, events (snd (seek_and_read h ch)) = (events ch ++ tail)%list.
Proof.
  intros Hst. destruct (seek_target h st) as [[name fr]|] eqn:Et.
  - destruct (seek_target_some st name fr Et) as [Hfa Hfr].
    destruct (seek_and_read_opens ch st name fr Hst Hfa Hfr) as (_ & _ & _ & He & _).
    eexists. exact He.
  - destruct (seek_and_read_fails ch st Hst Et) as (_ & _ & _ & He & _).
    eexists. exact He.
Qed.

(** A frame request without a frame at hand, on a state whose entry can
    be opened: the file is opened and sought to the recorded offset, then
    read; whatever else the request does comes after. *)
Lemma playbg_readframe_first_seek (ch : ast_channel) (st : playbg_state)
      (name : string) (fr : list ast_frame) :
  chan_state ch = Some st -> fst (ast_readframe ch) = None ->
  seek_target h st = Some (name, fr) ->
  let res := playbg_readframe h ch in
  let rest := seek_frames (samples st) fr in
  (exists tail,
     events (snd res)
     = (events ch ++ eof_events ch ++ open_events name (samples st)
          ++ EvRead name (hd_error rest) :: tail)%list)
  /\ (forall f, hd_error rest = Some f ->
      fst res = Some f
      /\ chan_state (snd res) = Some (set_pos st (seek_pos st))
      /\ stream (snd res) = Some (mkStream name fr (tl rest))
      /\ events (snd res)
         = (events ch ++ eof_events ch ++ open_events name (samples st)
              ++ [EvRead name (Some f)])%list
      /\ writeformat (snd res) = writeformat ch
      /\ generatordata (snd res) = generatordata ch).
Proof.
  intros Hst Hn Ht. cbn zeta.
  destruct (seek_target_some st name fr Ht) as [Hfa Hfr].
  rewrite (playbg_readframe_cold ch Hn).
  destruct (ast_readframe_none ch Hn) as (Hd & Hwf & Hg & Hev).
  set (c0 := snd (ast_readframe ch)) in *.
  assert (Hst0 : chan_state c0 = Some st)
    by (unfold chan_state; rewrite Hd; exact Hst).
  destruct (seek_and_read_opens c0 st name fr Hst0 Hfa Hfr)
    as (Hf1 & Hs1 & Hstr1 & He1 & Hwf1 & Hg1).
  rewrite app_assoc, Hev, <- app_assoc in He1.
  destruct (seek_and_read h c0) as [[f|] c1]; cbn [fst snd] in *.
  - split.
    + exists []. rewrite He1. reflexivity.
    + intros g Hg'. rewrite Hg' in Hf1. injection Hf1 as ->.
      rewrite He1, Hg'. repeat split; try assumption; congruence.
  - rewrite Hs1. split.
    + destruct (seek_and_read_appends (store_state c1 (advance (set_pos st (seek_pos st))))
                  _ eq_refl) as (tail & Htl).
      exists tail. rewrite Htl. cbn [events store_state set_datastore].
      rewrite He1, <- !app_assoc. reflexivity.
    + intros g Hg'. rewrite Hg' in Hf1. discriminate.
Qed.

(** A frame request at the end of the file of the index, on to the next
    entry: the file is opened again at the recorded offset, where it has
    no frame; the index moves on and the offset goes to 0; the file of the
    new index is opened and its first frame returned. *)
Lemma playbg_readframe_next (ch : ast_channel) (st : playbg_state)
      (name name2 : string) (fr fr2 : list ast_frame) :
  chan_state ch = Some st -> fst (ast_readframe ch) = None ->
  seek_target h st = Some (name, fr) ->
  seek_frames (samples st) fr = [] ->
  let st1 := advance (set_pos st (seek_pos st)) in
  seek_target h st1 = Some (name2, fr2) ->
  let res := playbg_readframe h ch in
  fst res = hd_error fr2
  /\ chan_state (snd res) = Some (set_pos st1 (seek_pos st1))
  /\ stream (snd res) = Some (mkStream name2 fr2 (tl fr2))
  /\ events (snd res)
     = (events ch ++ eof_events ch ++ open_events name (samples st)
          ++ [EvRead name None; EvClose name; EvOpen name2 true;
              EvRead name2 (hd_error fr2)])%list
  /\ writeformat (snd res) = writeformat ch
  /\ generatordata (snd res) = generatordata ch.
Proof.
  intros Hst Hn Ht Hend st1 Ht1. cbn zeta.
  destruct (seek_target_some st name fr Ht) as [Hfa Hfr].
  destruct (seek_target_some st1 name2 fr2 Ht1) as [Hfa1 Hfr1].
  rewrite (playbg_readframe_cold ch Hn).
  destruct (ast_readframe_none ch Hn) as (Hd & Hwf & Hg & Hev).
  set (c0 := snd (ast_readframe ch)) in *.
  assert (Hst0 : chan_state c0 = Some st)
    by (unfold chan_state; rewrite Hd; exact Hst).
  destruct (seek_and_read_opens c0 st name fr Hst0 Hfa Hfr)
    as (Hf1 & Hs1 & Hstr1 & He1 & Hwf1 & Hg1).
  rewrite app_assoc, Hev, <- app_assoc, Hend in He1. rewrite Hend in Hf1, Hstr1.
  destruct (seek_and_read h c0) as [[f|] c1]; cbn [fst snd] in *; [discriminate|].
  rewrite Hs1. fold st1.
  set (c2 := store_state c1 st1).
  destruct (seek_and_read_opens c2 st1 name2 fr2 eq_refl Hfa1 Hfr1)
    as (Hf2 & Hs2 & Hstr2 & He2 & Hwf2 & Hg2).
  assert (Hcl : close_events c2 = [EvClose name])
    by (unfold close_events; cbn; rewrite Hstr1; reflexivity).
  rewrite Hcl in He2. cbn [samples st1 advance set_samples] in Hf2, Hstr2, He2.
  rewrite seek_frames_0 in Hf2, Hstr2, He2.
  rewrite Hf2, Hs2, Hstr2, He2, Hwf2, Hg2.
  cbn [events c2 store_state set_datastore writeformat generatordata].
  rewrite He1, <- !app_assoc. cbn.
  repeat split; try assumption; congruence.
Qed.

(** A frame request whose two seek steps open nothing. *)
Lemma playbg_readframe_fails (ch : ast_channel) (st : playbg_state) :
  chan_state ch = Some st -> fst (ast_readframe ch) = None ->
  seek_target h st = None ->
  let st1 := advance (set_pos st (seek_pos st + 1)) in
  seek_target h st1 = None ->
  let res := playbg_readframe h ch in
  fst res = None
  /\ chan_state (snd res) = Some (set_pos st1 (seek_pos st1 + 1))
  /\ stream (snd res) = None
  /\ events (snd res)
     = (events ch ++ eof_events ch ++ failed_open_events st
          ++ failed_open_events st1)%list
  /\ writeformat (snd res) = writeformat ch
  /\ generatordata (snd res) = generatordata ch.
Proof.
  intros Hst Hn Ht st1 Ht1. cbn zeta.
  rewrite (playbg_readframe_cold ch Hn).
  destruct (ast_readframe_none ch Hn) as (Hd & Hwf & Hg & Hev).
  set (c0 := snd (ast_readframe ch)) in *.
  assert (Hst0 : chan_state c0 = Some st)
    by (unfold chan_state; rewrite Hd; exact Hst).
  destruct (seek_and_read_fails c0 st Hst0 Ht)
    as (Hf1 & Hs1 & Hstr1 & He1 & Hwf1 & Hg1).
  rewrite app_assoc, Hev, <- app_assoc in He1.
  destruct (seek_and_read h c0) as [[f|] c1]; cbn [fst snd] in *; [discriminate|].
  rewrite Hs1. fold st1.
  set (c2 := store_state c1 st1).
  destruct (seek_and_read_fails c2 st1 eq_refl Ht1)
    as (Hf2 & Hs2 & Hstr2 & He2 & Hwf2 & Hg2).
  assert (Hcl : close_events c2 = [])
    by (unfold close_events; cbn; rewrite Hstr1; reflexivity).
  rewrite Hcl in He2.
  rewrite Hf2, Hs2, Hstr2, He2, Hwf2, Hg2.
  cbn [events c2 store_state set_datastore writeformat generatordata app].
  rewrite He1, <- !app_assoc.
  repeat split; try assumption; congruence.
Qed.

(** ** What a frame request keeps *)

Lemma writes_app (a b : list event) : writes (a ++ b) = (writes a ++ writes b)%list.
Proof.
  induction a as [|e a IH]; [reflexivity|].
  destruct e; cbn; rewrite IH; reflexivity.
Qed.

Lemma writes_close_events (ch : ast_channel) : writes (close_events ch) = [].
Proof. unfold close_events. destruct (stream ch); reflexivity. Qed.

Lemma writes_open_events (name : string) (off : Z) : writes (open_events name off) = [].
Proof. unfold open_events. destruct (off =? 0); reflexivity. Qed.

Lemma writes_failed_open_events (st : playbg_state) : writes (failed_open_events st) = [].
Proof. unfold failed_open_events. destruct (filearray_at st (seek_pos st)); reflexivity. Qed.

Lemma seek_pos_range (st : playbg_state) :
  1 <= nfiles st -> 0 <= pos st -> 0 <= seek_pos st < nfiles st.
Proof.
  intros Hn Hp. unfold seek_pos.
  destruct (pos st >=? nfiles st) eqn:E; [lia|].
  rewrite Z.geb_leb in E. apply Z.leb_gt in E. lia.
Qed.

(** A seek step and its read change the index of the state and nothing
    else in it; they write no frame; and they leave an index in range and
    a stream open on it, or the index one further and no stream. *)
Lemma seek_and_read_keeps (ch : ast_channel) (st : playbg_state) :
  chan_state ch = Some st ->
  let res := seek_and_read h ch in
  exists p,
    chan_state (snd res) = Some (set_pos st p)
    /\ writes (events (snd res)) = writes (events ch)
    /\ writeformat (snd res) = writeformat ch
    /\ generatordata (snd res) = generatordata ch
    /\ (1 <= nfiles st -> 0 <= pos st ->
        0 <= p <= nfiles st
        /\ (nfiles st <= p -> stream (snd res) = None)
        /\ (fst res <> None -> p < nfiles st)).
Proof.
  intros Hst. cbn zeta.
  destruct (seek_target h st) as [[name fr]|] eqn:Et.
  - destruct (seek_target_some st name fr Et) as [Hfa Hsnd].
    destruct (seek_and_read_opens ch st name fr Hst Hfa Hsnd)
      as (Hf & Hs & Hstr & Hev & Hw & Hg).
    exists (seek_pos st). rewrite Hs, Hev, Hw, Hg.
    rewrite !writes_app, writes_close_events, writes_open_events. cbn.
    rewrite app_nil_r. do 4 (split; [reflexivity|]).
    intros Hn Hp. pose proof (seek_pos_range st Hn Hp).
    split; [lia|]. split; intros; lia.
  - destruct (seek_and_read_fails ch st Hst Et)
      as (Hf & Hs & Hstr & Hev & Hw & Hg).
    exists (seek_pos st + 1). rewrite Hs, Hev, Hw, Hg, Hf.
    rewrite !writes_app, writes_close_events, writes_failed_open_events.
    rewrite !app_nil_r. do 4 (split; [reflexivity|]).
    intros Hn Hp. pose proof (seek_pos_range st Hn Hp).
    split; [lia|]. split; [intros _; exact Hstr|].
    intros Hc. exfalso. apply Hc. reflexivity.
Qed.

Lemma ast_readframe_keeps (ch : ast_channel) :
  let res := ast_readframe ch in
  datastore (snd res) = datastore ch
  /\ writes (events (snd res)) = writes (events ch)
  /\ writeformat (snd res) = writeformat ch
  /\ generatordata (snd res) = generatordata ch
  /\ (stream ch = None -> stream (snd res) = None)
  /\ (fst res <> None -> stream (snd res) <> None /\ stream ch <> None).
Proof.
  unfold ast_readframe.
  destruct (stream ch) as [[n fr [|f r]]|] eqn:E; cbn;
    rewrite ?writes_app, ?E; cbn; rewrite ?app_nil_r;
    repeat split; try reflexivity; try congruence.
Qed.

(** A frame request changes the index and the offset of the state and
    nothing else in it, writes no frame, and keeps [wrap_inv]; a frame
    comes from a stream open on an index in range. *)
Lemma playbg_readframe_keeps (ch : ast_channel) (st : playbg_state) :
  chan_state ch = Some st ->
  let res := playbg_readframe h ch in
  exists st',
    chan_state (snd res) = Some st'
    /\ filearray st' = filearray st /\ nfiles st' = nfiles st
    /\ origwfmt st' = origwfmt st /\ sample_queue st' = sample_queue st
    /\ writes (events (snd res)) = writes (events ch)
    /\ writeformat (snd res) = writeformat ch
    /\ generatordata (snd res) = generatordata ch
    /\ (wrap_inv ch st ->
        wrap_inv (snd res) st' /\ (fst res <> None -> pos st' < nfiles st')).
Proof.
  intros Hst. cbn zeta.
  pose proof (ast_readframe_keeps ch) as Hrd. cbn zeta in Hrd.
  destruct (fst (ast_readframe ch)) as [f|] eqn:Ef.
  - (* the open stream has a frame *)
    unfold playbg_readframe.
    destruct (ast_readframe ch) as [[f'|] c]; cbn in Ef; [|discriminate].
    cbn [fst snd] in *. destruct Hrd as (Hd & Hw & Hwf & Hg & _ & Hs).
    exists st. split; [unfold chan_state; rewrite Hd; exact Hst|].
    do 4 (split; [reflexivity|]).
    split; [exact Hw|]. split; [exact Hwf|]. split; [exact Hg|].
    intros (Hn & Hp & Hwrap).
    assert (Hlt : pos st < nfiles st).
    { destruct (Z_lt_le_dec (pos st) (nfiles st)) as [Hlt|Hle]; [exact Hlt|].
      destruct (Hwrap Hle) as [_ Hnone].
      destruct Hs as [_ Hs]; [discriminate|]. contradiction. }
    split; [|intros _; exact Hlt].
    split; [exact Hn|]. split; [exact Hp|]. intros Hle. lia.
  - rewrite (playbg_readframe_cold ch Ef).
    destruct Hrd as (Hd & Hw & Hwf & Hg & _ & _).
    set (c0 := snd (ast_readframe ch)) in *.
    assert (Hst0 : chan_state c0 = Some st)
      by (unfold chan_state; rewrite Hd; exact Hst).
    destruct (seek_and_read_keeps c0 st Hst0) as (p1 & Hs1 & Hw1 & Hwf1 & Hg1 & Hr1).
    destruct (seek_and_read h c0) as [[f|] c1]; cbn [fst snd] in *.
    + exists (set_pos st p1). split; [exact Hs1|].
      do 4 (split; [reflexivity|]).
      split; [congruence|]. split; [congruence|]. split; [congruence|].
      intros (Hn & Hp & _). destruct (Hr1 Hn Hp) as (Hp1 & Hs & Hf).
      assert (Hlt : p1 < nfiles st) by (apply Hf; discriminate).
      split; [|intros _; exact Hlt].
      split; [exact Hn|]. split; [cbn; lia|]. cbn. intros Hle. lia.
    + rewrite Hs1.
      set (c2 := store_state c1 (advance (set_pos st p1))).
      assert (Hst2 : chan_state c2 = Some (advance (set_pos st p1))) by reflexivity.
      destruct (seek_and_read_keeps c2 _ Hst2) as (p2 & Hs2 & Hw2 & Hwf2 & Hg2 & Hr2).
      exists (set_pos (advance (set_pos st p1)) p2). split; [exact Hs2|].
      do 4 (split; [reflexivity|]).
      split; [rewrite Hw2; cbn; congruence|].
      split; [rewrite Hwf2; cbn; congruence|].
      split; [rewrite Hg2; cbn; congruence|].
      intros (Hn & Hp & _). destruct (Hr1 Hn Hp) as (Hp1 & _).
      cbn in Hr2. destruct (Hr2 Hn) as (Hp2 & Hs & Hf); [lia|].
      split; [|cbn; exact Hf].
      split; [exact Hn|]. split; [cbn; lia|]. cbn. intros Hle.
      split; [reflexivity|apply Hs, Hle].
Qed.

(** ** The generator loop *)

Lemma written_samples_snoc (evs : list event) (f : ast_frame) (r : Z) :
  written_samples (evs ++ [EvWrite f r]) = written_samples evs + frame_samples f.
Proof.
  unfold written_samples. rewrite writes_app. cbn [writes].
  induction (writes evs) as [|w l IH]; cbn; [lia|]. rewrite IH. lia.
Qed.

Lemma write_failed_snoc (evs : list event) (f : ast_frame) (r : Z) :
  write_failed (evs ++ [EvWrite f r]) = write_failed evs || (r <? 0).
Proof.
  unfold write_failed. rewrite writes_app, existsb_app. cbn.
  rewrite orb_false_r. reflexivity.
Qed.

(** What the loop of the generator keeps and accounts for, whenever it
    returns: the files of the state, the balance between the queue and the
    samples handed to the channel, an empty queue unless it returns -1, no
    failed write unless it returns -1, and [wrap_inv]. *)
Lemma generator_loop_keeps (fuel : nat) :
  forall (ch : ast_channel) (res : Z) (st : playbg_state) (r : Z) (ch' : ast_channel),
    chan_state ch = Some st ->
    generator_loop h fuel ch res = Some (r, ch') ->
    exists st',
      chan_state ch' = Some st'
      /\ filearray st' = filearray st /\ nfiles st' = nfiles st
      /\ origwfmt st' = origwfmt st
      /\ sample_queue st' + written_samples (events ch')
         = sample_queue st + written_samples (events ch)
      /\ writeformat ch' = writeformat ch
      /\ generatordata ch' = generatordata ch
      /\ (r = -1 \/ (sample_queue st' <= 0 /\ (r = res \/ r = 0)))
      /\ (write_failed (events ch') = write_failed (events ch)
          \/ (r = -1 /\ exists evs f, events ch' = (evs ++ [EvWrite f (-1)])%list))
      /\ (wrap_inv ch st -> wrap_inv ch' st').
Proof.
  induction fuel as [|fuel IH]; intros ch res st r ch' Hst Hloop.
  - cbn in Hloop. rewrite Hst in Hloop.
    destruct (sample_queue st >? 0) eqn:Eq; [discriminate|].
    injection Hloop as <- <-. exists st.
    rewrite Z.gtb_ltb in Eq. apply Z.ltb_ge in Eq.
    split; [exact Hst|]. do 3 (split; [reflexivity|]).
    split; [reflexivity|]. split; [reflexivity|]. split; [reflexivity|].
    split; [right; split; [exact Eq|left; reflexivity]|].
    split; [left; reflexivity|]. intros Hw; exact Hw.
  - cbn in Hloop. rewrite Hst in Hloop.
    destruct (sample_queue st >? 0) eqn:Eq.
    2:{ injection Hloop as <- <-. exists st.
        rewrite Z.gtb_ltb in Eq. apply Z.ltb_ge in Eq.
        split; [exact Hst|]. do 3 (split; [reflexivity|]).
        split; [reflexivity|]. split; [reflexivity|]. split; [reflexivity|].
        split; [right; split; [exact Eq|left; reflexivity]|].
        split; [left; reflexivity|]. intros Hw; exact Hw. }
    destruct (playbg_readframe_keeps ch st Hst)
      as (st1 & Hst1 & Hfa & Hnf & How & Hsq & Hwr & Hwf & Hg & Hinv).
    destruct (playbg_readframe h ch) as [[f|] ch1]; cbn [fst snd] in *.
    + rewrite Hst1 in Hloop. unfold ast_write in Hloop.
      set (st2 := set_sample_queue (set_samples st1 (samples st1 + frame_samples f))
                    (sample_queue st1 - frame_samples f)) in *.
      set (c2 := store_state ch1 st2) in *.
      assert (Hev2 : events c2 = events ch1) by reflexivity.
      assert (Hws1 : written_samples (events ch1) = written_samples (events ch))
        by (unfold written_samples; rewrite Hwr; reflexivity).
      assert (Hwf1 : write_failed (events ch1) = write_failed (events ch))
        by (unfold write_failed; rewrite Hwr; reflexivity).
      assert (Hinv2 : forall e, wrap_inv ch st -> wrap_inv (log c2 e) st2).
      { intros e Hw. destruct (Hinv Hw) as ((Hn & Hp & _) & Hlt).
        assert (pos st1 < nfiles st1) by (apply Hlt; discriminate).
        split; [exact Hn|]. split; [exact Hp|]. cbn. intros Hle. lia. }
      destruct (write_ok h (events ch1) f) eqn:Ew.
      * cbn [Z.ltb Z.compare] in Hloop.
        assert (Hst3 : chan_state (log c2 (EvWrite f 0)) = Some st2) by reflexivity.
        destruct (IH _ _ _ _ _ Hst3 Hloop)
          as (st' & Hst' & Hfa' & Hnf' & How' & Hacc & Hwf' & Hg' & Hr & Hfail & Hinv').
        exists st'. split; [exact Hst'|].
        split; [rewrite Hfa'; exact Hfa|]. split; [rewrite Hnf'; exact Hnf|].
        split; [rewrite How'; exact How|].
        split.
        { rewrite Hacc. cbn [events log]. rewrite written_samples_snoc, Hev2, Hws1.
          cbn. lia. }
        split; [rewrite Hwf'; exact Hwf|]. split; [rewrite Hg'; exact Hg|].
        split.
        { destruct Hr as [Hr|[Hq [Hr|Hr]]]; [left; exact Hr| |];
            right; (split; [exact Hq|right; exact Hr]). }
        split.
        { destruct Hfail as [Hfail|Hfail]; [left|right; exact Hfail].
          rewrite Hfail. cbn [events log].
          rewrite write_failed_snoc, Hev2, Hwf1. cbn. apply orb_false_r. }
        intros Hw. apply Hinv', Hinv2, Hw.
      * cbn [Z.ltb Z.compare] in Hloop. injection Hloop as <- <-.
        exists st2. split; [reflexivity|].
        split; [exact Hfa|]. split; [exact Hnf|]. split; [exact How|].
        split.
        { cbn [events log]. rewrite written_samples_snoc, Hev2, Hws1. cbn. lia. }
        split; [exact Hwf|]. split; [exact Hg|].
        split; [left; reflexivity|].
        split; [right; split; [reflexivity|]; eexists _, _; reflexivity|].
        apply Hinv2.
    + injection Hloop as <- <-. exists st1.
      split; [exact Hst1|]. split; [exact Hfa|]. split; [exact Hnf|].
      split; [exact How|].
      split; [unfold written_samples; rewrite Hwr, Hsq; reflexivity|].
      split; [exact Hwf|]. split; [exact Hg|]. split; [left; reflexivity|].
      split; [left; unfold write_failed; rewrite Hwr; reflexivity|].
      intros Hw. apply Hinv, Hw.
Qed.

(** One turn of the loop that gets a frame and writes it. *)
Lemma generator_loop_step (fuel : nat) (ch ch1 : ast_channel) (res : Z)
      (st st1 : playbg_state) (f : ast_frame) :
  chan_state ch = Some st -> 0 < sample_queue st ->
  playbg_readframe h ch = (Some f, ch1) -> chan_state ch1 = Some st1 ->
  write_ok h (events ch1) f = true ->
  generator_loop h (S fuel) ch res
  = generator_loop h fuel
      (log (store_state ch1
              (set_sample_queue (set_samples st1 (samples st1 + frame_samples f))
                 (sample_queue st1 - frame_samples f)))
           (EvWrite f 0)) 0.
Proof.
  intros Hst Hq Hrd Hst1 Hw. cbn [generator_loop]. rewrite Hst.
  destruct (sample_queue st >? 0) eqn:E;
    [|rewrite Z.gtb_ltb in E; apply Z.ltb_ge in E; lia].
  rewrite Hrd, Hst1. unfold ast_write. cbn [events store_state set_datastore].
  rewrite Hw. reflexivity.
Qed.

Lemma sum_samples_nonneg (l : list ast_frame) :
  positive_frames l -> 0 <= sum_samples l.
Proof. induction 1 as [|f t Hf Ht IH]; cbn; lia. Qed.

Lemma generator_loop_done (fuel : nat) (ch : ast_channel) (res : Z)
      (st : playbg_state) :
  chan_state ch = Some st -> sample_queue st <= 0 ->
  generator_loop h fuel ch res = Some (res, ch).
Proof.
  intros Hst Hq.
  destruct fuel; cbn; rewrite Hst;
    (destruct (sample_queue st >? 0) eqn:E;
     [rewrite Z.gtb_ltb in E; apply Z.ltb_lt in E; lia|reflexivity]).
Qed.

Lemma set_fields_0 (st : playbg_state) :
  set_sample_queue (set_samples st (samples st + 0)) (sample_queue st - 0) = st.
Proof. rewrite Z.add_0_r, Z.sub_0_r. destruct st; reflexivity. Qed.

(** The loop on an open stream, on a channel whose writes succeed: the
    frames of [consume] are read and written in turn, one per turn, and
    the offset grows and the queue shrinks by their samples. *)
Lemma generator_loop_consume (rest : list ast_frame) :
  forall (fuel : nat) (ch : ast_channel) (res : Z) (st : playbg_state)
         (name : string) (frames : list ast_frame),
    (forall evs f, write_ok h evs f = true) ->
    chan_state ch = Some st ->
    stream ch = Some (mkStream name frames rest) ->
    let l := consume (sample_queue st) rest in
    exists ch',
      generator_loop h (List.length l + fuel) ch res
      = generator_loop h fuel ch' (match l with [] => res | _ => 0 end)
      /\ chan_state ch'
         = Some (set_sample_queue (set_samples st (samples st + sum_samples l))
                   (sample_queue st - sum_samples l))
      /\ stream ch' = Some (mkStream name frames (skipn (List.length l) rest))
      /\ events ch' = (events ch ++ play_events name l)%list
      /\ writeformat ch' = writeformat ch
      /\ generatordata ch' = generatordata ch.
Proof.
  assert (Hnil : forall fuel ch res st name frames rest0,
             chan_state ch = Some st ->
             stream ch = Some (mkStream name frames rest0) ->
             exists ch',
               generator_loop h (0 + fuel) ch res = generator_loop h fuel ch' res
               /\ chan_state ch'
                  = Some (set_sample_queue (set_samples st (samples st + 0))
                            (sample_queue st - 0))
               /\ stream ch' = Some (mkStream name frames rest0)
               /\ events ch' = (events ch ++ [])%list
               /\ writeformat ch' = writeformat ch
               /\ generatordata ch' = generatordata ch).
  { intros fuel ch res st name frames rest0 Hst Hs. exists ch.
    rewrite set_fields_0, app_nil_r. repeat split; assumption. }
  induction rest as [|f t IH]; intros fuel ch res st name frames Hw Hst Hs l.
  - subst l. cbn. apply Hnil; assumption.
  - subst l. cbn [consume]. destruct (sample_queue st >? 0) eqn:E.
    + cbn [List.length sum_samples skipn play_events flat_map].
      rewrite Z.gtb_ltb in E. apply Z.ltb_lt in E.
      pose proof (playbg_readframe_hot ch _ f t Hs eq_refl) as Hrd.
      cbn [fs_name fs_frames] in Hrd.
      set (ch1 := log (set_stream ch (Some (mkStream name frames t)))
                      (EvRead name (Some f))) in *.
      assert (Hst1 : chan_state ch1 = Some st) by exact Hst.
      cbn [plus].
      rewrite (generator_loop_step _ ch ch1 res st st f Hst E Hrd Hst1 (Hw _ _)).
      set (st2 := set_sample_queue (set_samples st (samples st + frame_samples f))
                    (sample_queue st - frame_samples f)).
      set (ch3 := log (store_state ch1 st2) (EvWrite f 0)).
      destruct (IH fuel ch3 0 st2 name frames Hw eq_refl eq_refl)
        as (ch' & Hloop & Hst' & Hs' & Hev & Hwf & Hg).
      exists ch'. cbn in Hloop, Hst', Hs', Hev.
      split.
      { rewrite Hloop. destruct (consume (sample_queue st - frame_samples f) t);
          reflexivity. }
      split.
      { rewrite Hst'. unfold set_sample_queue, set_samples. cbn.
        f_equal. f_equal; lia. }
      split; [exact Hs'|].
      split; [rewrite Hev; cbn; rewrite <- !app_assoc; reflexivity|].
      split; [rewrite Hwf|rewrite Hg]; reflexivity.
    + cbn [List.length sum_samples skipn play_events flat_map].
      apply Hnil; assumption.
Qed.

(** The same when the stream holds enough frames for the queue: the loop
    returns with an empty queue. *)
Lemma generator_loop_hot (rest : list ast_frame) (fuel : nat) (ch : ast_channel)
      (res : Z) (st : playbg_state) (name : string) (frames : list ast_frame) :
  (forall evs f, write_ok h evs f = true) ->
  chan_state ch = Some st ->
  stream ch = Some (mkStream name frames rest) ->
  let l := consume (sample_queue st) rest in
  sample_queue st - sum_samples l <= 0 ->
  (List.length l <= fuel)%nat ->
  exists ch',
    generator_loop h fuel ch res = Some (match l with [] => res | _ => 0 end, ch')
    /\ chan_state ch'
       = Some (set_sample_queue (set_samples st (samples st + sum_samples l))
                 (sample_queue st - sum_samples l))
    /\ stream ch' = Some (mkStream name frames (skipn (List.length l) rest))
    /\ events ch' = (events ch ++ play_events name l)%list
    /\ writeformat ch' = writeformat ch
    /\ generatordata ch' = generatordata ch.
Proof.
  intros Hw Hst Hs l Hq Hfuel.
  destruct (generator_loop_consume rest (fuel - List.length l) ch res st name frames
              Hw Hst Hs) as (ch' & Hloop & Hst' & Hrest).
  fold l in Hloop, Hst', Hrest.
  replace (List.length l + (fuel - List.length l))%nat with fuel in Hloop by lia.
  exists ch'. rewrite Hloop.
  rewrite (generator_loop_done _ ch' _ _ Hst' Hq).
  split; [reflexivity|]. split; [exact Hst'|exact Hrest].
Qed.

(** One turn whose frame request gave the frame [f] and left the stream
    open, followed by the turns that take frames from that stream. *)
Lemma generator_loop_after_frame (fuel : nat) (ch ch1 : ast_channel) (res : Z)
      (st st1 : playbg_state) (f : ast_frame) (name : string)
      (frames rest : list ast_frame) :
  (forall evs f, write_ok h evs f = true) ->
  chan_state ch = Some st -> 0 < sample_queue st ->
  playbg_readframe h ch = (Some f, ch1) -> chan_state ch1 = Some st1 ->
  stream ch1 = Some (mkStream name frames rest) ->
  let l := consume (sample_queue st1 - frame_samples f) rest in
  exists ch',
    generator_loop h (S (List.length l + fuel)) ch res
    = generator_loop h fuel ch' 0
    /\ chan_state ch'
       = Some (set_sample_queue
                 (set_samples st1 (samples st1 + frame_samples f + sum_samples l))
                 (sample_queue st1 - frame_samples f - sum_samples l))
    /\ stream ch' = Some (mkStream name frames (skipn (List.length l) rest))
    /\ events ch' = (events ch1 ++ EvWrite f 0 :: play_events name l)%list
    /\ writeformat ch' = writeformat ch1
    /\ generatordata ch' = generatordata ch1.
Proof.
  intros Hw Hst Hq Hrd Hst1 Hs l.
  rewrite (generator_loop_step _ ch ch1 res st st1 f Hst Hq Hrd Hst1 (Hw _ _)).
  set (st2 := set_sample_queue (set_samples st1 (samples st1 + frame_samples f))
                (sample_queue st1 - frame_samples f)).
  set (ch3 := log (store_state ch1 st2) (EvWrite f 0)).
  destruct (generator_loop_consume rest fuel ch3 0 st2 name frames Hw eq_refl Hs)
    as (ch' & Hloop & Hst' & Hs' & Hev & Hwf & Hg).
  exists ch'. cbn in Hloop, Hst', Hs', Hev. fold l in Hloop, Hst', Hs', Hev.
  split.
  { rewrite Hloop. destruct l; reflexivity. }
  split; [exact Hst'|]. split; [exact Hs'|].
  split; [rewrite Hev, <- app_assoc; reflexivity|].
  split; [rewrite Hwf|rewrite Hg]; reflexivity.
Qed.

Lemma consume_more (l : list ast_frame) :
  positive_frames l -> forall q, sum_samples l <= q -> consume q l = l.
Proof.
  induction 1 as [|f t Hf Ht IH]; intros q Hq; [reflexivity|]. cbn in *.
  pose proof (sum_samples_nonneg t Ht).
  destruct (q >? 0) eqn:E; [|rewrite Z.gtb_ltb in E; apply Z.ltb_ge in E; lia].
  rewrite IH; [reflexivity|lia].
Qed.

Lemma seek_frames_end (l : list ast_frame) :
  positive_frames l -> forall off, sum_samples l <= off -> seek_frames off l = [].
Proof.
  induction 1 as [|f t Hf Ht IH]; intros off Hoff; [reflexivity|]. cbn in *.
  pose proof (sum_samples_nonneg t Ht).
  destruct (off <=? 0) eqn:E; [apply Z.leb_le in E; lia|].
  apply IH. lia.
Qed.

(** ** The frames of a frame request *)

Lemma seek_frames_Forall (P : ast_frame -> Prop) (l : list ast_frame) :
  Forall P l -> forall off, Forall P (seek_frames off l).
Proof.
  induction 1 as [|f t Hf Ht IH]; intros off; cbn; [constructor|].
  destruct (off <=? 0); [constructor; assumption|apply IH].
Qed.

Lemma Forall_hd_tl (P : ast_frame -> Prop) (l : list ast_frame) :
  Forall P l -> (forall f, hd_error l = Some f -> P f) /\ Forall P (tl l).
Proof.
  destruct 1 as [|f t Hf Ht]; cbn; split; try constructor; try assumption;
    intros g [=]; subst; assumption.
Qed.

Lemma seek_and_read_frames (P : ast_frame -> Prop) (ch : ast_channel)
      (st : playbg_state) :
  chan_state ch = Some st -> sounds_all h P ->
  let res := seek_and_read h ch in
  (forall f, fst res = Some f -> P f) /\ stream_all P (snd res).
Proof.
  intros Hst Hsnd. cbn zeta. unfold stream_all.
  destruct (seek_target h st) as [[name fr]|] eqn:Et.
  - destruct (seek_target_some st name fr Et) as [Hfa Hfr].
    destruct (seek_and_read_opens ch st name fr Hst Hfa Hfr)
      as (Hf & _ & Hstr & _).
    rewrite Hf, Hstr.
    destruct (Forall_hd_tl P _ (seek_frames_Forall P fr (Hsnd _ _ Hfr) (samples st)))
      as [Hh Ht].
    split; [exact Hh|]. intros s [= <-]. exact Ht.
  - destruct (seek_and_read_fails ch st Hst Et) as (Hf & _ & Hstr & _).
    rewrite Hf, Hstr. split; intros; discriminate.
Qed.

Lemma playbg_readframe_frames (P : ast_frame -> Prop) (ch : ast_channel)
      (st : playbg_state) :
  chan_state ch = Some st -> sounds_all h P -> stream_all P ch ->
  let res := playbg_readframe h ch in
  (forall f, fst res = Some f -> P f) /\ stream_all P (snd res).
Proof.
  intros Hst Hsnd Hstr. cbn zeta.
  destruct (fst (ast_readframe ch)) as [f|] eqn:Ef.
  - unfold ast_readframe in Ef.
    destruct (stream ch) as [s|] eqn:Es; [|discriminate].
    destruct (fs_rest s) as [|g r] eqn:Er; [discriminate|].
    rewrite (playbg_readframe_hot ch s g r Es Er). cbn.
    pose proof (Hstr s Es) as Hall. rewrite Er in Hall.
    inversion Hall; subst. split.
    + intros ? [= <-]. assumption.
    + intros s' [= <-]. assumption.
  - rewrite (playbg_readframe_cold ch Ef).
    pose proof (ast_readframe_keeps ch) as (Hd & _).
    set (c0 := snd (ast_readframe ch)) in *.
    assert (Hst0 : chan_state c0 = Some st)
      by (unfold chan_state; rewrite Hd; exact Hst).
    pose proof (seek_and_read_frames P c0 st Hst0 Hsnd) as H1.
    destruct (seek_and_read_keeps c0 st Hst0) as (p1 & Hs1 & _).
    destruct (seek_and_read h c0) as [[f|] c1]; cbn [fst snd] in *; [exact H1|].
    rewrite Hs1.
    apply (seek_and_read_frames P _ (advance (set_pos st p1))); [reflexivity|exact Hsnd].
Qed.

(** ** The generator *)

Lemma playbg_generator_unfold (fuel : nat) (ch : ast_channel)
      (st : playbg_state) (n : Z) :
  chan_state ch = Some st ->
  playbg_generator h fuel ch n
  = generator_loop h fuel
      (store_state ch (set_sample_queue st (sample_queue st + n))) 0.
Proof.
  intros Hst. unfold playbg_generator, ast_channel_datastore_find.
  rewrite (chan_state_datastore ch st Hst). reflexivity.
Qed.

(** ** Start *)

Lemma playbg_start_names (ch : ast_channel) (spec : string) :
  spec <> "" ->
  datastore_alloc_ok h = true -> state_alloc_ok h = true ->
  filearray_alloc_ok h = true ->
  Forall (fun n => strdup_ok h n = true) (strsep_all spec) ->
  exists ch',
    playbg_start h ch (Some spec) = (0, ch')
    /\ chan_state ch' = Some (started_state (strsep_all spec) (writeformat ch))
    /\ generatordata ch' = true
    /\ writeformat ch' = writeformat ch
    /\ (stream ch = None \/ datastore ch <> None -> stream ch' = None)
    /\ (generatordata ch = false -> stream ch = None -> events ch' = events ch).
Proof.
  intros Hne Hd Hs Hf Hdup.
  unfold playbg_start.
  destruct spec as [|c r]; [congruence|].
  cbn [ast_strlen_zero String.length Nat.eqb].
  set (spec := String c r) in *.
  assert (Hn : (if strchr_amp spec then Z.of_nat (List.length (strsep_all spec)) else 1)
               = Z.of_nat (List.length (strsep_all spec))).
  { destruct (strchr_amp spec) eqn:E; [reflexivity|].
    rewrite (strsep_all_no_amp spec E). reflexivity. }
  assert (Hfiles : (if strchr_amp spec then map (ast_strdup h) (strsep_all spec)
                    else [ast_strdup h spec]) = map Some (strsep_all spec)).
  { assert (Hm : map (ast_strdup h) (strsep_all spec) = map Some (strsep_all spec)).
    { apply map_ext_in. intros a Ha. unfold ast_strdup.
      rewrite Forall_forall in Hdup. rewrite (Hdup a Ha). reflexivity. }
    destruct (strchr_amp spec) eqn:E; [exact Hm|].
    rewrite <- Hm, (strsep_all_no_amp spec E). reflexivity. }
  rewrite Hn, Hfiles, Hd, Hs, Hf.
  pose proof (strsep_all_length spec) as Hlen.
  destruct (Z.of_nat (List.length (strsep_all spec)) <? 1) eqn:E;
    [apply Z.ltb_lt in E; lia|].
  cbn [negb]. unfold started_state.
  generalize (strsep_all spec) as names. intros names.
  unfold ast_activate_generator, ast_deactivate_generator, playbg_release,
    playbg_alloc, ast_channel_datastore_find, ast_set_write_format,
    close_stream, chan_state, store_state.
  destruct ch as [[s|] w [d|] [|] ev]; cbn;
    try destruct (w =? 0) eqn:Ew; cbn;
    try destruct (fmt_ok h w) eqn:Efmt; cbn;
    eexists; (split; [reflexivity|]); cbn;
    repeat split; try reflexivity; try (intros [?|?]; congruence);
    try congruence.
Qed.

Lemma length_nonempty (s : string) : s <> "" -> (String.length s =? 0)%nat = false.
Proof. destruct s; [congruence|reflexivity]. Qed.

Lemma playbg_exec_start_names (ch : ast_channel) (spec : string) :
  spec <> "" ->
  datastore_alloc_ok h = true -> state_alloc_ok h = true ->
  filearray_alloc_ok h = true ->
  Forall (fun n => strdup_ok h n = true) (strsep_all spec) ->
  exists ch',
    playbg_exec_start h ch (Some spec) = (0, ch')
    /\ chan_state ch' = Some (started_state (strsep_all spec) (writeformat ch))
    /\ generatordata ch' = true
    /\ writeformat ch' = writeformat ch
    /\ (stream ch = None \/ datastore ch <> None -> stream ch' = None)
    /\ (generatordata ch = false -> stream ch = None -> events ch' = events ch).
Proof.
  intros Hne Hd Hs Hf Hdup. unfold playbg_exec_start.
  rewrite (length_nonempty spec Hne).
  apply playbg_start_names; assumption.
Qed.

(** C7: Start on a specification of names joined by '&' installs a state
    whose files are the names from left to right, with index 0, sample
    offset 0 and an empty sample queue (on a host whose allocations
    succeed); a specification without '&' gives a list of one name; and a
    NULL or empty specification is refused with -1 and leaves the channel,
    hence its datastore, as it was. *)
Theorem C7_start_parses_specification (ch : ast_channel) (names : list string) :
  names <> [] -> Forall no_amp names -> String.concat "&" names <> "" ->
  datastore_alloc_ok h = true -> state_alloc_ok h = true ->
  filearray_alloc_ok h = true ->
  Forall (fun n => strdup_ok h n = true) names ->
  (exists ch' st,
     playbg_exec_start h ch (Some (String.concat "&" names)) = (0, ch')
     /\ chan_state ch' = Some st
     /\ filearray st = map Some names
     /\ nfiles st = Z.of_nat (List.length names)
     /\ pos st = 0 /\ samples st = 0 /\ sample_queue st = 0)
  /\ strchr_amp (String.concat "&" names) = (2 <=? List.length names)%nat
  /\ (strchr_amp (String.concat "&" names) = false ->
      names = [String.concat "&" names])
  /\ playbg_exec_start h ch None = (-1, ch)
  /\ playbg_exec_start h ch (Some "") = (-1, ch)
  /\ playbg_start h ch None = (-1, ch)
  /\ playbg_start h ch (Some "") = (-1, ch).
Proof.
  intros Hne Hamp Hspec Hd Hs Hf Hdup.
  pose proof (strsep_all_concat names Hne Hamp) as Hsep.
  split; [|split; [apply strchr_amp_concat, Hamp|split; [|repeat split; reflexivity]]].
  - destruct (playbg_exec_start_names ch (String.concat "&" names) Hspec Hd Hs Hf)
      as (ch' & He & Hst & _).
    + rewrite Hsep. exact Hdup.
    + rewrite Hsep in Hst.
      exists ch', (started_state names (writeformat ch)).
      repeat split; assumption.
  - intros Hno. rewrite <- Hsep at 1. apply strsep_all_no_amp, Hno.
Qed.

(** ** Stop *)

(** C8: Stop on a channel without a datastore returns 0 and leaves the
    channel as it is; a second Stop in a row changes nothing, whatever the
    first one found. *)
Theorem C8_stop_without_state_is_noop (ch : ast_channel) :
  (datastore ch = None -> playbg_exec_stop h ch = (0, ch))
  /\ playbg_exec_stop h (snd (playbg_exec_stop h ch))
     = (0, snd (playbg_exec_stop h ch))
  /\ (chan_state ch <> None -> datastore (snd (playbg_exec_stop h ch)) = None).
Proof.
  unfold playbg_exec_stop, playbg_stop, ast_channel_datastore_find,
    ast_deactivate_generator, playbg_release, close_stream, chan_state.
  destruct ch as [[s|] w [[[st|]]|] [|] ev]; cbn;
    repeat split; try reflexivity; try congruence.
Qed.

(** ** Release *)

(** C10: the release hook asks the channel for a write format only when
    the recorded one is not 0: with 0 recorded, the write format of the
    channel is left as it is and nothing is asked; otherwise the recorded
    format is asked for, once.  The recorded format is the one [playbg_alloc]
    found on the channel, so a channel activated with format 0 keeps its
    format on release. *)
Theorem C10_release_restores_nonzero_format (ch : ast_channel) (st : playbg_state) :
  chan_state ch = Some st ->
  (origwfmt st = 0 ->
     writeformat (playbg_release h ch) = writeformat ch
     /\ events (playbg_release h ch) = events (close_stream ch))
  /\ (origwfmt st <> 0 ->
      exists res,
        events (playbg_release h ch)
        = (events (close_stream ch) ++ [EvSetWriteFormat (origwfmt st) res])%list)
  /\ (exists st', chan_state (snd (playbg_alloc ch)) = Some st'
                 /\ origwfmt st' = writeformat ch)
  /\ (writeformat ch = 0 ->
      writeformat (playbg_release h (snd (playbg_alloc ch))) = 0).
Proof.
  intros Hst.
  assert (Hds : datastore ch = Some (mkDatastore (Some st))).
  { unfold chan_state in Hst. destruct (datastore ch) as [[d]|]; cbn in Hst;
      [subst d; reflexivity|discriminate]. }
  unfold playbg_release, playbg_alloc, ast_channel_datastore_find,
    ast_set_write_format, chan_state, store_state.
  rewrite Hds. cbn.
  split; [|split; [|split]].
  - intros E. rewrite E. cbn. split; [|reflexivity].
    unfold close_stream. destruct ch as [[s|] w d g ev]; reflexivity.
  - intros E. apply Z.eqb_neq in E. rewrite E.
    destruct (fmt_ok h (origwfmt st)); eexists; reflexivity.
  - eexists. split; reflexivity.
  - intros E. rewrite E. cbn. unfold close_stream.
    destruct ch as [[s|] w d g ev]; cbn in *; exact E.
Qed.

(** ** Resume *)

Lemma playbg_exec_resume_spec (ch : ast_channel) (st : playbg_state) :
  chan_state ch = Some st ->
  let res := playbg_exec_resume h ch in
  fst res = 0
  /\ chan_state (snd res) = Some (set_origwfmt st (writeformat ch))
  /\ generatordata (snd res) = true
  /\ writeformat (snd res) = writeformat ch
  /\ (stream ch = None \/ generatordata ch = true -> stream (snd res) = None)
  /\ (generatordata ch = false ->
      stream (snd res) = stream ch /\ events (snd res) = events ch).
Proof.
  intros Hst. pose proof (chan_state_datastore ch st Hst) as Hds.
  unfold playbg_exec_resume, ast_activate_generator, playbg_release, playbg_alloc,
    ast_channel_datastore_find, ast_set_write_format, close_stream, store_state.
  rewrite Hds.
  destruct ch as [[s|] w d [|] ev]; cbn in *;
    try (destruct (w =? 0) eqn:Ew; cbn);
    try (destruct (fmt_ok h w) eqn:Ef; cbn);
    repeat split; try reflexivity; try discriminate;
    try (intros [?|?]; congruence).
Qed.

(** C2: Resume on a channel without a datastore returns -1 and leaves the
    channel as it is.  On a channel with a state it records the current
    write format in the state and activates the generator again; the
    files, the index, the offset and the queue of the state are as before,
    and no stream is open when there was none or when the generator was
    still active (it is released first).
    The first frame request after that, with no stream open, opens the file
    of the index, seeks it to the recorded offset (no seek is asked for
    offset 0, where the opened stream already is) and only then reads. *)
Theorem C2_resume_keeps_position (ch : ast_channel) (st : playbg_state) :
  chan_state ch = Some st ->
  let ch' := snd (playbg_exec_resume h ch) in
  (forall c, datastore c = None -> playbg_exec_resume h c = (-1, c))
  /\ fst (playbg_exec_resume h ch) = 0
  /\ chan_state ch' = Some (set_origwfmt st (writeformat ch))
  /\ generatordata ch' = true
  /\ (stream ch = None \/ generatordata ch = true -> stream ch' = None)
  /\ (forall name fr,
        stream ch' = None -> seek_target h st = Some (name, fr) ->
        let rd := playbg_readframe h ch' in
        let rest := seek_frames (samples st) fr in
        (exists tail,
           events (snd rd)
           = (events ch' ++ open_events name (samples st)
                ++ EvRead name (hd_error rest) :: tail)%list)
        /\ (samples st <> 0 ->
            open_events name (samples st)
            = [EvOpen name true; EvSeek name (samples st)])
        /\ (forall f, hd_error rest = Some f ->
            fst rd = Some f
            /\ exists st', chan_state (snd rd) = Some st'
                          /\ pos st' = seek_pos st /\ samples st' = samples st)).
Proof.
  intros Hst ch'.
  destruct (playbg_exec_resume_spec ch st Hst) as (Hr & Hst' & Hg & Hwf & Hs & _).
  fold ch' in Hst', Hg, Hwf, Hs.
  split.
  { intros c Hc. unfold playbg_exec_resume, ast_channel_datastore_find.
    rewrite Hc. reflexivity. }
  split; [exact Hr|]. split; [exact Hst'|]. split; [exact Hg|].
  split; [exact Hs|].
  intros name fr Hnone Ht rd rest.
  assert (Hrd : fst (ast_readframe ch') = None)
    by (unfold ast_readframe; rewrite Hnone; reflexivity).
  assert (Ht' : seek_target h (set_origwfmt st (writeformat ch)) = Some (name, fr))
    by exact Ht.
  destruct (playbg_readframe_first_seek ch' _ name fr Hst' Hrd Ht') as [Hev Hfr].
  assert (Heof : eof_events ch' = [])
    by (unfold eof_events; rewrite Hnone; reflexivity).
  rewrite Heof in Hev. cbn [app samples set_origwfmt] in Hev.
  split; [exact Hev|]. split.
  - intros Hne. unfold open_events. apply Z.eqb_neq in Hne. rewrite Hne. reflexivity.
  - intros f Hf. destruct (Hfr f Hf) as (Hf1 & Hst1 & _).
    split; [exact Hf1|]. eexists. split; [exact Hst1|]. split; reflexivity.
Qed.

(** ** A file that cannot be opened *)

Lemma seek_target_entry (st : playbg_state) :
  entry_frames h st (seek_pos st) = option_map snd (seek_target h st).
Proof.
  unfold entry_frames, seek_target.
  destruct (filearray_at st (seek_pos st)) as [name|]; [|reflexivity].
  destruct (sounds h name); reflexivity.
Qed.

Lemma playbg_seek_fails (ch : ast_channel) (st : playbg_state) :
  chan_state ch = Some st -> seek_target h st = None ->
  fst (playbg_seek h ch) = -1
  /\ chan_state (snd (playbg_seek h ch)) = Some (set_pos st (seek_pos st + 1))
  /\ stream (snd (playbg_seek h ch)) = None
  /\ events (snd (playbg_seek h ch))
     = (events ch ++ close_events ch ++ failed_open_events st)%list.
Proof.
  intros Hst Ht. pose proof (playbg_seek_spec ch st Hst) as H. cbn zeta in H.
  unfold seek_target in Ht. unfold failed_open_events.
  destruct (filearray_at st (seek_pos st)) as [name|].
  - destruct (sounds h name); [discriminate|].
    destruct H as (_ & _ & Hr & Hs & Hstr & He). repeat split; assumption.
  - destruct H as (_ & _ & Hr & Hs & Hstr & He). rewrite app_nil_r.
    repeat split; assumption.
Qed.

(** A frame request that gives no frame, on a list of at least two files
    of which only the entry [b] cannot be opened and the others hold
    frames: the second seek step was on [b], and the request leaves the
    index after [b], the offset at 0 and no stream. *)
Lemma playbg_readframe_none_at (ch ch1 : ast_channel) (st : playbg_state) (b : Z) :
  chan_state ch = Some st -> 1 <= nfiles st -> 0 <= pos st ->
  entry_frames h st b = None ->
  (forall i, 0 <= i < nfiles st -> i <> b ->
             exists f r, entry_frames h st i = Some (f :: r)) ->
  playbg_readframe h ch = (None, ch1) ->
  exists st1,
    chan_state ch1 = Some st1 /\ pos st1 = b + 1 /\ samples st1 = 0
    /\ stream ch1 = None
    /\ filearray st1 = filearray st /\ nfiles st1 = nfiles st.
Proof.
  intros Hst Hn Hp Hbad Hgood Hrd.
  assert (Hn0 : fst (ast_readframe ch) = None).
  { destruct (fst (ast_readframe ch)) as [f|] eqn:Ef; [|reflexivity].
    unfold playbg_readframe in Hrd.
    destruct (ast_readframe ch) as [[g|] c]; cbn in Ef; discriminate. }
  rewrite (playbg_readframe_cold ch Hn0) in Hrd.
  destruct (ast_readframe_none ch Hn0) as (Hd & _).
  set (c0 := snd (ast_readframe ch)) in *.
  assert (Hst0 : chan_state c0 = Some st)
    by (unfold chan_state; rewrite Hd; exact Hst).
  (* the second seek step, on a state [s] of offset 0 *)
  assert (Hsecond : forall c s,
            chan_state c = Some s -> filearray s = filearray st ->
            nfiles s = nfiles st -> 0 <= pos s -> samples s = 0 ->
            seek_and_read h c = (None, ch1) ->
            exists st1,
              chan_state ch1 = Some st1 /\ pos st1 = b + 1 /\ samples st1 = 0
              /\ stream ch1 = None
              /\ filearray st1 = filearray st /\ nfiles st1 = nfiles st).
  { intros c s Hc Hfa Hnf Hps Hsm Hsr.
    assert (Hrange : 0 <= seek_pos s < nfiles st)
      by (rewrite <- Hnf; apply seek_pos_range; lia).
    assert (Hent : forall i, entry_frames h s i = entry_frames h st i)
      by (intros i; unfold entry_frames, filearray_at; rewrite Hfa; reflexivity).
    destruct (seek_target h s) as [[name fr]|] eqn:Et.
    - destruct (seek_target_some s name fr Et) as [Hfa1 Hfr1].
      destruct (seek_and_read_opens c s name fr Hc Hfa1 Hfr1) as (Hf & _).
      rewrite Hsr, Hsm, seek_frames_0 in Hf. cbn in Hf.
      pose proof (seek_target_entry s) as He. rewrite Et, Hent in He. cbn in He.
      destruct (Z.eq_dec (seek_pos s) b) as [Heq|Hneq].
      + rewrite Heq, Hbad in He. discriminate.
      + destruct (Hgood _ Hrange Hneq) as (f & r & Hfr).
        rewrite Hfr in He. injection He as <-. discriminate.
    - destruct (seek_and_read_fails c s Hc Et) as (_ & Hs1 & Hstr & _).
      rewrite Hsr in Hs1, Hstr. cbn [snd] in Hs1, Hstr.
      pose proof (seek_target_entry s) as He. rewrite Et, Hent in He. cbn in He.
      assert (Heq : seek_pos s = b).
      { destruct (Z.eq_dec (seek_pos s) b) as [Heq|Hneq]; [exact Heq|].
        destruct (Hgood _ Hrange Hneq) as (f & r & Hfr).
        rewrite Hfr in He. discriminate. }
      eexists. split; [exact Hs1|]. cbn. rewrite Heq.
      repeat split; assumption. }
  destruct (seek_and_read_keeps c0 st Hst0) as (p1 & Hs1 & _ & _ & _ & Hr1).
  destruct (Hr1 Hn Hp) as (Hp1 & _).
  destruct (seek_and_read h c0) as [[f|] c1]; cbn [fst snd] in *; [discriminate|].
  rewrite Hs1 in Hrd.
  apply (Hsecond (store_state c1 (advance (set_pos st p1)))
                 (advance (set_pos st p1)) eq_refl); try reflexivity;
    [cbn; lia|exact Hrd].
Qed.

(** C4: a seek step on an entry that is NULL or cannot be opened opens
    nothing, leaves the index one past the entry and returns -1.  On a
    list of at least two files of which one cannot be opened, a frame
    request that gives no frame makes the loop of the generator return
    -1 and leaves the index past that file, and the next frame request
    gives the first frame of the file after it: the file is skipped, and
    no two frame requests in a row are without a frame. *)
Theorem C4_unreadable_entry_is_skipped (ch : ast_channel) (st : playbg_state) (b : Z) :
  chan_state ch = Some st -> 2 <= nfiles st -> 0 <= pos st ->
  0 <= b < nfiles st -> entry_frames h st b = None ->
  (forall i, 0 <= i < nfiles st -> i <> b ->
             exists f r, entry_frames h st i = Some (f :: r)) ->
  (forall c s,
     chan_state c = Some s -> seek_target h s = None ->
     fst (playbg_seek h c) = -1
     /\ chan_state (snd (playbg_seek h c)) = Some (set_pos s (seek_pos s + 1))
     /\ stream (snd (playbg_seek h c)) = None
     /\ events (snd (playbg_seek h c))
        = (events c ++ close_events c ++ failed_open_events s)%list)
  /\ (forall fuel res ch1,
        0 < sample_queue st -> playbg_readframe h ch = (None, ch1) ->
        generator_loop h (S fuel) ch res = Some (-1, ch1))
  /\ (forall ch1,
        playbg_readframe h ch = (None, ch1) ->
        exists st1 f r,
          chan_state ch1 = Some st1 /\ pos st1 = b + 1 /\ samples st1 = 0
          /\ stream ch1 = None
          /\ entry_frames h st (next_pos st b) = Some (f :: r)
          /\ fst (playbg_readframe h ch1) = Some f
          /\ exists st2, chan_state (snd (playbg_readframe h ch1)) = Some st2
                        /\ pos st2 = next_pos st b).
Proof.
  intros Hst Hn Hp Hb Hbad Hgood.
  split; [intros c s; apply playbg_seek_fails|].
  split.
  { intros fuel res ch1 Hq Hrd. cbn [generator_loop]. rewrite Hst.
    destruct (sample_queue st >? 0) eqn:E;
      [|rewrite Z.gtb_ltb in E; apply Z.ltb_ge in E; lia].
    rewrite Hrd. reflexivity. }
  intros ch1 Hrd.
  destruct (playbg_readframe_none_at ch ch1 st b Hst ltac:(lia) Hp Hbad Hgood Hrd)
    as (st1 & Hst1 & Hp1 & Hsm1 & Hs1 & Hfa1 & Hnf1).
  assert (Hsp : seek_pos st1 = next_pos st b).
  { unfold seek_pos, next_pos. rewrite Hp1, Hnf1.
    destruct (b + 1 >=? nfiles st); reflexivity. }
  assert (Hnext : 0 <= next_pos st b < nfiles st /\ next_pos st b <> b).
  { unfold next_pos. destruct (b + 1 >=? nfiles st) eqn:E.
    - rewrite Z.geb_leb in E. apply Z.leb_le in E. lia.
    - rewrite Z.geb_leb in E. apply Z.leb_gt in E. lia. }
  destruct Hnext as [Hrange Hneq].
  destruct (Hgood _ Hrange Hneq) as (f & r & Hfr).
  assert (Hent : entry_frames h st1 (seek_pos st1) = Some (f :: r)).
  { rewrite Hsp. unfold entry_frames, filearray_at in *. rewrite Hfa1. exact Hfr. }
  rewrite seek_target_entry in Hent.
  destruct (seek_target h st1) as [[name fr]|] eqn:Et; [|discriminate].
  cbn in Hent. injection Hent as ->.
  assert (Hrd1 : fst (ast_readframe ch1) = None)
    by (unfold ast_readframe; rewrite Hs1; reflexivity).
  destruct (playbg_readframe_first_seek ch1 st1 name _ Hst1 Hrd1 Et) as [_ Hfirst].
  rewrite Hsm1, seek_frames_0 in Hfirst.
  destruct (Hfirst f eq_refl) as (Hf & Hst2 & _).
  exists st1, f, r. repeat split; try assumption.
  eexists. split; [exact Hst2|]. cbn. exact Hsp.
Qed.

(** ** Playing the files in turn *)

Lemma filearray_at_names (st : playbg_state) (names : list string) (i : nat)
      (name : string) :
  filearray st = map Some names -> nth_error names i = Some name ->
  filearray_at st (Z.of_nat i) = Some name.
Proof.
  intros Hfa Hnth. unfold filearray_at.
  destruct (Z.of_nat i <? 0) eqn:E; [apply Z.ltb_lt in E; lia|].
  rewrite Nat2Z.id, Hfa, (map_nth_error Some i names Hnth). reflexivity.
Qed.

Lemma seek_target_names (st : playbg_state) (names : list string) (i : nat)
      (name : string) (fr : list ast_frame) :
  filearray st = map Some names -> nfiles st = Z.of_nat (List.length names) ->
  seek_pos st = Z.of_nat i -> nth_error names i = Some name ->
  sounds h name = Some fr ->
  seek_target h st = Some (name, fr).
Proof.
  intros Hfa Hnf Hsp Hnth Hsnd. unfold seek_target.
  rewrite Hsp, (filearray_at_names st names i name Hfa Hnth), Hsnd. reflexivity.
Qed.

Lemma skipn_length_nil (l : list ast_frame) : skipn (List.length l) l = [].
Proof. induction l; [reflexivity|assumption]. Qed.

(** The first invocation after Start, asking for the duration of the
    first file. *)
Lemma invocation_first (fuel : nat) (ch : ast_channel) (st : playbg_state)
      (names : list string) (name : string) (fr : list ast_frame) :
  (forall evs f, write_ok h evs f = true) ->
  chan_state ch = Some st -> stream ch = None ->
  filearray st = map Some names -> nfiles st = Z.of_nat (List.length names) ->
  pos st = 0 -> samples st = 0 -> sample_queue st = 0 ->
  nth_error names 0 = Some name -> sounds h name = Some fr ->
  fr <> [] -> positive_frames fr -> (List.length fr <= fuel)%nat ->
  exists ch',
    playbg_generator h fuel ch (sum_samples fr) = Some (0, ch')
    /\ at_end_of h names 0 ch'.
Proof.
  intros Hw Hst Hs Hfa Hnf Hp Hsm Hq Hnth Hsnd Hne Hpos Hfuel.
  destruct fr as [|f r]; [congruence|]. clear Hne.
  assert (HN : (0 < List.length names)%nat)
    by (destruct names; [discriminate|cbn; lia]).
  rewrite (playbg_generator_unfold fuel ch st _ Hst).
  set (st0 := set_sample_queue st (sample_queue st + sum_samples (f :: r))).
  set (c0 := store_state ch st0).
  assert (Hsp : seek_pos st0 = Z.of_nat 0).
  { unfold seek_pos. cbn [pos nfiles st0 set_sample_queue]. rewrite Hp, Hnf.
    destruct (0 >=? Z.of_nat (List.length names)) eqn:E; [|reflexivity].
    rewrite Z.geb_leb in E. apply Z.leb_le in E. lia. }
  assert (Ht : seek_target h st0 = Some (name, f :: r))
    by (apply (seek_target_names st0 names 0); assumption).
  assert (Hrd0 : fst (ast_readframe c0) = None)
    by (unfold ast_readframe; cbn; rewrite Hs; reflexivity).
  destruct (playbg_readframe_first_seek c0 st0 name _ eq_refl Hrd0 Ht) as [_ Hfirst].
  cbn [samples st0 set_sample_queue] in Hfirst. rewrite Hsm, seek_frames_0 in Hfirst.
  destruct (Hfirst f eq_refl) as (Hf & Hst1 & Hs1 & _). cbn [tl] in Hs1.
  pose proof (Forall_inv Hpos) as Hf0. pose proof (Forall_inv_tail Hpos) as Hr0.
  cbn beta in Hf0.
  assert (Hq0 : 0 < sample_queue st0).
  { cbn. pose proof (sum_samples_nonneg r Hr0). lia. }
  destruct (playbg_readframe h c0) as [rf c1] eqn:Erd. cbn [fst snd] in *. subst rf.
  cbn in Hfuel.
  destruct (generator_loop_after_frame (fuel - S (List.length r)) c0 c1 0 st0 _ f
              name (f :: r) r Hw eq_refl Hq0 Erd Hst1 Hs1)
    as (ch' & Hloop & Hst' & Hs' & _).
  cbn [sample_queue set_pos st0 set_sample_queue sum_samples samples] in Hst', Hs', Hloop.
  rewrite Hq, Hsm in *.
  replace (0 + (frame_samples f + sum_samples r) - frame_samples f)
    with (sum_samples r) in * by lia.
  rewrite (consume_more r Hr0 _ (Z.le_refl _)) in *.
  replace (S (List.length r + (fuel - S (List.length r)))) with fuel in Hloop by lia.
  rewrite skipn_length_nil in Hs'.
  exists ch'. fold c0. rewrite Hloop.
  rewrite (generator_loop_done _ ch' 0 _ Hst') by (cbn; lia).
  split; [reflexivity|].
  eexists _, name, (f :: r). split; [exact Hst'|]. cbn.
  repeat split; try assumption; try lia.
Qed.

(** An invocation at the end of the file [i], asking for the duration of
    the file after it ([j], back to 0 after the last file). *)
Lemma invocation_next (fuel : nat) (ch : ast_channel) (names : list string)
      (i j : nat) (name : string) (fr : list ast_frame) :
  (forall evs f, write_ok h evs f = true) ->
  Forall (playable h) names ->
  at_end_of h names i ch ->
  j = (if (S i <? List.length names)%nat then S i else 0%nat) ->
  nth_error names j = Some name -> sounds h name = Some fr ->
  (List.length fr <= fuel)%nat ->
  exists ch',
    playbg_generator h fuel ch (sum_samples fr) = Some (0, ch')
    /\ at_end_of h names j ch'.
Proof.
  intros Hw Hplay (st & ni & fi & Hst & Hfa & Hnf & Hp & Hnth & Hsnd & Hsm & Hq & Hs)
         Hj Hnthj Hsndj Hfuel.
  assert (Hi : (i < List.length names)%nat)
    by (apply nth_error_Some; congruence).
  assert (Hpi : positive_frames fi).
  { rewrite Forall_forall in Hplay.
    destruct (Hplay ni (nth_error_In _ _ Hnth)) as (f & r & Hfr & Hpos).
    rewrite Hsnd in Hfr. injection Hfr as ->. exact Hpos. }
  assert (Hpj : exists f r, fr = f :: r /\ positive_frames (f :: r)).
  { rewrite Forall_forall in Hplay.
    destruct (Hplay name (nth_error_In _ _ Hnthj)) as (f & r & Hfr & Hpos).
    rewrite Hsndj in Hfr. injection Hfr as ->. eauto. }
  destruct Hpj as (f & r & -> & Hpos).
  pose proof (Forall_inv Hpos) as Hf0. pose proof (Forall_inv_tail Hpos) as Hr0.
  cbn beta in Hf0.
  rewrite (playbg_generator_unfold fuel ch st _ Hst).
  set (st0 := set_sample_queue st (sample_queue st + sum_samples (f :: r))).
  set (c0 := store_state ch st0).
  assert (Hsp : seek_pos st0 = Z.of_nat i).
  { unfold seek_pos. cbn [pos nfiles st0 set_sample_queue]. rewrite Hp, Hnf.
    destruct (Z.of_nat i >=? Z.of_nat (List.length names)) eqn:E; [|reflexivity].
    rewrite Z.geb_leb in E. apply Z.leb_le in E. lia. }
  assert (Ht : seek_target h st0 = Some (ni, fi))
    by (apply (seek_target_names st0 names i); assumption).
  assert (Hrd0 : fst (ast_readframe c0) = None)
    by (unfold ast_readframe; cbn; rewrite Hs; reflexivity).
  assert (Hend : seek_frames (samples st0) fi = []).
  { apply seek_frames_end; [exact Hpi|]. cbn. rewrite Hsm. lia. }
  set (st1 := advance (set_pos st0 (seek_pos st0))).
  assert (Hsp1 : seek_pos st1 = Z.of_nat j).
  { unfold seek_pos. cbn [pos nfiles st1 advance set_samples set_pos st0 set_sample_queue].
    rewrite Hsp, Hnf. subst j.
    destruct (S i <? List.length names)%nat eqn:El.
    - apply Nat.ltb_lt in El.
      destruct (Z.of_nat i + 1 >=? Z.of_nat (List.length names)) eqn:E; [|lia].
      rewrite Z.geb_leb in E. apply Z.leb_le in E. lia.
    - apply Nat.ltb_ge in El.
      destruct (Z.of_nat i + 1 >=? Z.of_nat (List.length names)) eqn:E; [reflexivity|].
      rewrite Z.geb_leb in E. apply Z.leb_gt in E. lia. }
  assert (Ht1 : seek_target h st1 = Some (name, f :: r))
    by (apply (seek_target_names st1 names j); assumption).
  destruct (playbg_readframe_next c0 st0 ni name fi (f :: r) eq_refl Hrd0 Ht Hend Ht1)
    as (Hf & Hst1 & Hs1 & _).
  fold st1 in Hst1. cbn [hd_error tl] in Hf, Hs1.
  assert (Hq0 : 0 < sample_queue st0).
  { cbn. pose proof (sum_samples_nonneg r Hr0). lia. }
  destruct (playbg_readframe h c0) as [rf c1] eqn:Erd. cbn [fst snd] in *. subst rf.
  cbn in Hfuel.
  destruct (generator_loop_after_frame (fuel - S (List.length r)) c0 c1 0 st0 _ f
              name (f :: r) r Hw eq_refl Hq0 Erd Hst1 Hs1)
    as (ch' & Hloop & Hst' & Hs' & _).
  cbn [sample_queue set_pos st0 st1 advance set_samples set_sample_queue
         sum_samples samples] in Hst', Hs', Hloop.
  rewrite Hq in *.
  replace (0 + (frame_samples f + sum_samples r) - frame_samples f)
    with (sum_samples r) in * by lia.
  rewrite (consume_more r Hr0 _ (Z.le_refl _)) in *.
  replace (S (List.length r + (fuel - S (List.length r)))) with fuel in Hloop by lia.
  rewrite skipn_length_nil in Hs'.
  exists ch'. fold c0. rewrite Hloop.
  rewrite (generator_loop_done _ ch' 0 _ Hst') by (cbn; lia).
  split; [reflexivity|].
  eexists _, name, (f :: r). split; [exact Hst'|]. cbn.
  repeat split; try assumption; try lia.
Qed.

Lemma generator_run_app (fuel : nat) (a b : list Z) :
  forall ch,
    generator_run h fuel ch (a ++ b)
    = match generator_run h fuel ch a with
      | Some (la, ch1) =>
          match generator_run h fuel ch1 b with
          | Some (lb, ch2) => Some ((la ++ lb)%list, ch2)
          | None => None
          end
      | None => None
      end.
Proof.
  induction a as [|n a IH]; intros ch; cbn.
  - destruct (generator_run h fuel ch b) as [[lb ch2]|]; reflexivity.
  - destruct (playbg_generator h fuel ch n) as [[r c1]|]; [|reflexivity].
    rewrite IH. destruct (generator_run h fuel c1 a) as [[la c2]|]; [|reflexivity].
    destruct (generator_run h fuel c2 b) as [[lb c3]|]; reflexivity.
Qed.

Lemma skipn_cons_nth (l : list string) :
  forall n a t, skipn n l = a :: t -> nth_error l n = Some a /\ skipn (S n) l = t.
Proof.
  induction l as [|x l IH]; intros [|n] a t H; cbn in *; try discriminate.
  - injection H as -> ->. split; reflexivity.
  - apply IH, H.
Qed.

Lemma indices_visits (names : list string) :
  forall from, indices (visits h from names) = map Z.of_nat (seq from (List.length names)).
Proof.
  unfold indices, visits. induction names as [|a l IH]; intros from; [reflexivity|].
  cbn. f_equal. apply IH.
Qed.

(** From the end of the file [i], one invocation per file after it, each
    asking for the duration of its file. *)
Lemma run_from (fuel : nat) (names : list string) :
  (forall evs f, write_ok h evs f = true) ->
  Forall (playable h) names ->
  (forall name fr, In name names -> sounds h name = Some fr ->
                   (List.length fr <= fuel)%nat) ->
  forall (rest : list string) (i : nat) (ch : ast_channel),
    at_end_of h names i ch -> skipn (S i) names = rest ->
    exists ch',
      generator_run h fuel ch (map (duration h) rest) = Some (visits h (S i) rest, ch')
      /\ at_end_of h names (i + List.length rest) ch'.
Proof.
  intros Hw Hplay Hfuel. induction rest as [|name rest IH]; intros i ch Hend Hskip.
  - exists ch. cbn. rewrite Nat.add_0_r. split; [reflexivity|exact Hend].
  - destruct (skipn_cons_nth names _ _ _ Hskip) as [Hnth Hskip'].
    assert (Hlt : (S i < List.length names)%nat)
      by (apply nth_error_Some; congruence).
    pose proof (nth_error_In _ _ Hnth) as Hin.
    assert (Hp : playable h name) by (rewrite Forall_forall in Hplay; apply Hplay, Hin).
    destruct Hp as (f & r & Hsnd & _).
    destruct (invocation_next fuel ch names i (S i) name (f :: r) Hw Hplay Hend)
      as (c1 & Hgen & Hend1);
      [apply Nat.ltb_lt in Hlt; rewrite Hlt; reflexivity|exact Hnth|exact Hsnd
      |apply (Hfuel name); assumption|].
    destruct (IH (S i) c1 Hend1 Hskip') as (ch' & Hrun & Hend').
    exists ch'. cbn [map generator_run].
    unfold duration at 1. rewrite Hsnd, Hgen, Hrun.
    destruct Hend1 as (st1 & n1 & f1 & Hst1 & _ & _ & Hp1 & Hn1 & Hs1 & Hsm1 & _).
    rewrite Hnth in Hn1. injection Hn1 as <-.
    rewrite Hsnd in Hs1. injection Hs1 as <-.
    rewrite Hst1. cbn [option_map]. rewrite Hp1, Hsm1.
    split.
    + unfold visits. cbn [List.length seq combine map fst snd]. unfold visit at 2.
      unfold duration. rewrite Hsnd. reflexivity.
    + replace (i + List.length (name :: rest))%nat
        with (S i + List.length rest)%nat by (cbn; lia).
      exact Hend'.
Qed.

(** C1: after Start on the names [names], whose files can be opened and
    hold frames of at least one sample, one invocation per file, each
    asking for the duration of its file, leaves the index at 0, 1, ...,
    N-1 in turn: the index is that of the file just played, and it moves
    on when the next invocation finds the file at its end.  It is one more
    invocation, asking for the duration of the first file, that takes the
    index back to 0.  Every one of these invocations returns 0. *)
Theorem C1_index_visits_files_in_order (fuel : nat) (ch0 : ast_channel)
        (names : list string) :
  names <> [] -> Forall no_amp names -> String.concat "&" names <> "" ->
  datastore_alloc_ok h = true -> state_alloc_ok h = true ->
  filearray_alloc_ok h = true ->
  Forall (fun n => strdup_ok h n = true) names ->
  (forall evs f, write_ok h evs f = true) ->
  Forall (playable h) names ->
  (forall name fr, In name names -> sounds h name = Some fr ->
                   (List.length fr <= fuel)%nat) ->
  stream ch0 = None ->
  let spec := String.concat "&" names in
  let ch := snd (playbg_exec_start h ch0 (Some spec)) in
  let first := duration h (hd "" names) in
  (exists ch',
     generator_run h fuel ch (map (duration h) names) = Some (visits h 0 names, ch')
     /\ at_end_of h names (List.length names - 1) ch')
  /\ (exists ch',
        generator_run h fuel ch (map (duration h) names ++ [first])
        = Some ((visits h 0 names ++ [visit h 0 (hd "" names)])%list, ch'))
  /\ index_trace h fuel ch0 spec (map (duration h) names)
     = Some (0 :: map Z.of_nat (seq 0 (List.length names)))
  /\ index_trace h fuel ch0 spec (map (duration h) names ++ [first])
     = Some (0 :: map Z.of_nat (seq 0 (List.length names)) ++ [0]).
Proof.
  intros Hne Hamp Hspec Hd Hs Hf Hdup Hw Hplay Hfuel Hstr spec ch first.
  pose proof (strsep_all_concat names Hne Hamp) as Hsep.
  destruct (playbg_exec_start_names ch0 spec Hspec Hd Hs Hf)
    as (c1 & Hstart & Hst1 & _ & _ & Hs1 & _);
    [fold spec in Hsep; rewrite Hsep; exact Hdup|].
  fold spec in Hsep. rewrite Hsep in Hst1.
  assert (Hch : ch = c1) by (unfold ch; rewrite Hstart; reflexivity).
  specialize (Hs1 (or_introl Hstr)).
  destruct names as [|name0 rest]; [congruence|].
  assert (Hp0 : playable h name0) by (inversion Hplay; assumption).
  destruct Hp0 as (f0 & r0 & Hsnd0 & Hpos0).
  assert (Hfuel0 : (List.length (f0 :: r0) <= fuel)%nat)
    by (apply (Hfuel name0); [left; reflexivity|exact Hsnd0]).
  destruct (invocation_first fuel c1 _ (name0 :: rest) name0 (f0 :: r0) Hw Hst1 Hs1)
    as (c2 & Hgen1 & Hend0); try reflexivity; try assumption; [discriminate|].
  destruct (run_from fuel (name0 :: rest) Hw Hplay Hfuel rest 0%nat c2 Hend0 eq_refl)
    as (c3 & Hrun & Hend).
  assert (Hdur0 : duration h name0 = sum_samples (f0 :: r0))
    by (unfold duration; rewrite Hsnd0; reflexivity).
  assert (Hrun1 : generator_run h fuel c1 (map (duration h) (name0 :: rest))
                  = Some (visits h 0 (name0 :: rest), c3)).
  { cbn [map generator_run]. rewrite Hdur0, Hgen1, Hrun.
    destruct Hend0 as (st & n & fr & Hst & _ & _ & Hp & Hn & Hsn & Hsm & _).
    cbn in Hn. injection Hn as <-. rewrite Hsnd0 in Hsn. injection Hsn as <-.
    rewrite Hst. cbn [option_map]. rewrite Hp, Hsm.
    unfold visits. cbn [List.length seq combine map fst snd]. unfold visit at 2.
    rewrite Hdur0. reflexivity. }
  assert (Hlast : (0 + List.length rest = List.length (name0 :: rest) - 1)%nat)
    by (cbn; lia).
  rewrite Hlast in Hend.
  destruct (invocation_next fuel c3 (name0 :: rest) _ 0%nat name0 (f0 :: r0)
              Hw Hplay Hend) as (c4 & Hgen2 & Hend2);
    try assumption; try reflexivity.
  { destruct (S (List.length (name0 :: rest) - 1) <? List.length (name0 :: rest))%nat
      eqn:E; [apply Nat.ltb_lt in E; cbn in E; lia|reflexivity]. }
  assert (Hrun2 : generator_run h fuel c1 (map (duration h) (name0 :: rest) ++ [first])
                  = Some ((visits h 0 (name0 :: rest) ++ [visit h 0 name0])%list, c4)).
  { rewrite generator_run_app, Hrun1. cbn [generator_run].
    unfold first. cbn [hd]. rewrite Hdur0, Hgen2.
    destruct Hend2 as (st & n & fr & Hst & _ & _ & Hp & Hn & Hsn & Hsm & _).
    cbn in Hn. injection Hn as <-. rewrite Hsnd0 in Hsn. injection Hsn as <-.
    rewrite Hst. cbn [option_map]. rewrite Hp, Hsm.
    unfold visit. rewrite Hdur0. reflexivity. }
  rewrite Hch. split; [exists c3; split; assumption|].
  split; [exists c4; exact Hrun2|].
  unfold index_trace. fold spec. rewrite Hstart. cbn [snd].
  rewrite Hst1, Hrun1, Hrun2. cbn [pos started_state].
  unfold indices at 2. rewrite map_app. fold (indices (visits h 0 (name0 :: rest))).
  rewrite indices_visits. split; reflexivity.
Qed.

(** ** The index past the last file *)

Lemma ast_activate_generator_spec (c : ast_channel) (s : playbg_state) :
  chan_state c = Some s ->
  let res := ast_activate_generator h c in
  fst res = 0
  /\ (exists w, chan_state (snd res) = Some (set_origwfmt s w))
  /\ (stream (snd res) = None \/ stream (snd res) = stream c).
Proof.
  intros Hst. pose proof (chan_state_datastore c s Hst) as Hds.
  unfold ast_activate_generator, playbg_release, playbg_alloc,
    ast_channel_datastore_find, ast_set_write_format, close_stream, store_state.
  destruct c as [[str|] w d [|] ev]; cbn in *; subst d; cbn;
    try (destruct (origwfmt s =? 0) eqn:Ew; cbn);
    try (destruct (fmt_ok h (origwfmt s)) eqn:Ef; cbn);
    (split; [reflexivity|]); (split; [eexists; reflexivity|]); auto.
Qed.

Lemma ast_deactivate_generator_spec (c : ast_channel) :
  chan_state (ast_deactivate_generator h c) = chan_state c
  /\ (stream (ast_deactivate_generator h c) = None
      \/ stream (ast_deactivate_generator h c) = stream c).
Proof.
  unfold ast_deactivate_generator, playbg_release, ast_channel_datastore_find,
    ast_set_write_format, close_stream, chan_state.
  destruct c as [[str|] w [[[s|]]|] [|] ev]; cbn;
    try (destruct (origwfmt s =? 0) eqn:Ew; cbn);
    try (destruct (fmt_ok h (origwfmt s)) eqn:Ef; cbn); auto.
Qed.

(** The state on the channel after [playbg_start] is the one that was
    there, on the channel as it was, or a new one at index 0. *)
Lemma playbg_start_state (ch : ast_channel) (opts : option string)
      (st' : playbg_state) :
  chan_state (snd (playbg_start h ch opts)) = Some st' ->
  snd (playbg_start h ch opts) = ch \/ (pos st' = 0 /\ 1 <= nfiles st').
Proof.
  unfold playbg_start. destruct opts as [opt|]; [|left; reflexivity].
  destruct (ast_strlen_zero (Some opt)); [left; reflexivity|].
  set (n := if strchr_amp opt then Z.of_nat (List.length (strsep_all opt)) else 1).
  destruct (n <? 1) eqn:En; [left; reflexivity|]. apply Z.ltb_ge in En.
  set (cl := match ast_channel_datastore_find ch with
             | Some _ => close_stream (ast_deactivate_generator h (set_datastore ch None))
             | None => ch
             end).
  assert (Hcl : cl = ch \/ chan_state cl = None).
  { unfold cl, ast_channel_datastore_find.
    destruct (datastore ch) eqn:Ed; [right|left; reflexivity].
    unfold close_stream, ast_deactivate_generator, playbg_release,
      ast_channel_datastore_find, chan_state.
    destruct ch as [[str|] w d [|] ev]; reflexivity. }
  destruct (negb (datastore_alloc_ok h)).
  { cbn [snd]. destruct Hcl as [->|Hcl]; [left; reflexivity|congruence]. }
  destruct (negb (state_alloc_ok h)).
  { cbn [snd]. destruct Hcl as [->|Hcl]; [left; reflexivity|congruence]. }
  destruct (negb (filearray_alloc_ok h)).
  { cbn [snd]. destruct Hcl as [->|Hcl]; [left; reflexivity|congruence]. }
  intros Hst. right.
  match type of Hst with
  | chan_state (snd (ast_activate_generator h (set_datastore _ (Some (mkDatastore (Some ?s)))))) = _ =>
      destruct (ast_activate_generator_spec
                  (set_datastore cl (Some (mkDatastore (Some s)))) s eq_refl)
        as (_ & (w & Hs) & _)
  end.
  rewrite Hs in Hst. injection Hst as <-. cbn. split; [reflexivity|exact En].
Qed.

Lemma reachable_wrap_inv (ch : ast_channel) :
  reachable h ch -> forall st, chan_state ch = Some st -> wrap_inv ch st.
Proof.
  induction 1 as [ch Hd|ch data Hr IH|ch Hr IH|ch Hr IH|ch fuel n r ch' Hr IH Hgen
                 |ch Hr IH]; intros st Hst.
  - unfold chan_state in Hst. rewrite Hd in Hst. discriminate.
  - unfold playbg_exec_start in Hst |- *.
    destruct data as [d|]; [|apply IH, Hst].
    destruct (String.length d =? 0)%nat; [apply IH, Hst|].
    destruct (playbg_start_state ch (Some d) st Hst) as [Heq|[Hp Hn]].
    + rewrite Heq in *. apply IH, Hst.
    + split; [exact Hn|]. split; [lia|]. intros Hle. lia.
  - cbn [playbg_exec_stop snd] in *. unfold playbg_stop, ast_channel_datastore_find in *.
    destruct (datastore ch) as [[[s|]]|] eqn:Ed; cbn [data] in *;
      try (apply IH; exact Hst).
    exfalso. revert Hst.
    unfold close_stream, ast_deactivate_generator, playbg_release,
      ast_channel_datastore_find, chan_state.
    destruct ch as [[str|] w d [|] ev]; cbn; discriminate.
  - destruct (chan_state ch) as [s|] eqn:Es.
    + destruct (playbg_exec_resume_spec ch s Es) as (_ & Hs' & _ & _ & Hnone & Hsame).
      rewrite Hs' in Hst. injection Hst as <-.
      destruct (IH s eq_refl) as (Hn & Hp & Hw).
      split; [exact Hn|]. split; [exact Hp|]. cbn. intros Hle.
      destruct (Hw Hle) as [Hsm Hstr]. split; [exact Hsm|].
      apply Hnone. left. exact Hstr.
    + assert (Heq : snd (playbg_exec_resume h ch) = ch).
      { unfold playbg_exec_resume, ast_channel_datastore_find.
        unfold chan_state in Es.
        destruct (datastore ch) as [[[s|]]|]; cbn in *; [discriminate| |]; reflexivity. }
      rewrite Heq in Hst. congruence.
  - destruct (chan_state ch) as [s|] eqn:Es.
    + rewrite (playbg_generator_unfold fuel ch s n Es) in Hgen.
      destruct (generator_loop_keeps fuel
                  (store_state ch (set_sample_queue s (sample_queue s + n))) 0
                  (set_sample_queue s (sample_queue s + n)) r ch' eq_refl Hgen)
        as (st' & Hst' & _ & _ & _ & _ & _ & _ & _ & _ & Hinv).
      rewrite Hst' in Hst. injection Hst as <-.
      apply Hinv. exact (IH s eq_refl).
    + assert (Heq : ch' = ch).
      { unfold playbg_generator, ast_channel_datastore_find in Hgen.
        unfold chan_state in Es.
        destruct (datastore ch) as [[[s|]]|]; cbn in *; [discriminate| |];
          injection Hgen as _ <-; reflexivity. }
      subst ch'. congruence.
  - destruct (ast_deactivate_generator_spec ch) as [Hs Hstr].
    rewrite Hs in Hst. destruct (IH st Hst) as (Hn & Hp & Hw).
    split; [exact Hn|]. split; [exact Hp|]. intros Hle.
    destruct (Hw Hle) as [Hsm Hnone]. split; [exact Hsm|].
    destruct Hstr as [Hstr|Hstr]; [exact Hstr|congruence].
Qed.

Lemma consume_length (l : list ast_frame) :
  forall q, (List.length (consume q l) <= List.length l)%nat.
Proof.
  induction l as [|f t IH]; intros q; cbn; [lia|].
  destruct (q >? 0); cbn; [|lia]. specialize (IH (q - frame_samples f)). lia.
Qed.

Lemma consume_drains (l : list ast_frame) :
  forall q, q <= sum_samples l -> q - sum_samples (consume q l) <= 0.
Proof.
  induction l as [|f t IH]; intros q Hq; cbn in *; [lia|].
  destruct (q >? 0) eqn:E; cbn.
  - specialize (IH (q - frame_samples f)). lia.
  - rewrite Z.gtb_ltb in E. apply Z.ltb_ge in E. lia.
Qed.

Lemma consume_prefix (l : list ast_frame) :
  forall q, l = (consume q l ++ skipn (List.length (consume q l)) l)%list.
Proof.
  induction l as [|f t IH]; intros q; cbn; [reflexivity|].
  destruct (q >? 0); cbn; [|reflexivity]. f_equal. apply IH.
Qed.

Lemma wrap_scenario (fuel : nat) (ch0 : ast_channel) (name : string)
      (fr : list ast_frame) (n : Z) :
  name <> "" -> no_amp name ->
  datastore_alloc_ok h = true -> state_alloc_ok h = true ->
  filearray_alloc_ok h = true -> strdup_ok h name = true ->
  (forall evs f, write_ok h evs f = true) ->
  sounds h name = Some fr -> positive_frames fr ->
  sum_samples fr < n <= 2 * sum_samples fr ->
  stream ch0 = None -> generatordata ch0 = false ->
  (2 * List.length fr <= fuel)%nat ->
  let ch := snd (playbg_exec_start h ch0 (Some name)) in
  let l2 := consume (n - sum_samples fr) fr in
  exists ch' st',
    playbg_generator h fuel ch n = Some (0, ch')
    /\ chan_state ch' = Some st'
    /\ pos st' = 0
    /\ samples st' = sum_samples l2
    /\ sample_queue st' = n - sum_samples fr - sum_samples l2
    /\ sample_queue st' <= 0
    /\ stream ch' = Some (mkStream name fr (skipn (List.length l2) fr))
    /\ events ch' = (events ch0 ++ wrap_events name fr l2 (sum_samples fr))%list.
Proof.
  intros Hne Hamp Hd Hs Hf Hdup Hw Hsnd Hpos Hn Hstr Hgd Hfuel ch l2.
  pose proof (strsep_all_no_amp name Hamp) as Hsep.
  destruct (playbg_exec_start_names ch0 name Hne Hd Hs Hf)
    as (c1 & Hstart & Hst1 & _ & _ & Hs1 & Hev1);
    [rewrite Hsep; repeat constructor; exact Hdup|].
  rewrite Hsep in Hst1. specialize (Hs1 (or_introl Hstr)). specialize (Hev1 Hgd Hstr).
  assert (Hch : ch = c1) by (unfold ch; rewrite Hstart; reflexivity).
  rewrite Hch. clear Hch ch Hstart.
  destruct fr as [|f r]; [cbn in Hn; lia|].
  pose proof (Forall_inv Hpos) as Hf0. pose proof (Forall_inv_tail Hpos) as Hr0.
  cbn beta in Hf0. pose proof (sum_samples_nonneg r Hr0) as Hr1.
  set (T := sum_samples (f :: r)) in *.
  assert (HT : T = frame_samples f + sum_samples r) by reflexivity.
  set (st := started_state [name] (writeformat ch0)) in *.
  rewrite (playbg_generator_unfold fuel c1 st n Hst1).
  set (st0 := set_sample_queue st (sample_queue st + n)).
  set (c0 := store_state c1 st0).
  (* every state of the run has the one file at the index the seek works at *)
  assert (Htgt : forall s, filearray s = [Some name] -> nfiles s = 1 -> 0 <= pos s ->
                           seek_target h s = Some (name, f :: r) /\ seek_pos s = 0).
  { intros s Hfa Hnf Hp.
    assert (Hsp : seek_pos s = 0).
    { unfold seek_pos. rewrite Hnf. destruct (pos s >=? 1) eqn:E; [reflexivity|].
      rewrite Z.geb_leb in E. apply Z.leb_gt in E. lia. }
    split; [|exact Hsp]. unfold seek_target. rewrite Hsp. unfold filearray_at.
    rewrite Hfa. cbn. rewrite Hsnd. reflexivity. }
  (* the first frame *)
  destruct (Htgt st0 eq_refl eq_refl ltac:(cbn; lia)) as [Ht0 Hsp0].
  assert (Hrd0 : fst (ast_readframe c0) = None)
    by (unfold ast_readframe; cbn; rewrite Hs1; reflexivity).
  destruct (playbg_readframe_first_seek c0 st0 name _ eq_refl Hrd0 Ht0) as [_ Hfirst].
  cbn [samples st0 st started_state set_sample_queue] in Hfirst.
  rewrite seek_frames_0 in Hfirst.
  destruct (Hfirst f eq_refl) as (Hf1 & Hst2 & Hs2 & Hev2 & _). cbn [tl] in Hs2.
  assert (Heof0 : eof_events c0 = [])
    by (unfold eof_events; cbn; rewrite Hs1; reflexivity).
  rewrite Heof0, Hsp0 in *. cbn [events c0 store_state set_datastore app] in Hev2.
  rewrite Hev1 in Hev2.
  destruct (playbg_readframe h c0) as [rf c2] eqn:Erd. cbn [fst snd] in *. subst rf.
  (* the rest of the file *)
  set (l2' := consume (n - T - frame_samples f) r).
  pose proof (consume_length r (n - T - frame_samples f)) as Hlen. fold l2' in Hlen.
  cbn [List.length] in Hfuel.
  set (fuel2 := (fuel - S (List.length r) - S (List.length l2'))%nat).
  destruct (generator_loop_after_frame (S (List.length l2' + fuel2)) c0 c2 0 st0 _ f
              name (f :: r) r Hw eq_refl ltac:(cbn; lia) Erd Hst2 Hs2)
    as (c3 & Hloop3 & Hst3 & Hs3 & Hev3 & _).
  cbn [sample_queue samples set_pos st0 st started_state set_sample_queue]
    in Hst3, Hs3, Hev3, Hloop3.
  rewrite (consume_more r Hr0 (0 + n - frame_samples f) ltac:(lia)) in *.
  rewrite skipn_length_nil in Hs3.
  replace (S (List.length r + S (List.length l2' + fuel2))) with fuel in Hloop3
    by (unfold fuel2; lia).
  fold c0. rewrite Hloop3. clear Hloop3.
  (* at the end of the file: open again at the offset, then from the start *)
  set (st3 := set_sample_queue
                (set_samples (set_pos st0 0) (0 + frame_samples f + sum_samples r))
                (0 + n - frame_samples f - sum_samples r)) in *.
  destruct (Htgt st3 eq_refl eq_refl ltac:(cbn; lia)) as [Ht3 Hsp3].
  assert (Hrd3 : fst (ast_readframe c3) = None)
    by (unfold ast_readframe; rewrite Hs3; reflexivity).
  assert (Hend : seek_frames (samples st3) (f :: r) = [])
    by (apply seek_frames_end; [exact Hpos|cbn; lia]).
  set (st4 := advance (set_pos st3 (seek_pos st3))).
  assert (Hp4 : 0 <= pos st4).
  { unfold st4. cbn [pos advance set_samples set_pos]. rewrite Hsp3. lia. }
  destruct (Htgt st4 eq_refl eq_refl Hp4) as [Ht4 Hsp4].
  destruct (playbg_readframe_next c3 st3 name name _ _ Hst3 Hrd3 Ht3 Hend Ht4)
    as (Hf5 & Hst5 & Hs5 & Hev5 & _).
  fold st4 in Hst5. rewrite Hsp4 in Hst5. cbn [hd_error tl] in Hf5, Hs5, Hev5.
  assert (Heof3 : eof_events c3 = [EvRead name None; EvClose name])
    by (unfold eof_events; rewrite Hs3; reflexivity).
  assert (Hopen : open_events name (samples st3) = [EvOpen name true; EvSeek name T]).
  { unfold open_events. cbn [samples st3 set_sample_queue set_samples].
    replace (0 + frame_samples f + sum_samples r) with T by lia.
    destruct (T =? 0) eqn:E; [apply Z.eqb_eq in E; lia|reflexivity]. }
  rewrite Heof3, Hopen in Hev5.
  destruct (playbg_readframe h c3) as [rf c5] eqn:Erd3. cbn [fst snd] in *. subst rf.
  destruct (generator_loop_after_frame fuel2 c3 c5 0 st3 _ f
              name (f :: r) r Hw Hst3 ltac:(cbn; lia) Erd3 Hst5 Hs5)
    as (c6 & Hloop6 & Hst6 & Hs6 & Hev6 & _).
  cbn [sample_queue samples set_pos st4 st3 advance set_samples set_sample_queue]
    in Hst6, Hs6, Hev6, Hloop6.
  replace (0 + n - frame_samples f - sum_samples r - frame_samples f)
    with (n - T - frame_samples f) in * by lia.
  fold l2' in Hst6, Hs6, Hev6, Hloop6.
  rewrite Hloop6. clear Hloop6.
  pose proof (consume_drains r (n - T - frame_samples f) ltac:(lia)) as Hdr.
  fold l2' in Hdr.
  rewrite (generator_loop_done _ c6 0 _ Hst6) by (cbn; lia).
  assert (Hl2 : l2 = f :: l2').
  { unfold l2, l2'. cbn [consume]. fold T.
    destruct (n - T >? 0) eqn:E; [reflexivity|].
    rewrite Z.gtb_ltb in E. apply Z.ltb_ge in E. lia. }
  eexists c6, _. split; [reflexivity|]. split; [exact Hst6|].
  rewrite Hl2. cbn [pos samples sample_queue set_sample_queue set_samples set_pos
                    sum_samples List.length skipn].
  split; [reflexivity|]. split; [lia|]. split; [lia|]. split; [lia|].
  split; [exact Hs6|].
  rewrite Hev6, Hev5, Hev3, Hev2. unfold wrap_events.
  cbn [play_events flat_map app]. rewrite <- !app_assoc. cbn [app].
  reflexivity.
Qed.

(** C3: a seek step that finds the index at or past the number of files
    sets it to 0 before it opens a file.  The offset is 0 by then: it goes
    to 0 when a frame request moves the index on, and no channel the
    module builds has an index past the files with another offset.  With
    a list of the one file [name] of [total] samples and a request of [n]
    samples, [total < n <= 2 * total] (100 and 160, say): the file is
    played to its end; it is opened again and sought to [total], where it
    has no frame; the index goes to 1 and the offset to 0; the index is set
    to 0 and the file opened again, with no seek; and frames are taken
    from its start, whole, until they hold the [n - total] samples still
    asked for. *)
Theorem C3_index_wraps_to_first_file (fuel : nat) (ch0 : ast_channel)
        (name : string) (fr : list ast_frame) (n : Z) :
  name <> "" -> no_amp name ->
  datastore_alloc_ok h = true -> state_alloc_ok h = true ->
  filearray_alloc_ok h = true -> strdup_ok h name = true ->
  (forall evs f, write_ok h evs f = true) ->
  sounds h name = Some fr -> positive_frames fr ->
  sum_samples fr < n <= 2 * sum_samples fr ->
  stream ch0 = None -> generatordata ch0 = false ->
  (2 * List.length fr <= fuel)%nat ->
  let ch := snd (playbg_exec_start h ch0 (Some name)) in
  let l2 := consume (n - sum_samples fr) fr in
  (forall c s name' fr',
     chan_state c = Some s -> nfiles s <= pos s ->
     filearray_at s 0 = Some name' -> sounds h name' = Some fr' ->
     fst (playbg_seek h c) = 0
     /\ chan_state (snd (playbg_seek h c)) = Some (set_pos s 0)
     /\ stream (snd (playbg_seek h c))
        = Some (mkStream name' fr' (seek_frames (samples s) fr')))
  /\ (forall c s,
        reachable h c -> chan_state c = Some s -> nfiles s <= pos s ->
        samples s = 0 /\ stream c = None)
  /\ (forall s, pos (advance s) = pos s + 1 /\ samples (advance s) = 0)
  /\ (exists ch' st',
        playbg_generator h fuel ch n = Some (0, ch')
        /\ chan_state ch' = Some st'
        /\ pos st' = 0
        /\ samples st' = sum_samples l2
        /\ sample_queue st' = n - sum_samples fr - sum_samples l2
        /\ sample_queue st' <= 0
        /\ fr = (l2 ++ skipn (List.length l2) fr)%list
        /\ stream ch' = Some (mkStream name fr (skipn (List.length l2) fr))
        /\ events ch' = (events ch0 ++ wrap_events name fr l2 (sum_samples fr))%list).
Proof.
  intros Hne Hamp Hd Hs Hf Hdup Hw Hsnd Hpos Hn Hstr Hgd Hfuel ch l2.
  split; [|split; [|split]].
  - intros c s name' fr' Hst Hle Hfa Hsn.
    pose proof (playbg_seek_spec c s Hst) as H. cbn zeta in H.
    assert (Hsp : seek_pos s = 0).
    { unfold seek_pos. destruct (pos s >=? nfiles s) eqn:E; [reflexivity|].
      rewrite Z.geb_leb in E. apply Z.leb_gt in E. lia. }
    rewrite Hsp, Hfa, Hsn in H. destruct H as (_ & _ & Hr & Hs' & Hstr' & _).
    repeat split; assumption.
  - intros c s Hreach Hst Hle.
    destruct (reachable_wrap_inv c Hreach s Hst) as (_ & _ & Hwrap). apply Hwrap, Hle.
  - intros s. split; reflexivity.
  - destruct (wrap_scenario fuel ch0 name fr n Hne Hamp Hd Hs Hf Hdup Hw Hsnd Hpos Hn
                Hstr Hgd Hfuel)
      as (ch' & st' & Hgen & Hst' & Hp & Hsm & Hq & Hq0 & Hs' & Hev).
    exists ch', st'. repeat split; try assumption. apply consume_prefix.
Qed.

End Facts.

(** * Further properties *)

(** ** Parsing, both ways *)

Lemma concat_strsep_all (s : string) : String.concat "&" (strsep_all s) = s.
Proof.
  induction s as [|c r IH]; [reflexivity|]. cbn [strsep_all].
  destruct (Ascii.eqb c "&") eqn:E.
  - apply Ascii.eqb_eq in E. subst c.
    destruct (strsep_all r) as [|t ts] eqn:Er.
    + pose proof (strsep_all_length r) as Hl. rewrite Er in Hl. cbn in Hl. lia.
    + change (String.concat "&" ("" :: t :: ts))
        with ("" ++ String "&" (String.concat "&" (t :: ts))).
      rewrite IH. reflexivity.
  - destruct (strsep_all r) as [|t ts] eqn:Er.
    + pose proof (strsep_all_length r) as Hl. rewrite Er in Hl. cbn in Hl. lia.
    + destruct ts as [|u us].
      * cbn in IH |- *. rewrite IH. reflexivity.
      * change (String.concat "&" (String c t :: u :: us))
          with (String c (t ++ String "&" (String.concat "&" (u :: us)))).
        change (String.concat "&" (t :: u :: us))
          with (t ++ String "&" (String.concat "&" (u :: us))) in IH.
        rewrite IH. reflexivity.
Qed.

Lemma strsep_all_count (s : string) :
  List.length (strsep_all s) = S (count_amp s).
Proof.
  induction s as [|c r IH]; [reflexivity|]. cbn.
  destruct (Ascii.eqb c "&"); cbn; [rewrite IH; reflexivity|].
  destruct (strsep_all r); cbn in *; [discriminate|exact IH].
Qed.

Lemma strsep_all_no_amp_in (s : string) : Forall no_amp (strsep_all s).
Proof.
  unfold no_amp. induction s as [|c r IH]; [repeat constructor|]. cbn.
  destruct (Ascii.eqb c "&") eqn:E; [constructor; [reflexivity|exact IH]|].
  destruct (strsep_all r) as [|t ts]; [repeat constructor; cbn; rewrite E; reflexivity|].
  inversion IH; subst. constructor; [cbn; rewrite E; assumption|assumption].
Qed.

Lemma open_balance_app (a b : list event) :
  open_balance (a ++ b) = open_balance a + open_balance b.
Proof.
  induction a as [|e a IH]; [reflexivity|].
  destruct e as [n [|]|n o|n f|n|f r|f r]; cbn [app open_balance];
    rewrite IH; lia.
Qed.

Section More.

Variable h : host.

(** ** Start, in general *)

(** The state [playbg_start] builds for a specification: one entry per
    piece, NULL where [ast_strdup] failed. *)
Lemma playbg_exec_start_general (ch : ast_channel) (spec : string) :
  spec <> "" ->
  datastore_alloc_ok h = true -> state_alloc_ok h = true ->
  filearray_alloc_ok h = true ->
  let res := playbg_exec_start h ch (Some spec) in
  fst res = 0
  /\ chan_state (snd res)
     = Some (mkState (map (ast_strdup h) (strsep_all spec)) 0
               (Z.of_nat (List.length (strsep_all spec))) (writeformat ch) 0 0)
  /\ generatordata (snd res) = true
  /\ writeformat (snd res) = writeformat ch
  /\ (stream ch = None \/ datastore ch <> None -> stream (snd res) = None)
  /\ (no_leak ch -> no_leak (snd res))
  /\ (datastore ch <> None ->
      events (snd res) = (events ch ++ close_events ch)%list).
Proof.
  intros Hne Hd Hs Hf. cbn zeta. unfold playbg_exec_start.
  rewrite (length_nonempty spec Hne). unfold playbg_start.
  destruct spec as [|c r]; [congruence|].
  cbn [ast_strlen_zero String.length Nat.eqb].
  set (spec := String c r) in *.
  assert (Hn : (if strchr_amp spec then Z.of_nat (List.length (strsep_all spec)) else 1)
               = Z.of_nat (List.length (strsep_all spec))).
  { destruct (strchr_amp spec) eqn:E; [reflexivity|].
    rewrite (strsep_all_no_amp spec E). reflexivity. }
  assert (Hfiles : (if strchr_amp spec then map (ast_strdup h) (strsep_all spec)
                    else [ast_strdup h spec]) = map (ast_strdup h) (strsep_all spec)).
  { destruct (strchr_amp spec) eqn:E; [reflexivity|].
    rewrite (strsep_all_no_amp spec E). reflexivity. }
  rewrite Hn, Hfiles, Hd, Hs, Hf.
  pose proof (strsep_all_length spec) as Hlen.
  destruct (Z.of_nat (List.length (strsep_all spec)) <? 1) eqn:E;
    [apply Z.ltb_lt in E; lia|].
  cbn [negb].
  generalize (map (ast_strdup h) (strsep_all spec)) as files.
  generalize (Z.of_nat (List.length (strsep_all spec))) as n.
  intros n files.
  unfold ast_activate_generator, ast_deactivate_generator, playbg_release,
    playbg_alloc, ast_channel_datastore_find, ast_set_write_format,
    close_stream, chan_state, store_state, no_leak, close_events.
  destruct ch as [[s|] w [d|] [|] ev]; cbn;
    try destruct (w =? 0) eqn:Ew; cbn;
    try destruct (fmt_ok h w) eqn:Efmt; cbn;
    (split; [reflexivity|]); (split; [reflexivity|]); (split; [reflexivity|]);
    (split; [reflexivity|]); (split; [try reflexivity; intros [?|?]; congruence|]);
    (split; [intros Hb; rewrite ?open_balance_app; cbn; lia|]);
    intros Hd'; rewrite ?app_nil_r; try reflexivity; congruence.
Qed.

(** X1: a specification is split at every '&': Start on any specification that
    is not empty installs one name per piece, empty pieces included; the
    names joined by '&' give the specification back, and there is one name
    more than there are '&'. *)
Theorem start_splits_at_every_amp (ch : ast_channel) (spec : string) :
  spec <> "" ->
  datastore_alloc_ok h = true -> state_alloc_ok h = true ->
  filearray_alloc_ok h = true ->
  Forall (fun n => strdup_ok h n = true) (strsep_all spec) ->
  exists ch' st names,
    playbg_exec_start h ch (Some spec) = (0, ch')
    /\ chan_state ch' = Some st
    /\ filearray st = map Some names
    /\ String.concat "&" names = spec
    /\ Forall no_amp names
    /\ List.length names = S (count_amp spec)
    /\ nfiles st = Z.of_nat (S (count_amp spec)).
Proof.
  intros Hne Hd Hs Hf Hdup.
  destruct (playbg_exec_start_general ch spec Hne Hd Hs Hf) as (Hr & Hst & _).
  destruct (playbg_exec_start h ch (Some spec)) as [r ch'] eqn:E.
  cbn [fst snd] in *. subst r.
  eexists ch', _, (strsep_all spec). split; [reflexivity|].
  split; [exact Hst|]. cbn [filearray nfiles].
  split.
  { apply map_ext_in. intros a Ha. unfold ast_strdup.
    rewrite Forall_forall in Hdup. rewrite (Hdup a Ha). reflexivity. }
  split; [apply concat_strsep_all|].
  split; [apply strsep_all_no_amp_in|].
  split; [apply strsep_all_count|].
  rewrite strsep_all_count. reflexivity.
Qed.



(** ** Start that fails, Stop, and what follows *)

(** X3: when an allocation of Start fails, Start returns -1.  A channel
    without a datastore is left as it was; a channel with one has lost it:
    the old state is gone, its stream closed and the generator
    deactivated, before the allocation is tried. *)
Theorem start_failure_drops_old_state (ch : ast_channel) (spec : string) :
  spec <> "" ->
  datastore_alloc_ok h = false \/ state_alloc_ok h = false
  \/ filearray_alloc_ok h = false ->
  let res := playbg_exec_start h ch (Some spec) in
  fst res = -1
  /\ (datastore ch = None -> snd res = ch)
  /\ (datastore ch <> None ->
      datastore (snd res) = None /\ stream (snd res) = None
      /\ generatordata (snd res) = false
      /\ writeformat (snd res) = writeformat ch
      /\ events (snd res) = (events ch ++ close_events ch)%list).
Proof.
  intros Hne Hfail. cbn zeta. unfold playbg_exec_start.
  rewrite (length_nonempty spec Hne). unfold playbg_start.
  destruct spec as [|c r]; [congruence|].
  cbn [ast_strlen_zero String.length Nat.eqb].
  set (spec := String c r) in *.
  pose proof (strsep_all_length spec) as Hlen.
  assert (Hn : ((if strchr_amp spec then Z.of_nat (List.length (strsep_all spec)) else 1)
                <? 1) = false).
  { destruct (strchr_amp spec); apply Z.ltb_ge; lia. }
  rewrite Hn.
  assert (Hres : forall (c1 : ast_channel) (c2 : Z * ast_channel),
             (if negb (datastore_alloc_ok h) then (-1, c1)
              else if negb (state_alloc_ok h) then (-1, c1)
              else if negb (filearray_alloc_ok h) then (-1, c1)
              else c2) = (-1, c1)).
  { intros c1 c2.
    destruct Hfail as [E|[E|E]]; rewrite E; cbn;
      repeat (match goal with |- context [negb ?b] => destruct b end; cbn);
      reflexivity. }
  rewrite Hres. cbn [fst snd].
  unfold ast_deactivate_generator, playbg_release, ast_channel_datastore_find,
    close_stream, close_events.
  destruct ch as [[s|] w [d|] [|] ev]; cbn; rewrite ?app_nil_r;
    (split; [reflexivity|]); (split; [try reflexivity; congruence|]);
    intros Hd; try congruence; repeat split; reflexivity.
Qed.

(** X4: start on a channel that is playing is Stop followed by Start: with a
    specification that is not empty, Start gives the same result, channel
    and calls to the host on any channel as on that channel after Stop,
    whether its allocations succeed or not. *)
Theorem start_is_stop_then_start (ch : ast_channel) (spec : string) :
  spec <> "" ->
  playbg_exec_start h ch (Some spec)
  = playbg_exec_start h (snd (playbg_exec_stop h ch)) (Some spec).
Proof.
  intros Hne. unfold playbg_exec_start.
  rewrite (length_nonempty spec Hne). unfold playbg_start.
  destruct spec as [|c r]; [congruence|].
  cbn [ast_strlen_zero String.length Nat.eqb].
  set (spec := String c r) in *.
  pose proof (strsep_all_length spec) as Hlen.
  assert (Hn : ((if strchr_amp spec then Z.of_nat (List.length (strsep_all spec)) else 1)
                <? 1) = false).
  { destruct (strchr_amp spec); apply Z.ltb_ge; lia. }
  rewrite Hn. cbn [playbg_exec_stop snd].
  unfold playbg_stop, ast_channel_datastore_find.
  destruct (datastore ch) as [[[st|]]|] eqn:Ed; cbn [data]; rewrite ?Ed;
    try reflexivity.
  assert (Hnone : datastore (close_stream (ast_deactivate_generator h
                                             (set_datastore ch None))) = None).
  { unfold close_stream, ast_deactivate_generator, playbg_release,
      ast_channel_datastore_find.
    destruct ch as [[s|] w d [|] ev]; reflexivity. }
  rewrite Hnone. reflexivity.
Qed.

(** X5: stop on a channel with a state takes the datastore away, deactivates
    the generator and closes the stream; it asks the host for nothing
    else: the write format of the channel stays what it is, whatever
    format the state had recorded. *)
Theorem stop_leaves_write_format (ch : ast_channel) (st : playbg_state) :
  chan_state ch = Some st ->
  let ch' := snd (playbg_exec_stop h ch) in
  fst (playbg_exec_stop h ch) = 0
  /\ datastore ch' = None /\ stream ch' = None /\ generatordata ch' = false
  /\ writeformat ch' = writeformat ch
  /\ events ch' = (events ch ++ close_events ch)%list.
Proof.
  intros Hst. pose proof (chan_state_datastore ch st Hst) as Hds.
  cbn zeta. unfold playbg_exec_stop, playbg_stop, ast_channel_datastore_find.
  rewrite Hds. cbn [data fst snd].
  unfold ast_deactivate_generator, playbg_release, ast_channel_datastore_find,
    close_stream, close_events.
  destruct ch as [[s|] w d [|] ev]; cbn; rewrite ?app_nil_r; repeat split; reflexivity.
Qed.

(** X6: after Stop, whatever the channel was, Resume returns -1 and an
    invocation of the generator returns -1, and neither changes the
    channel. *)
Theorem nothing_runs_after_stop (ch : ast_channel) :
  let ch' := snd (playbg_exec_stop h ch) in
  chan_state ch' = None
  /\ playbg_exec_resume h ch' = (-1, ch')
  /\ (forall fuel n, playbg_generator h fuel ch' n = Some (-1, ch'))
  /\ playbg_release h ch' = ch'.
Proof.
  cbn zeta. unfold playbg_exec_stop, playbg_stop, playbg_exec_resume,
    playbg_generator, playbg_release, ast_channel_datastore_find,
    ast_deactivate_generator, close_stream, chan_state.
  destruct ch as [[s|] w [[[st|]]|] [|] ev]; cbn; repeat split; reflexivity.
Qed.

(** ** Invocations with nothing to produce *)

(** X7: an invocation whose request leaves the queue at or below 0 (a request
    of 0 samples, or one that earlier frames already covered) returns 0
    whatever the fuel, makes no call to the host and changes the queue
    only. *)
Theorem generator_idle_when_queue_covered (fuel : nat) (ch : ast_channel)
        (st : playbg_state) (n : Z) :
  chan_state ch = Some st -> sample_queue st + n <= 0 ->
  playbg_generator h fuel ch n
  = Some (0, store_state ch (set_sample_queue st (sample_queue st + n))).
Proof.
  intros Hst Hq. rewrite (playbg_generator_unfold h fuel ch st n Hst).
  apply (generator_loop_done h fuel _ 0 (set_sample_queue st (sample_queue st + n)));
    [reflexivity|exact Hq].
Qed.

(** ** What every frame request and every invocation keeps *)

Lemma open_balance_close_events (c : ast_channel) :
  open_balance (close_events c) = match stream c with Some _ => -1 | None => 0 end.
Proof. unfold close_events. destruct (stream c); reflexivity. Qed.

Lemma open_balance_open_events (name : string) (off : Z) :
  open_balance (open_events name off) = 1.
Proof. unfold open_events. destruct (off =? 0); reflexivity. Qed.

Lemma open_balance_failed_open_events (s : playbg_state) :
  open_balance (failed_open_events s) = 0.
Proof.
  unfold failed_open_events. destruct (filearray_at s (seek_pos s)); reflexivity.
Qed.

Lemma seek_and_read_no_leak (c : ast_channel) (s : playbg_state) :
  chan_state c = Some s -> no_leak c -> no_leak (snd (seek_and_read h c)).
Proof.
  intros Hst Hb. unfold no_leak in *.
  destruct (seek_target h s) as [[name fr]|] eqn:Et.
  - destruct (seek_target_some h s name fr Et) as [Hfa Hfr].
    destruct (seek_and_read_opens h c s name fr Hst Hfa Hfr)
      as (_ & _ & Hstr & Hev & _).
    rewrite Hstr, Hev, !open_balance_app, open_balance_close_events,
      open_balance_open_events, Hb.
    cbn. destruct (stream c); lia.
  - destruct (seek_and_read_fails h c s Hst Et) as (_ & _ & Hstr & Hev & _).
    rewrite Hstr, Hev, !open_balance_app, open_balance_close_events,
      open_balance_failed_open_events, Hb.
    destruct (stream c); lia.
Qed.

Lemma ast_readframe_no_leak (c : ast_channel) :
  no_leak c -> no_leak (snd (ast_readframe c)).
Proof.
  unfold no_leak, ast_readframe.
  destruct (stream c) as [[n fr [|f r]]|] eqn:E; cbn; rewrite ?E;
    rewrite ?open_balance_app; cbn; intros Hb; lia.
Qed.

Lemma ast_readframe_appends (c : ast_channel) :
  exists tail, events (snd (ast_readframe c)) = (events c ++ tail)%list.
Proof.
  unfold ast_readframe.
  destruct (stream c) as [[n fr [|f r]]|]; cbn;
    try (eexists; reflexivity).
  exists []. rewrite app_nil_r. reflexivity.
Qed.

(** A frame request adds to the history, keeps the account of the open
    stream, and leaves the index at most one past the last file. *)
Lemma playbg_readframe_more (ch : ast_channel) (st : playbg_state) :
  chan_state ch = Some st ->
  let res := playbg_readframe h ch in
  (exists tail, events (snd res) = (events ch ++ tail)%list)
  /\ (no_leak ch -> no_leak (snd res))
  /\ (forall st', chan_state (snd res) = Some st' ->
                  1 <= nfiles st -> 0 <= pos st <= nfiles st ->
                  0 <= pos st' <= nfiles st).
Proof.
  intros Hst. cbn zeta.
  destruct (fst (ast_readframe ch)) as [f|] eqn:Ef.
  - assert (Hrd : playbg_readframe h ch = (Some f, snd (ast_readframe ch))).
    { unfold playbg_readframe.
      destruct (ast_readframe ch) as [[g|] c]; cbn in Ef; [|discriminate].
      injection Ef as ->. reflexivity. }
    rewrite Hrd. cbn [snd].
    split; [apply ast_readframe_appends|].
    split; [apply ast_readframe_no_leak|].
    intros st' Hst' Hn Hp.
    destruct (ast_readframe_keeps ch) as (Hd & _).
    unfold chan_state in Hst', Hst. rewrite Hd, Hst in Hst'. injection Hst' as <-.
    exact Hp.
  - rewrite (playbg_readframe_cold h ch Ef).
    destruct (ast_readframe_keeps ch) as (Hd & _).
    destruct (ast_readframe_appends ch) as (t0 & Ht0).
    pose proof (ast_readframe_no_leak ch) as Hl0.
    set (c0 := snd (ast_readframe ch)) in *.
    assert (Hst0 : chan_state c0 = Some st)
      by (unfold chan_state; rewrite Hd; exact Hst).
    destruct (seek_and_read_keeps h c0 st Hst0) as (p1 & Hs1 & _ & _ & _ & Hr1).
    destruct (seek_and_read_appends h c0 st Hst0) as (t1 & Ht1).
    pose proof (seek_and_read_no_leak c0 st Hst0) as Hl1.
    destruct (seek_and_read h c0) as [[f|] c1]; cbn [fst snd] in *.
    + split; [exists (t0 ++ t1)%list; rewrite Ht1, Ht0, app_assoc; reflexivity|].
      split; [intros Hb; apply Hl1, Hl0, Hb|].
      intros st' Hst' Hn Hp. rewrite Hs1 in Hst'. injection Hst' as <-. cbn.
      destruct (Hr1 Hn (proj1 Hp)) as (Hp1 & _). exact Hp1.
    + rewrite Hs1.
      set (c2 := store_state c1 (advance (set_pos st p1))).
      assert (Hst2 : chan_state c2 = Some (advance (set_pos st p1))) by reflexivity.
      destruct (seek_and_read_keeps h c2 _ Hst2) as (p2 & Hs2 & _ & _ & _ & Hr2).
      destruct (seek_and_read_appends h c2 _ Hst2) as (t2 & Ht2).
      pose proof (seek_and_read_no_leak c2 _ Hst2) as Hl2.
      split.
      { exists (t0 ++ t1 ++ t2)%list. rewrite Ht2.
        cbn [events c2 store_state set_datastore].
        rewrite Ht1, Ht0, <- !app_assoc. reflexivity. }
      split; [intros Hb; apply Hl2, Hl1, Hl0, Hb|].
      intros st' Hst' Hn Hp. rewrite Hs2 in Hst'. injection Hst' as <-. cbn.
      destruct (Hr1 Hn (proj1 Hp)) as (Hp1 & _).
      cbn in Hr2. destruct (Hr2 Hn) as (Hp2 & _); [lia|exact Hp2].
Qed.

(** The same for the loop of the generator. *)
Lemma generator_loop_more (fuel : nat) :
  forall (ch : ast_channel) (res : Z) (st : playbg_state) (r : Z) (ch' : ast_channel),
    chan_state ch = Some st ->
    generator_loop h fuel ch res = Some (r, ch') ->
    (exists tail, events ch' = (events ch ++ tail)%list)
    /\ (no_leak ch -> no_leak ch')
    /\ (forall st', chan_state ch' = Some st' ->
                    1 <= nfiles st -> 0 <= pos st <= nfiles st ->
                    0 <= pos st' <= nfiles st).
Proof.
  assert (Hdone : forall (ch : ast_channel) (st : playbg_state),
             chan_state ch = Some st ->
             (exists tail, events ch = (events ch ++ tail)%list)
             /\ (no_leak ch -> no_leak ch)
             /\ (forall st', chan_state ch = Some st' ->
                             1 <= nfiles st -> 0 <= pos st <= nfiles st ->
                             0 <= pos st' <= nfiles st)).
  { intros ch st Hst. split; [exists []; rewrite app_nil_r; reflexivity|].
    split; [auto|]. intros st' Hst'. rewrite Hst in Hst'. injection Hst' as <-. auto. }
  induction fuel as [|fuel IH]; intros ch res st r ch' Hst Hloop.
  - cbn in Hloop. rewrite Hst in Hloop.
    destruct (sample_queue st >? 0); [discriminate|].
    injection Hloop as <- <-. apply Hdone, Hst.
  - cbn in Hloop. rewrite Hst in Hloop.
    destruct (sample_queue st >? 0).
    2:{ injection Hloop as <- <-. apply Hdone, Hst. }
    destruct (playbg_readframe_keeps h ch st Hst)
      as (st1 & Hst1 & _ & Hnf1 & _).
    destruct (playbg_readframe_more ch st Hst) as ((t1 & Ht1) & Hl1 & Hp1).
    destruct (playbg_readframe h ch) as [[f|] ch1]; cbn [fst snd] in *.
    + rewrite Hst1 in Hloop. unfold ast_write in Hloop.
      set (st2 := set_sample_queue (set_samples st1 (samples st1 + frame_samples f))
                    (sample_queue st1 - frame_samples f)) in *.
      set (c2 := store_state ch1 st2) in *.
      assert (Hev : forall e, events (log c2 e) = (events ch ++ t1 ++ [e])%list).
      { intros e. cbn. rewrite Ht1, <- app_assoc. reflexivity. }
      assert (Hl2 : forall f0 r0, no_leak ch -> no_leak (log c2 (EvWrite f0 r0))).
      { intros f0 r0 Hb. specialize (Hl1 Hb). unfold no_leak in *. cbn.
        rewrite open_balance_app, Hl1. cbn. lia. }
      destruct (write_ok h (events ch1) f).
      * cbn [Z.ltb Z.compare] in Hloop.
        destruct (IH (log c2 (EvWrite f 0)) 0 st2 r ch' eq_refl Hloop)
          as ((t2 & Ht2) & Hl3 & Hp3).
        split.
        { eexists. rewrite Ht2, Hev, <- !app_assoc. reflexivity. }
        split; [intros Hb; apply Hl3, Hl2, Hb|].
        intros st' Hst' Hn Hp. specialize (Hp1 st1 Hst1 Hn Hp).
        cbn in Hp3. rewrite Hnf1 in Hp3. apply (Hp3 st' Hst' Hn Hp1).
      * cbn [Z.ltb Z.compare] in Hloop. injection Hloop as <- <-.
        split; [eexists; apply Hev|].
        split; [apply Hl2|].
        intros st' Hst' Hn Hp. cbn in Hst'. injection Hst' as <-. cbn.
        apply (Hp1 st1 Hst1 Hn Hp).
    + injection Hloop as <- <-.
      split; [exists t1; exact Ht1|]. split; [exact Hl1|exact Hp1].
Qed.

(** X8: an invocation of the generator, when it returns, has changed the
    index, the offset, the queue, the stream and the history only: the
    files of the state, their number, the recorded write format, the
    write format of the channel and the generator slot are what they
    were, the state is still on the channel, the history has grown at its
    end, and the result is 0 or -1. *)
Theorem generator_keeps_files_and_format (fuel : nat) (ch ch' : ast_channel)
        (st : playbg_state) (n r : Z) :
  chan_state ch = Some st ->
  playbg_generator h fuel ch n = Some (r, ch') ->
  exists st',
    chan_state ch' = Some st'
    /\ filearray st' = filearray st /\ nfiles st' = nfiles st
    /\ origwfmt st' = origwfmt st
    /\ writeformat ch' = writeformat ch
    /\ generatordata ch' = generatordata ch
    /\ (r = 0 \/ r = -1)
    /\ exists evs, events ch' = (events ch ++ evs)%list.
Proof.
  intros Hst Hgen. rewrite (playbg_generator_unfold h fuel ch st n Hst) in Hgen.
  set (st0 := set_sample_queue st (sample_queue st + n)) in *.
  destruct (generator_loop_keeps h fuel (store_state ch st0) 0 st0 r ch' eq_refl Hgen)
    as (st' & Hst' & Hfa & Hnf & How & _ & Hwf & Hg & Hr & _).
  destruct (generator_loop_more fuel (store_state ch st0) 0 st0 r ch' eq_refl Hgen)
    as (Hev & _).
  exists st'. split; [exact Hst'|]. split; [exact Hfa|]. split; [exact Hnf|].
  split; [exact How|]. split; [exact Hwf|]. split; [exact Hg|].
  split; [|exact Hev].
  destruct Hr as [Hr|[_ [Hr|Hr]]]; auto.
Qed.

(** ** No stream is left open behind *)

Lemma playbg_start_no_leak (ch : ast_channel) (opts : option string) :
  no_leak ch -> no_leak (snd (playbg_start h ch opts)).
Proof.
  intros Hb. unfold playbg_start. destruct opts as [opt|]; [|exact Hb].
  destruct (ast_strlen_zero (Some opt)); [exact Hb|].
  generalize (if strchr_amp opt then Z.of_nat (List.length (strsep_all opt)) else 1).
  generalize (if strchr_amp opt then map (ast_strdup h) (strsep_all opt)
              else [ast_strdup h opt]).
  intros files n. destruct (n <? 1); [exact Hb|].
  revert Hb.
  unfold ast_activate_generator, ast_deactivate_generator, playbg_release,
    playbg_alloc, ast_channel_datastore_find, ast_set_write_format,
    close_stream, store_state, no_leak.
  destruct (datastore_alloc_ok h), (state_alloc_ok h), (filearray_alloc_ok h);
    destruct ch as [[s|] w [d|] [|] ev]; cbn;
    try destruct (w =? 0); cbn; try destruct (fmt_ok h w); cbn;
    intros Hb; rewrite ?open_balance_app; cbn; lia.
Qed.

Lemma playbg_release_no_leak (ch : ast_channel) :
  no_leak ch -> no_leak (playbg_release h ch).
Proof.
  unfold playbg_release, ast_channel_datastore_find, ast_set_write_format,
    close_stream, no_leak.
  destruct ch as [[s|] w [[[st|]]|] g ev]; cbn; try (intros Hb; exact Hb);
    destruct (origwfmt st =? 0); cbn; try destruct (fmt_ok h (origwfmt st)); cbn;
    intros Hb; rewrite ?open_balance_app; cbn; lia.
Qed.

(** X9: the module closes the stream of the channel before it opens another
    and when it lets go of it: if the history of a channel accounts for
    its stream (as many successful opens as closes, or one more when a
    stream is open), it still does after Start, Stop, Resume, a release,
    a deactivation of the generator, a frame request and an invocation of
    the generator. *)
Theorem no_operation_leaks_a_stream (ch : ast_channel) :
  no_leak ch ->
  (forall data, no_leak (snd (playbg_exec_start h ch data)))
  /\ no_leak (snd (playbg_exec_stop h ch))
  /\ no_leak (snd (playbg_exec_resume h ch))
  /\ no_leak (playbg_release h ch)
  /\ no_leak (ast_deactivate_generator h ch)
  /\ no_leak (snd (playbg_seek h ch))
  /\ no_leak (snd (playbg_readframe h ch))
  /\ (forall fuel n r ch',
        playbg_generator h fuel ch n = Some (r, ch') -> no_leak ch').
Proof.
  intros Hb.
  assert (Hrel : no_leak (playbg_release h ch)) by (apply playbg_release_no_leak, Hb).
  assert (Hdeact : forall c, no_leak c -> no_leak (ast_deactivate_generator h c)).
  { intros c Hc. unfold ast_deactivate_generator.
    destruct (generatordata c); [|exact Hc].
    apply (playbg_release_no_leak c) in Hc. exact Hc. }
  split.
  { intros data. unfold playbg_exec_start. destruct data as [d|]; [|exact Hb].
    destruct (String.length d =? 0)%nat; [exact Hb|].
    apply playbg_start_no_leak, Hb. }
  split.
  { cbn [playbg_exec_stop snd]. unfold playbg_stop, ast_channel_datastore_find.
    destruct (datastore ch) as [[[st|]]|] eqn:Ed; cbn [data]; try exact Hb.
    assert (Hc : no_leak (ast_deactivate_generator h (set_datastore ch None)))
      by (apply Hdeact; exact Hb).
    revert Hc. generalize (ast_deactivate_generator h (set_datastore ch None)).
    intros c Hc. unfold no_leak, close_stream in *.
    destruct c as [[s|] w d g ev]; cbn in *; rewrite ?open_balance_app; cbn; lia. }
  split.
  { unfold playbg_exec_resume, ast_channel_datastore_find.
    destruct (datastore ch) as [[[st|]]|] eqn:Ed; cbn [data]; try exact Hb.
    unfold ast_activate_generator.
    set (c0 := store_state ch (set_origwfmt st (writeformat ch))).
    assert (Hc0 : no_leak c0) by exact Hb.
    assert (Hc1 : no_leak (if generatordata c0
                           then set_generatordata (playbg_release h c0) false
                           else c0)).
    { destruct (generatordata c0); [|exact Hc0].
      apply (playbg_release_no_leak c0) in Hc0. exact Hc0. }
    revert Hc1. generalize (if generatordata c0
                            then set_generatordata (playbg_release h c0) false
                            else c0).
    intros c1 Hc1. unfold playbg_alloc, ast_channel_datastore_find.
    destruct (datastore c1) as [[[s1|]]|]; exact Hc1. }
  split; [exact Hrel|]. split; [apply Hdeact, Hb|].
  destruct (chan_state ch) as [st|] eqn:Est.
  - split.
    { pose proof (playbg_seek_spec h ch st Est) as H. cbn zeta in H.
      unfold no_leak in *.
      destruct (filearray_at st (seek_pos st)) as [name|].
      - destruct (sounds h name).
        + destruct H as (_ & _ & _ & _ & Hs & He).
          rewrite Hs, He, !open_balance_app, open_balance_close_events,
            open_balance_open_events, Hb. destruct (stream ch); lia.
        + destruct H as (_ & _ & _ & _ & Hs & He).
          rewrite Hs, He, !open_balance_app, open_balance_close_events, Hb.
          cbn. destruct (stream ch); lia.
      - destruct H as (_ & _ & _ & _ & Hs & He).
        rewrite Hs, He, !open_balance_app, open_balance_close_events, Hb.
        destruct (stream ch); lia. }
    split; [apply (playbg_readframe_more ch st Est), Hb|].
    intros fuel n r ch' Hgen.
    rewrite (playbg_generator_unfold h fuel ch st n Est) in Hgen.
    apply (generator_loop_more fuel
             (store_state ch (set_sample_queue st (sample_queue st + n))) 0
             (set_sample_queue st (sample_queue st + n)) r ch' eq_refl Hgen).
    exact Hb.
  - assert (Hseek : playbg_seek h ch = (-1, ch)).
    { unfold playbg_seek, ast_channel_datastore_find. unfold chan_state in Est.
      destruct (datastore ch) as [[[s|]]|]; cbn in *; [discriminate| |]; reflexivity. }
    split; [rewrite Hseek; exact Hb|].
    split.
    { unfold playbg_readframe, seek_and_read.
      pose proof (ast_readframe_no_leak ch Hb) as H0.
      destruct (ast_readframe_keeps ch) as (Hd & _).
      destruct (ast_readframe ch) as [[f|] c0]; cbn [fst snd] in *; [exact H0|].
      assert (Hseek0 : playbg_seek h c0 = (-1, c0)).
      { unfold playbg_seek, ast_channel_datastore_find. unfold chan_state in Est.
        rewrite Hd.
        destruct (datastore ch) as [[[s|]]|]; cbn in *; [discriminate| |]; reflexivity. }
      rewrite Hseek0. cbn [Z.eqb]. unfold ast_channel_datastore_find.
      unfold chan_state in Est. rewrite Hd.
      destruct (datastore ch) as [[[s|]]|]; cbn in *; [discriminate| |]; exact H0. }
    intros fuel n r ch' Hgen.
    unfold playbg_generator, ast_channel_datastore_find in Hgen.
    unfold chan_state in Est.
    destruct (datastore ch) as [[[s|]]|]; cbn in *; [discriminate| |];
      injection Hgen as _ <-; exact Hb.
Qed.

(** ** The index stays within the array *)

Lemma playbg_start_bounds (ch : ast_channel) (opts : option string)
      (st' : playbg_state) :
  chan_state (snd (playbg_start h ch opts)) = Some st' ->
  snd (playbg_start h ch opts) = ch
  \/ (pos st' = 0 /\ 1 <= nfiles st'
      /\ nfiles st' = Z.of_nat (List.length (filearray st'))).
Proof.
  unfold playbg_start. destruct opts as [opt|]; [|left; reflexivity].
  destruct (ast_strlen_zero (Some opt)); [left; reflexivity|].
  set (n := if strchr_amp opt then Z.of_nat (List.length (strsep_all opt)) else 1).
  set (files := if strchr_amp opt then map (ast_strdup h) (strsep_all opt)
                else [ast_strdup h opt]).
  assert (Hlen : n = Z.of_nat (List.length files)).
  { unfold n, files. destruct (strchr_amp opt); [rewrite length_map|]; reflexivity. }
  destruct (n <? 1) eqn:En; [left; reflexivity|]. apply Z.ltb_ge in En.
  set (cl := match ast_channel_datastore_find ch with
             | Some _ => close_stream (ast_deactivate_generator h (set_datastore ch None))
             | None => ch
             end).
  assert (Hcl : cl = ch \/ chan_state cl = None).
  { unfold cl, ast_channel_datastore_find.
    destruct (datastore ch) eqn:Ed; [right|left; reflexivity].
    unfold close_stream, ast_deactivate_generator, playbg_release,
      ast_channel_datastore_find, chan_state.
    destruct ch as [[str|] w d [|] ev]; reflexivity. }
  destruct (negb (datastore_alloc_ok h)).
  { cbn [snd]. destruct Hcl as [->|Hcl]; [left; reflexivity|congruence]. }
  destruct (negb (state_alloc_ok h)).
  { cbn [snd]. destruct Hcl as [->|Hcl]; [left; reflexivity|congruence]. }
  destruct (negb (filearray_alloc_ok h)).
  { cbn [snd]. destruct Hcl as [->|Hcl]; [left; reflexivity|congruence]. }
  intros Hst. right.
  destruct (ast_activate_generator_spec h
              (set_datastore cl (Some (mkDatastore
                                         (Some (mkState files 0 n (writeformat cl) 0 0)))))
              (mkState files 0 n (writeformat cl) 0 0) eq_refl)
    as (_ & (w & Hs) & _).
  rewrite Hs in Hst. injection Hst as <-. cbn.
  split; [reflexivity|]. split; [exact En|exact Hlen].
Qed.

(** X10: on every channel the module can build, the array of the state holds
    as many entries as [nfiles] says, at least one, and the index is
    between 0 and [nfiles]; so the entry a seek step reads, at the index
    or at 0 when the index is [nfiles], is an entry of the array. *)
Theorem index_stays_within_array (ch : ast_channel) (st : playbg_state) :
  reachable h ch -> chan_state ch = Some st ->
  in_bounds st
  /\ 0 <= seek_pos st < Z.of_nat (List.length (filearray st)).
Proof.
  intros Hreach.
  assert (Hall : forall s, chan_state ch = Some s -> in_bounds s).
  { clear st. induction Hreach as [ch Hd|ch data Hr IH|ch Hr IH|ch Hr IH
                                  |ch fuel n r ch' Hr IH Hgen|ch Hr IH]; intros st Hst.
    - unfold chan_state in Hst. rewrite Hd in Hst. discriminate.
    - unfold playbg_exec_start in Hst |- *.
      destruct data as [d|]; [|apply IH, Hst].
      destruct (String.length d =? 0)%nat; [apply IH, Hst|].
      destruct (playbg_start_bounds ch (Some d) st Hst) as [Heq|(Hp & Hn & Hl)].
      + rewrite Heq in Hst. apply IH, Hst.
      + split; [exact Hl|]. split; [exact Hn|]. lia.
    - cbn [playbg_exec_stop snd] in Hst.
      unfold playbg_stop, ast_channel_datastore_find in Hst.
      destruct (datastore ch) as [[[s|]]|] eqn:Ed; cbn [data] in Hst;
        try (apply IH; exact Hst).
      exfalso. revert Hst.
      unfold close_stream, ast_deactivate_generator, playbg_release,
        ast_channel_datastore_find, chan_state.
      destruct ch as [[str|] w d [|] ev]; cbn; discriminate.
    - destruct (chan_state ch) as [s|] eqn:Es.
      + destruct (playbg_exec_resume_spec h ch s Es) as (_ & Hs' & _).
        rewrite Hs' in Hst. injection Hst as <-. exact (IH s eq_refl).
      + assert (Heq : snd (playbg_exec_resume h ch) = ch).
        { unfold playbg_exec_resume, ast_channel_datastore_find.
          unfold chan_state in Es.
          destruct (datastore ch) as [[[s|]]|]; cbn in *; [discriminate| |];
            reflexivity. }
        rewrite Heq in Hst. congruence.
    - destruct (chan_state ch) as [s|] eqn:Es.
      + rewrite (playbg_generator_unfold h fuel ch s n Es) in Hgen.
        set (s0 := set_sample_queue s (sample_queue s + n)) in *.
        destruct (generator_loop_keeps h fuel (store_state ch s0) 0 s0 r ch'
                    eq_refl Hgen) as (st' & Hst' & Hfa & Hnf & _).
        destruct (generator_loop_more fuel (store_state ch s0) 0 s0 r ch'
                    eq_refl Hgen) as (_ & _ & Hp).
        rewrite Hst' in Hst. injection Hst as <-.
        destruct (IH s eq_refl) as (Hl & Hn & Hps).
        split; [rewrite Hnf, Hfa; exact Hl|]. split; [rewrite Hnf; exact Hn|].
        rewrite Hnf. apply (Hp st' Hst'); assumption.
      + assert (Heq : ch' = ch).
        { unfold playbg_generator, ast_channel_datastore_find in Hgen.
          unfold chan_state in Es.
          destruct (datastore ch) as [[[s|]]|]; cbn in *; [discriminate| |];
            injection Hgen as _ <-; reflexivity. }
        subst ch'. congruence.
    - destruct (ast_deactivate_generator_spec h ch) as [Hs _].
      rewrite Hs in Hst. apply IH, Hst. }
  intros Hst. pose proof (Hall st Hst) as Hb. split; [exact Hb|].
  destruct Hb as (Hl & Hn & Hp). rewrite <- Hl.
  apply seek_pos_range; lia.
Qed.

(** ** Playing the list round and round *)

Lemma sum_samples_app (a b : list ast_frame) :
  sum_samples (a ++ b) = sum_samples a + sum_samples b.
Proof.
  induction a as [|f a IH]; cbn [app sum_samples]; [reflexivity|rewrite IH; lia].
Qed.

Lemma seek_frames_app (pre rest : list ast_frame) :
  positive_frames pre -> seek_frames (sum_samples pre) (pre ++ rest) = rest.
Proof.
  induction pre as [|f pre IH]; intros Hpos.
  - cbn. destruct rest; reflexivity.
  - pose proof (Forall_inv Hpos) as Hf. pose proof (Forall_inv_tail Hpos) as Ht.
    pose proof (sum_samples_nonneg pre Ht) as Hs. cbn beta in Hf.
    cbn [app sum_samples seek_frames].
    destruct (frame_samples f + sum_samples pre <=? 0) eqn:E;
      [apply Z.leb_le in E; lia|].
    replace (frame_samples f + sum_samples pre - frame_samples f)
      with (sum_samples pre) by lia.
    apply IH, Ht.
Qed.

Lemma writes_eof_events (c : ast_channel) : writes (eof_events c) = [].
Proof. unfold eof_events. destruct (stream c); reflexivity. Qed.

Lemma next_index_lt (n i : nat) : (i < n)%nat -> (next_index n i < n)%nat.
Proof.
  intros Hi. unfold next_index. destruct (Nat.ltb_spec (S i) n); lia.
Qed.

Lemma playable_nth (names : list string) (i : nat) (name : string) :
  Forall (playable h) names -> nth_error names i = Some name -> playable h name.
Proof.
  intros Hall Hn. rewrite Forall_forall in Hall.
  apply Hall. eapply nth_error_In. exact Hn.
Qed.

Lemma playing_at_entry (names : list string) (i : nat) :
  Forall (playable h) names -> (i < List.length names)%nat ->
  exists name f r,
    nth_error names i = Some name /\ sounds h name = Some (f :: r)
    /\ positive_frames (f :: r) /\ file_frames h names i = f :: r.
Proof.
  intros Hall Hi.
  destruct (nth_error names i) as [name|] eqn:En;
    [|apply nth_error_None in En; lia].
  destruct (playable_nth names i name Hall En) as (f & r & Hs & Hp).
  exists name, f, r. unfold file_frames. rewrite En, Hs.
  repeat split; assumption.
Qed.

(** A frame request on a channel at the file [i] with [rest] to come. *)
Lemma playbg_readframe_playing (names : list string) (i : nat)
      (rest pre : list ast_frame) (ch : ast_channel) (st : playbg_state)
      (name : string) :
  Forall (playable h) names ->
  chan_state ch = Some st -> filearray st = map Some names ->
  nfiles st = Z.of_nat (List.length names) -> pos st = Z.of_nat i ->
  nth_error names i = Some name -> sounds h name = Some (pre ++ rest)%list ->
  sum_samples pre = samples st ->
  (stream ch = None \/ stream ch = Some (mkStream name (pre ++ rest)%list rest)) ->
  exists f r j name' pre' st1,
    playlist h names i rest 1 = [f]
    /\ playlist_after h names i rest 1 = (j, r)
    /\ fst (playbg_readframe h ch) = Some f
    /\ chan_state (snd (playbg_readframe h ch)) = Some st1
    /\ filearray st1 = filearray st /\ nfiles st1 = nfiles st
    /\ origwfmt st1 = origwfmt st /\ sample_queue st1 = sample_queue st
    /\ pos st1 = Z.of_nat j /\ samples st1 = sum_samples pre'
    /\ nth_error names j = Some name'
    /\ sounds h name' = Some (pre' ++ f :: r)%list
    /\ stream (snd (playbg_readframe h ch))
       = Some (mkStream name' (pre' ++ f :: r)%list r)
    /\ writes (events (snd (playbg_readframe h ch))) = writes (events ch)
    /\ writeformat (snd (playbg_readframe h ch)) = writeformat ch
    /\ generatordata (snd (playbg_readframe h ch)) = generatordata ch.
Proof.
  intros Hall Hst Hfa Hnf Hpos Hnth Hsnd Hsum Hstr.
  assert (Hi : (i < List.length names)%nat)
    by (apply nth_error_Some; congruence).
  destruct (playable_nth names i name Hall Hnth) as (f0 & r0 & Hs0 & Hp0).
  assert (Hpp : positive_frames (pre ++ rest)) by congruence.
  assert (Hppre : positive_frames pre)
    by (unfold positive_frames in *; apply Forall_app in Hpp; tauto).
  assert (Hsp : seek_pos st = Z.of_nat i).
  { unfold seek_pos. rewrite Hpos, Hnf.
    destruct (Z.of_nat i >=? Z.of_nat (List.length names)) eqn:E; [|reflexivity].
    rewrite Z.geb_leb in E. apply Z.leb_le in E. lia. }
  assert (Htgt : seek_target h st = Some (name, (pre ++ rest)%list))
    by (apply (seek_target_names h st names i name); assumption).
  destruct rest as [|f r].
  - (* the file is at its end: on to the next one *)
    set (j := next_index (List.length names) i).
    assert (Hj : (j < List.length names)%nat) by (apply next_index_lt, Hi).
    destruct (playing_at_entry names j Hall Hj) as (name2 & f & r & Hn2 & Hs2 & Hp2 & Hff).
    assert (Hnone : fst (ast_readframe ch) = None).
    { destruct Hstr as [Hs|Hs]; unfold ast_readframe; rewrite Hs; reflexivity. }
    assert (Hend : seek_frames (samples st) (pre ++ []) = []).
    { apply seek_frames_end; [exact Hpp|].
      rewrite <- Hsum, app_nil_r. lia. }
    set (st1 := advance (set_pos st (seek_pos st))).
    assert (Hsp1 : seek_pos st1 = Z.of_nat j).
    { assert (Hp1 : pos st1 = Z.of_nat i + 1) by (unfold st1; cbn; lia).
      assert (Hn1 : nfiles st1 = Z.of_nat (List.length names)) by exact Hnf.
      unfold seek_pos, j, next_index. rewrite Hp1, Hn1.
      destruct (Nat.ltb_spec (S i) (List.length names));
        destruct (Z.of_nat i + 1 >=? Z.of_nat (List.length names)) eqn:E;
        rewrite Z.geb_leb in E;
        [apply Z.leb_le in E|apply Z.leb_gt in E|apply Z.leb_le in E
        |apply Z.leb_gt in E]; lia. }
    assert (Htgt1 : seek_target h st1 = Some (name2, f :: r)).
    { apply (seek_target_names h st1 names j name2); assumption. }
    destruct (playbg_readframe_next h ch st name name2 (pre ++ []) (f :: r)
                Hst Hnone Htgt Hend Htgt1)
      as (Hr & Hs' & Hstr' & Hev & Hw & Hg).
    exists f, r, j, name2, [], (set_pos st1 (seek_pos st1)).
    cbn [playlist playlist_after]. fold j. rewrite Hff.
    split; [reflexivity|]. split; [reflexivity|].
    split; [exact Hr|]. split; [exact Hs'|].
    split; [reflexivity|]. split; [reflexivity|].
    split; [reflexivity|]. split; [reflexivity|].
    split; [cbn [pos set_pos]; exact Hsp1|].
    split; [reflexivity|]. split; [exact Hn2|]. split; [exact Hs2|].
    split; [exact Hstr'|].
    split; [|split; assumption].
    rewrite Hev, !writes_app, writes_eof_events, writes_open_events.
    cbn. rewrite app_nil_r. reflexivity.
  - exists f, r, i, name, pre.
    destruct Hstr as [Hs|Hs].
    + (* no stream: the file is opened at the recorded offset *)
      assert (Hnone : fst (ast_readframe ch) = None)
        by (unfold ast_readframe; rewrite Hs; reflexivity).
      destruct (playbg_readframe_first_seek h ch st name (pre ++ f :: r)
                  Hst Hnone Htgt) as (_ & Hfirst).
      rewrite <- Hsum, (seek_frames_app pre (f :: r) Hppre) in Hfirst.
      destruct (Hfirst f eq_refl) as (Hr & Hs' & Hstr' & Hev & Hw & Hg).
      exists (set_pos st (seek_pos st)).
      split; [reflexivity|]. split; [reflexivity|].
      split; [exact Hr|]. split; [exact Hs'|].
      split; [reflexivity|]. split; [reflexivity|].
      split; [reflexivity|]. split; [reflexivity|].
      split; [cbn [pos set_pos]; exact Hsp|].
      split; [cbn; symmetry; exact Hsum|]. split; [exact Hnth|].
      split; [exact Hsnd|]. split; [exact Hstr'|].
      split; [|split; assumption].
      rewrite Hev, !writes_app, writes_eof_events, writes_open_events.
      cbn. rewrite app_nil_r. reflexivity.
    + (* the stream is open: the next frame of it *)
      rewrite (playbg_readframe_hot h ch _ f r Hs eq_refl). cbn [fst snd].
      exists st.
      split; [reflexivity|]. split; [reflexivity|].
      split; [reflexivity|]. split; [exact Hst|].
      split; [reflexivity|]. split; [reflexivity|].
      split; [reflexivity|]. split; [reflexivity|].
      split; [exact Hpos|]. split; [symmetry; exact Hsum|].
      split; [exact Hnth|]. split; [exact Hsnd|].
      split; [reflexivity|].
      split; [|split; reflexivity].
      cbn [events log]. rewrite writes_app. cbn. rewrite app_nil_r. reflexivity.
Qed.

Lemma playlist_step (names : list string) (i j : nat)
      (rest r : list ast_frame) (f : ast_frame) :
  playlist h names i rest 1 = [f] -> playlist_after h names i rest 1 = (j, r) ->
  forall k,
    playlist h names i rest (S k) = f :: playlist h names j r k
    /\ playlist_after h names i rest (S k) = playlist_after h names j r k.
Proof.
  cbn [playlist playlist_after]. intros H1 H2 k.
  destruct rest as [|f0 r0].
  - destruct (file_frames h names (next_index (List.length names) i)) as [|f1 r1];
      [discriminate|].
    injection H1 as ->. injection H2 as <- <-. split; reflexivity.
  - injection H1 as ->. injection H2 as <- <-. split; reflexivity.
Qed.



Lemma shortest_cover_unique (q : Z) (names : list string) (i : nat)
      (rest : list ast_frame) (k1 k2 : nat) :
  shortest_cover h q names i rest k1 -> shortest_cover h q names i rest k2 ->
  k1 = k2.
Proof.
  intros [H1 M1] [H2 M2].
  destruct (Nat.lt_trichotomy k1 k2) as [Hlt|[Heq|Hlt]]; [|exact Heq|].
  - specialize (M2 k1 Hlt). lia.
  - specialize (M1 k2 Hlt). lia.
Qed.

(** The loop of the generator on a channel at the file [i]: it writes the
    fewest frames of the list played round that hold the queue. *)
Lemma generator_loop_playlist (fuel : nat) :
  (forall evs f, write_ok h evs f = true) ->
  forall (names : list string), Forall (playable h) names ->
  forall (i : nat) (rest : list ast_frame) (ch : ast_channel) (res : Z)
         (st : playbg_state),
    playing_at h names i rest ch -> chan_state ch = Some st ->
    (Z.to_nat (sample_queue st) <= fuel)%nat ->
    exists k ch' st',
      generator_loop h fuel ch res
      = Some (match k with O => res | S _ => 0 end, ch')
      /\ chan_state ch' = Some st'
      /\ sample_queue st'
         = sample_queue st - sum_samples (playlist h names i rest k)
      /\ shortest_cover h (sample_queue st) names i rest k
      /\ writes (events ch')
         = (writes (events ch)
              ++ map (fun f => (f, 0)) (playlist h names i rest k))%list
      /\ playing_at h names (fst (playlist_after h names i rest k))
           (snd (playlist_after h names i rest k)) ch'
      /\ origwfmt st' = origwfmt st
      /\ writeformat ch' = writeformat ch
      /\ generatordata ch' = generatordata ch.
Proof.
  intros Hw names Hall.
  induction fuel as [|fuel IH]; intros i rest ch res st Hpl Hst Hfuel.
  - exists 0%nat, ch, st. cbn [generator_loop]. rewrite Hst.
    destruct (sample_queue st >? 0) eqn:Eq;
      [rewrite Z.gtb_ltb in Eq; apply Z.ltb_lt in Eq; lia|].
    rewrite Z.gtb_ltb in Eq. apply Z.ltb_ge in Eq.
    cbn [playlist playlist_after fst snd sum_samples map].
    rewrite app_nil_r.
    split; [reflexivity|]. split; [reflexivity|]. split; [lia|].
    split; [split; [cbn; lia|intros m Hm; lia]|].
    split; [reflexivity|]. split; [exact Hpl|]. repeat split.
  - destruct (sample_queue st >? 0) eqn:Eq.
    + rewrite Z.gtb_ltb in Eq. apply Z.ltb_lt in Eq.
      destruct Hpl as (st0 & name & pre & Hst0 & Hfa & Hnf & Hpos & Hnth & Hsnd
                       & Hsum & Hstr).
      assert (st0 = st) by congruence. subst st0.
      destruct (playbg_readframe_playing names i rest pre ch st name Hall Hst Hfa
                  Hnf Hpos Hnth Hsnd Hsum Hstr)
        as (f & r & j & name' & pre' & st1 & Hp1 & Hpa1 & Hrf & Hst1 & Hfa1 & Hnf1
            & Ho1 & Hq1 & Hpos1 & Hsm1 & Hnth1 & Hsnd1 & Hstr1 & Hwr1 & Hwf1 & Hgd1).
      destruct (playbg_readframe h ch) as [o ch1] eqn:Erf. cbn [fst snd] in *.
      subst o.
      destruct (playable_nth names j name' Hall Hnth1) as (f0 & r0 & Hs0 & Hp0).
      assert (Hposf : 0 < frame_samples f).
      { assert (Hpp : positive_frames (pre' ++ f :: r)) by congruence.
        unfold positive_frames in Hpp. apply Forall_app in Hpp.
        destruct Hpp as [_ Hpp]. exact (Forall_inv Hpp). }
      rewrite (generator_loop_step h fuel ch ch1 res st st1 f Hst Eq Erf Hst1
                 (Hw _ _)).
      set (st2 := set_sample_queue (set_samples st1 (samples st1 + frame_samples f))
                    (sample_queue st1 - frame_samples f)).
      set (ch2 := log (store_state ch1 st2) (EvWrite f 0)).
      assert (Hq2 : sample_queue st2 = sample_queue st - frame_samples f)
        by (unfold st2; cbn [sample_queue set_sample_queue]; lia).
      assert (Hpl2 : playing_at h names j r ch2).
      { exists st2, name', (pre' ++ [f])%list.
        split; [reflexivity|]. split; [cbn; congruence|].
        split; [cbn; congruence|]. split; [exact Hpos1|].
        split; [exact Hnth1|].
        split; [rewrite <- app_assoc; exact Hsnd1|].
        split; [rewrite sum_samples_app; unfold st2;
                cbn [sum_samples samples set_sample_queue set_samples]; lia|].
        right. rewrite <- app_assoc. exact Hstr1. }
      destruct (IH j r ch2 0 st2 Hpl2 eq_refl) as
        (k & ch' & st' & Hloop & Hst' & Hq' & [Hc Hm] & Hwr' & Hpl' & Ho' & Hwf' & Hgd').
      { rewrite Hq2. lia. }
      rewrite Hq2 in Hq', Hc, Hm.
      destruct (playlist_step names i j rest r f Hp1 Hpa1 k) as [Ek Eka].
      exists (S k), ch', st'. rewrite Ek, Eka.
      split; [rewrite Hloop; destruct k; reflexivity|].
      split; [exact Hst'|].
      split; [rewrite Hq'; cbn [sum_samples]; lia|].
      split.
      { split; [rewrite Ek; cbn [sum_samples]; lia|].
        intros m Hlt. destruct m as [|m]; [cbn [playlist sum_samples]; lia|].
        destruct (playlist_step names i j rest r f Hp1 Hpa1 m) as [Em _].
        rewrite Em. cbn [sum_samples].
        assert (Hmk : (m < k)%nat) by lia.
        specialize (Hm m Hmk). lia. }
      split.
      { rewrite Hwr'. unfold ch2. cbn [events log store_state set_datastore].
        rewrite writes_app, Hwr1. cbn [writes map app].
        rewrite <- app_assoc. reflexivity. }
      split; [exact Hpl'|].
      split; [rewrite Ho'; cbn; congruence|].
      split; [rewrite Hwf'; cbn; exact Hwf1|].
      rewrite Hgd'. cbn. exact Hgd1.
    + exists 0%nat, ch, st. cbn [generator_loop]. rewrite Hst, Eq.
      rewrite Z.gtb_ltb in Eq. apply Z.ltb_ge in Eq.
      cbn [playlist playlist_after fst snd sum_samples map].
      rewrite app_nil_r.
      split; [reflexivity|]. split; [reflexivity|]. split; [lia|].
      split; [split; [cbn; lia|intros m Hm; lia]|].
      split; [reflexivity|]. split; [exact Hpl|]. repeat split.
Qed.

Lemma playing_at_queue (names : list string) (i : nat) (rest : list ast_frame)
      (ch : ast_channel) (st : playbg_state) (q : Z) :
  playing_at h names i rest ch -> chan_state ch = Some st ->
  playing_at h names i rest (store_state ch (set_sample_queue st q)).
Proof.
  intros (st0 & name & pre & Hst0 & Hfa & Hnf & Hpos & Hnth & Hsnd & Hsum & Hstr) Hst.
  assert (st0 = st) by congruence. subst st0.
  exists (set_sample_queue st q), name, pre. repeat split; assumption.
Qed.

Lemma generator_playlist (fuel : nat) (ch : ast_channel) (st : playbg_state)
      (names : list string) (i : nat) (rest : list ast_frame) (n : Z) :
  (forall evs f, write_ok h evs f = true) -> Forall (playable h) names ->
  playing_at h names i rest ch -> chan_state ch = Some st ->
  (Z.to_nat (sample_queue st + n) <= fuel)%nat ->
  exists k ch' st',
    playbg_generator h fuel ch n = Some (0, ch')
    /\ chan_state ch' = Some st'
    /\ sample_queue st'
       = sample_queue st + n - sum_samples (playlist h names i rest k)
    /\ shortest_cover h (sample_queue st + n) names i rest k
    /\ writes (events ch')
       = (writes (events ch)
            ++ map (fun f => (f, 0)) (playlist h names i rest k))%list
    /\ playing_at h names (fst (playlist_after h names i rest k))
         (snd (playlist_after h names i rest k)) ch'
    /\ origwfmt st' = origwfmt st
    /\ writeformat ch' = writeformat ch
    /\ generatordata ch' = generatordata ch.
Proof.
  intros Hw Hall Hpl Hst Hfuel.
  rewrite (playbg_generator_unfold h fuel ch st n Hst).
  destruct (generator_loop_playlist fuel Hw names Hall i rest
              (store_state ch (set_sample_queue st (sample_queue st + n))) 0
              (set_sample_queue st (sample_queue st + n))
              (playing_at_queue names i rest ch st _ Hpl Hst) eq_refl Hfuel)
    as (k & ch' & st' & Hloop & Hrest).
  exists k, ch', st'. split; [rewrite Hloop; destruct k; reflexivity|exact Hrest].
Qed.


Lemma writes_release (c : ast_channel) :
  writes (events (playbg_release h c)) = writes (events c).
Proof.
  unfold playbg_release, ast_channel_datastore_find, ast_set_write_format,
    close_stream.
  destruct c as [[s|] w [[[st|]]|] g ev]; cbn; try reflexivity;
    destruct (origwfmt st =? 0); cbn; try destruct (fmt_ok h (origwfmt st)); cbn;
    rewrite ?writes_app; cbn; rewrite ?app_nil_r; reflexivity.
Qed.

Lemma writes_deactivate (c : ast_channel) :
  writes (events (ast_deactivate_generator h c)) = writes (events c).
Proof.
  unfold ast_deactivate_generator. destruct (generatordata c); [|reflexivity].
  exact (writes_release c).
Qed.

Lemma writes_resume (c : ast_channel) :
  writes (events (snd (playbg_exec_resume h c))) = writes (events c).
Proof.
  unfold playbg_exec_resume, ast_channel_datastore_find.
  destruct (datastore c) as [[[st|]]|] eqn:Ed; cbn [data]; try reflexivity.
  unfold ast_activate_generator.
  set (c0 := store_state c (set_origwfmt st (writeformat c))).
  assert (H1 : writes (events (if generatordata c0
                               then set_generatordata (playbg_release h c0) false
                               else c0)) = writes (events c)).
  { destruct (generatordata c0); [|reflexivity]. exact (writes_release c0). }
  revert H1. generalize (if generatordata c0
                         then set_generatordata (playbg_release h c0) false
                         else c0).
  intros c1 H1. unfold playbg_alloc, ast_channel_datastore_find.
  destruct (datastore c1) as [[[s1|]]|]; exact H1.
Qed.

Lemma playing_at_deactivate (names : list string) (i : nat)
      (rest : list ast_frame) (ch : ast_channel) :
  playing_at h names i rest ch ->
  playing_at h names i rest (ast_deactivate_generator h ch).
Proof.
  intros (st & name & pre & Hst & Hfa & Hnf & Hpos & Hnth & Hsnd & Hsum & Hstr).
  destruct (ast_deactivate_generator_spec h ch) as [Hs Hstr'].
  exists st, name, pre. rewrite Hs.
  repeat (split; [assumption|]).
  destruct Hstr' as [->| ->]; [left; reflexivity|exact Hstr].
Qed.

Lemma playing_at_resume (names : list string) (i : nat)
      (rest : list ast_frame) (ch : ast_channel) :
  playing_at h names i rest ch ->
  playing_at h names i rest (snd (playbg_exec_resume h ch)).
Proof.
  intros (st & name & pre & Hst & Hfa & Hnf & Hpos & Hnth & Hsnd & Hsum & Hstr).
  destruct (playbg_exec_resume_spec h ch st Hst) as (_ & Hs & _ & _ & Hn & Hk).
  exists (set_origwfmt st (writeformat ch)), name, pre.
  split; [exact Hs|]. repeat (split; [assumption|]).
  destruct (generatordata ch) eqn:Eg.
  - left. apply Hn. right. reflexivity.
  - destruct (Hk eq_refl) as [-> _]. exact Hstr.
Qed.




(** X13: a generator that was deactivated (another sound took the channel) and
    resumed goes on where it was: from a channel at the file [i] with the
    frames [rest] still to come, an invocation after the deactivation and
    Resume writes the very frames an invocation without them writes, and
    leaves the same index, offset and queue. *)
Theorem interruption_is_seamless (fuel : nat) (ch : ast_channel)
        (st : playbg_state) (names : list string) (i : nat)
        (rest : list ast_frame) (n : Z) :
  (forall evs f, write_ok h evs f = true) -> Forall (playable h) names ->
  playing_at h names i rest ch -> chan_state ch = Some st ->
  (Z.to_nat (sample_queue st + n) <= fuel)%nat ->
  let ch2 := snd (playbg_exec_resume h (ast_deactivate_generator h ch)) in
  playing_at h names i rest ch2
  /\ exists l chA chB stA stB,
       playbg_generator h fuel ch n = Some (0, chA)
       /\ playbg_generator h fuel ch2 n = Some (0, chB)
       /\ writes (events chA) = (writes (events ch) ++ l)%list
       /\ writes (events chB) = (writes (events ch) ++ l)%list
       /\ chan_state chA = Some stA /\ chan_state chB = Some stB
       /\ pos stA = pos stB /\ samples stA = samples stB
       /\ sample_queue stA = sample_queue stB.
Proof.
  intros Hw Hall Hpl Hst Hfuel ch2.
  assert (Hpl2 : playing_at h names i rest ch2)
    by (apply playing_at_resume, playing_at_deactivate, Hpl).
  split; [exact Hpl2|].
  destruct (ast_deactivate_generator_spec h ch) as [Hsd _].
  rewrite Hst in Hsd.
  destruct (playbg_exec_resume_spec h (ast_deactivate_generator h ch) st Hsd)
    as (_ & Hst2 & _).
  fold ch2 in Hst2.
  assert (Hwr2 : writes (events ch2) = writes (events ch))
    by (unfold ch2; rewrite writes_resume, writes_deactivate; reflexivity).
  destruct (generator_playlist fuel ch st names i rest n Hw Hall Hpl Hst Hfuel)
    as (kA & chA & stA & HgenA & HstA & HqA & HcA & HwrA & HplA & _).
  destruct (generator_playlist fuel ch2 _ names i rest n Hw Hall Hpl2 Hst2 Hfuel)
    as (kB & chB & stB & HgenB & HstB & HqB & HcB & HwrB & HplB & _).
  cbn [sample_queue set_origwfmt] in HqB, HcB.
  assert (kB = kA) by (apply (shortest_cover_unique _ _ _ _ _ _ HcB HcA)).
  subst kB.
  exists (map (fun f => (f, 0)) (playlist h names i rest kA)), chA, chB, stA, stB.
  split; [exact HgenA|]. split; [exact HgenB|]. split; [exact HwrA|].
  split; [rewrite HwrB, Hwr2; reflexivity|].
  split; [exact HstA|]. split; [exact HstB|].
  destruct HplA as (sA & nameA & preA & HsA & _ & _ & HposA & HnthA & HsndA & HsumA & _).
  destruct HplB as (sB & nameB & preB & HsB & _ & _ & HposB & HnthB & HsndB & HsumB & _).
  assert (sA = stA) by congruence. assert (sB = stB) by congruence. subst sA sB.
  assert (nameB = nameA) by congruence. subst nameB.
  assert (preB = preA).
  { rewrite HsndA in HsndB. injection HsndB as Heq.
    apply app_inv_tail in Heq. congruence. }
  subst preB.
  split; [congruence|]. split; [congruence|]. lia.
Qed.
End More.

(** ** Loading and unloading the module *)

(** X14: loading the module registers the three applications whatever the
    results, and reports a failure exactly when a registration failed: the
    result is 0 when all three registrations gave 0 and only then, and it
    is negative when one of them was; the same holds of unloading, which
    asks for the names that loading registered. *)
Theorem module_load_reports_any_failure (l : loader) :
  (fst (load_module l) = 0
   <-> register_res l app1 ExecStart = 0 /\ register_res l app2 ExecStop = 0
       /\ register_res l app3 ExecResume = 0)
  /\ (fst (load_module l) < 0
      <-> register_res l app1 ExecStart < 0 \/ register_res l app2 ExecStop < 0
          \/ register_res l app3 ExecResume < 0)
  /\ (fst (unload_module l) = 0
      <-> unregister_res l app1 = 0 /\ unregister_res l app2 = 0
          /\ unregister_res l app3 = 0)
  /\ (fst (unload_module l) < 0
      <-> unregister_res l app1 < 0 \/ unregister_res l app2 < 0
          \/ unregister_res l app3 < 0)
  /\ (forall l', snd (load_module l') = snd (load_module l))
  /\ map call_name (snd (unload_module l)) = map call_name (snd (load_module l)).
Proof.
  unfold load_module, unload_module. cbn [fst snd].
  rewrite !Z.lor_0_l.
  split; [rewrite !Z.lor_eq_0_iff; tauto|].
  split; [rewrite !Z.lor_neg; tauto|].
  split; [rewrite !Z.lor_eq_0_iff; tauto|].
  split; [rewrite !Z.lor_neg; tauto|].
  split; [intros l'|]; reflexivity.
Qed.

(** * Properties of the generator in the arithmetic of [int] *)

Lemma wrap_int_range (z : Z) : in_int (wrap_int z).
Proof.
  unfold wrap_int, in_int.
  pose proof (Z.mod_pos_bound (z + 2147483648) 4294967296). lia.
Qed.

Lemma wrap_int_id (z : Z) : in_int z -> wrap_int z = z.
Proof.
  unfold wrap_int, in_int. intros Hz. rewrite Z.mod_small; lia.
Qed.

Lemma wrap_int_congr (z : Z) : exists k, wrap_int z = z + k * 4294967296.
Proof.
  unfold wrap_int. exists (- ((z + 2147483648) / 4294967296)).
  pose proof (Z.div_mod (z + 2147483648) 4294967296). lia.
Qed.

Lemma sum_samples_count (l : list ast_frame) :
  Forall sample_count l -> 0 <= sum_samples l.
Proof.
  induction 1 as [|f t Hf Ht IH]; cbn [sum_samples]; [lia|].
  unfold sample_count in Hf. lia.
Qed.

Lemma seek_frames_nonpos (off : Z) (l : list ast_frame) :
  off <= 0 -> seek_frames off l = l.
Proof.
  intros Hoff. destruct l as [|f t]; [reflexivity|]. cbn [seek_frames].
  destruct (off <=? 0) eqn:E; [reflexivity|apply Z.leb_gt in E; lia].
Qed.

(** A seek never puts the stream past the end of an [int]: the offset and
    the samples left after it are within the offset or the file. *)
Lemma seek_frames_bound (l : list ast_frame) :
  Forall sample_count l ->
  forall off, 0 <= off ->
    off + sum_samples (seek_frames off l) <= Z.max off (sum_samples l).
Proof.
  induction 1 as [|f t Hf Ht IH]; intros off Hoff.
  - cbn [seek_frames sum_samples]. lia.
  - pose proof (sum_samples_count t Ht) as Hs. unfold sample_count in Hf.
    cbn [seek_frames]. destruct (off <=? 0) eqn:E.
    + apply Z.leb_le in E. cbn [sum_samples]. lia.
    + apply Z.leb_gt in E. cbn [sum_samples].
      destruct (Z_le_gt_dec 0 (off - frame_samples f)) as [Hge|Hlt].
      * specialize (IH (off - frame_samples f) Hge). lia.
      * rewrite (seek_frames_nonpos (off - frame_samples f) t) by lia. lia.
Qed.

Section IntFacts.

Variable h : host.

Lemma playbg_generator_int_unfold (fuel : nat) (ch : ast_channel)
      (st : playbg_state) (n : Z) :
  chan_state ch = Some st ->
  playbg_generator_int h fuel ch n
  = generator_loop_int h fuel
      (store_state ch (set_sample_queue st (wrap_int (sample_queue st + n)))) 0.
Proof.
  intros Hst. unfold playbg_generator_int, ast_channel_datastore_find.
  rewrite (chan_state_datastore ch st Hst). reflexivity.
Qed.

Lemma generator_loop_int_done (fuel : nat) (ch : ast_channel) (res : Z)
      (st : playbg_state) :
  chan_state ch = Some st -> sample_queue st <= 0 ->
  generator_loop_int h fuel ch res = Some (res, ch).
Proof.
  intros Hst Hq.
  destruct fuel; cbn [generator_loop_int]; rewrite Hst;
    (destruct (sample_queue st >? 0) eqn:E;
     [rewrite Z.gtb_ltb in E; apply Z.ltb_lt in E; lia|reflexivity]).
Qed.

(** One turn of the loop that gets a frame: the offset and the queue are
    updated, then the frame is written, and the loop goes on when the write
    succeeded. *)
Lemma generator_loop_int_turn (fuel : nat) (ch ch1 : ast_channel) (res : Z)
      (st : playbg_state) (f : ast_frame) :
  chan_state ch = Some st -> 0 < sample_queue st ->
  playbg_readframe h ch = (Some f, ch1) ->
  exists st1,
    chan_state ch1 = Some st1 /\ sample_queue st1 = sample_queue st
    /\ generator_loop_int h (S fuel) ch res
       = (let st2 := set_sample_queue
                       (set_samples st1 (wrap_int (samples st1 + frame_samples f)))
                       (wrap_int (sample_queue st - frame_samples f)) in
          let c2 := store_state ch1 st2 in
          if write_ok h (events ch1) f
          then generator_loop_int h fuel (log c2 (EvWrite f 0)) 0
          else Some (-1, log c2 (EvWrite f (-1)))).
Proof.
  intros Hst Hq Hrd.
  destruct (playbg_readframe_keeps h ch st Hst) as (st1 & Hst1 & _ & _ & _ & Hsq & _).
  rewrite Hrd in Hst1. cbn [snd] in Hst1.
  exists st1. split; [exact Hst1|]. split; [exact Hsq|].
  cbn [generator_loop_int]. rewrite Hst.
  destruct (sample_queue st >? 0) eqn:E;
    [|rewrite Z.gtb_ltb in E; apply Z.ltb_ge in E; lia].
  rewrite Hrd, Hst1. unfold ast_write. cbv zeta.
  cbn [events store_state set_datastore sample_queue set_samples]. rewrite Hsq.
  destruct (write_ok h (events ch1) f); reflexivity.
Qed.

(** One turn of the loop that gets no frame. *)
Lemma generator_loop_int_none (fuel : nat) (ch ch1 : ast_channel) (res : Z)
      (st : playbg_state) :
  chan_state ch = Some st -> 0 < sample_queue st ->
  playbg_readframe h ch = (None, ch1) ->
  generator_loop_int h (S fuel) ch res = Some (-1, ch1).
Proof.
  intros Hst Hq Hrd. cbn [generator_loop_int]. rewrite Hst.
  destruct (sample_queue st >? 0) eqn:E;
    [|rewrite Z.gtb_ltb in E; apply Z.ltb_ge in E; lia].
  rewrite Hrd. reflexivity.
Qed.

(** What holds whenever the loop returns. *)
Lemma generator_loop_int_keeps (fuel : nat) :
  forall (ch : ast_channel) (res : Z) (st : playbg_state) (r : Z) (ch' : ast_channel),
    chan_state ch = Some st ->
    generator_loop_int h fuel ch res = Some (r, ch') ->
    exists st',
      chan_state ch' = Some st'
      /\ (exists k, sample_queue st' + written_samples (events ch')
                   = sample_queue st + written_samples (events ch) + k * 4294967296)
      /\ (sounds_all h sample_count -> stream_all sample_count ch ->
          in_int (sample_queue st) ->
          sample_queue st' + written_samples (events ch')
          = sample_queue st + written_samples (events ch)
          /\ in_int (sample_queue st'))
      /\ (r = -1 \/ (sample_queue st' <= 0 /\ (r = res \/ r = 0)))
      /\ (r = -1 -> res <> -1 ->
          (exists evs f, events ch' = (evs ++ [EvWrite f (-1)])%list)
          \/ 0 < sample_queue st')
      /\ (write_failed (events ch') = write_failed (events ch)
          \/ (r = -1 /\ exists evs f, events ch' = (evs ++ [EvWrite f (-1)])%list)).
Proof.
  assert (Hstop : forall ch res st r ch',
             chan_state ch = Some st -> sample_queue st <= 0 ->
             Some (res, ch) = Some (r, ch') ->
             exists st',
               chan_state ch' = Some st'
               /\ (exists k, sample_queue st' + written_samples (events ch')
                            = sample_queue st + written_samples (events ch)
                              + k * 4294967296)
               /\ (sounds_all h sample_count -> stream_all sample_count ch ->
                   in_int (sample_queue st) ->
                   sample_queue st' + written_samples (events ch')
                   = sample_queue st + written_samples (events ch)
                   /\ in_int (sample_queue st'))
               /\ (r = -1 \/ (sample_queue st' <= 0 /\ (r = res \/ r = 0)))
               /\ (r = -1 -> res <> -1 ->
                   (exists evs f, events ch' = (evs ++ [EvWrite f (-1)])%list)
                   \/ 0 < sample_queue st')
               /\ (write_failed (events ch') = write_failed (events ch)
                   \/ (r = -1
                       /\ exists evs f, events ch' = (evs ++ [EvWrite f (-1)])%list))).
  { intros ch res st r ch' Hst Hq Heq. injection Heq as <- <-. exists st.
    split; [exact Hst|]. split; [exists 0; lia|].
    split; [intros _ _ Hin; split; [reflexivity|exact Hin]|].
    split; [right; split; [exact Hq|left; reflexivity]|].
    split; [intros Hr Hne; contradiction|left; reflexivity]. }
  induction fuel as [|fuel IH]; intros ch res st r ch' Hst Hloop.
  - cbn [generator_loop_int] in Hloop. rewrite Hst in Hloop.
    destruct (sample_queue st >? 0) eqn:Eq; [discriminate|].
    rewrite Z.gtb_ltb in Eq. apply Z.ltb_ge in Eq.
    exact (Hstop ch res st r ch' Hst Eq Hloop).
  - destruct (Z_le_gt_dec (sample_queue st) 0) as [Hle|Hgt].
    { rewrite (generator_loop_int_done (S fuel) ch res st Hst Hle) in Hloop.
      exact (Hstop ch res st r ch' Hst Hle Hloop). }
    assert (Hq : 0 < sample_queue st) by lia.
    destruct (playbg_readframe_keeps h ch st Hst)
      as (st1 & Hst1 & _ & _ & _ & Hsq & Hwr & _).
    assert (Hws1 : written_samples (events (snd (playbg_readframe h ch)))
                   = written_samples (events ch))
      by (unfold written_samples; rewrite Hwr; reflexivity).
    assert (Hwf1 : write_failed (events (snd (playbg_readframe h ch)))
                   = write_failed (events ch))
      by (unfold write_failed; rewrite Hwr; reflexivity).
    assert (Hfr : sounds_all h sample_count -> stream_all sample_count ch ->
                  (forall f, fst (playbg_readframe h ch) = Some f -> sample_count f)
                  /\ stream_all sample_count (snd (playbg_readframe h ch))).
    { intros Hsnd Hstr.
      exact (playbg_readframe_frames h sample_count ch st Hst Hsnd Hstr). }
    destruct (playbg_readframe h ch) as [[f|] ch1] eqn:Hrd; cbn [fst snd] in *.
    + destruct (generator_loop_int_turn fuel ch ch1 res st f Hst Hq Hrd)
        as (s1 & Hs1 & _ & Hturn).
      assert (s1 = st1) by congruence. subst s1.
      rewrite Hturn in Hloop. cbv zeta in Hloop.
      set (q2 := wrap_int (sample_queue st - frame_samples f)) in *.
      set (st2 := set_sample_queue
                    (set_samples st1 (wrap_int (samples st1 + frame_samples f))) q2)
        in *.
      set (c2 := store_state ch1 st2) in *.
      destruct (wrap_int_congr (sample_queue st - frame_samples f)) as (k2 & Hk2).
      fold q2 in Hk2.
      assert (Hexact : sounds_all h sample_count -> stream_all sample_count ch ->
                       in_int (sample_queue st) ->
                       q2 = sample_queue st - frame_samples f /\ in_int q2).
      { intros Hsnd Hstr Hin. destruct (Hfr Hsnd Hstr) as [Hf _].
        specialize (Hf f eq_refl). unfold sample_count in Hf. unfold in_int in Hin.
        assert (Hin2 : in_int (sample_queue st - frame_samples f))
          by (unfold in_int; lia).
        unfold q2. rewrite (wrap_int_id _ Hin2). split; [reflexivity|exact Hin2]. }
      destruct (write_ok h (events ch1) f) eqn:Ew.
      * assert (Hst3 : chan_state (log c2 (EvWrite f 0)) = Some st2) by reflexivity.
        destruct (IH _ _ _ _ _ Hst3 Hloop)
          as (st' & Hst' & (k & Hacc) & Hex & Hr & Hneg & Hfail).
        assert (Hw3 : written_samples (events (log c2 (EvWrite f 0)))
                      = written_samples (events ch) + frame_samples f).
        { cbn [events log]. rewrite written_samples_snoc.
          change (events c2) with (events ch1). rewrite Hws1. reflexivity. }
        assert (Hq2 : sample_queue st2 = q2) by reflexivity.
        exists st'. split; [exact Hst'|].
        split; [exists (k + k2); rewrite Hacc, Hw3, Hq2; lia|].
        split.
        { intros Hsnd Hstr Hin. destruct (Hexact Hsnd Hstr Hin) as [Hq2e Hq2i].
          destruct (Hfr Hsnd Hstr) as [_ Hstr1].
          destruct (Hex Hsnd Hstr1) as [Hacc' Hin'];
            [rewrite Hq2; exact Hq2i|].
          split; [rewrite Hacc', Hw3, Hq2; lia|exact Hin']. }
        split.
        { destruct Hr as [Hr|[Hq' [Hr|Hr]]]; [left; exact Hr| |];
            right; (split; [exact Hq'|right; exact Hr]). }
        split.
        { intros Hm1 _. apply Hneg; [exact Hm1|discriminate]. }
        destruct Hfail as [Hfail|Hfail]; [left|right; exact Hfail].
        rewrite Hfail. cbn [events log]. rewrite write_failed_snoc.
        change (events c2) with (events ch1). rewrite Hwf1. cbn. apply orb_false_r.
      * injection Hloop as <- <-. exists st2. split; [reflexivity|].
        assert (Hw3 : written_samples (events (log c2 (EvWrite f (-1))))
                      = written_samples (events ch) + frame_samples f).
        { cbn [events log]. rewrite written_samples_snoc.
          change (events c2) with (events ch1). rewrite Hws1. reflexivity. }
        assert (Hq2 : sample_queue st2 = q2) by reflexivity.
        split; [exists k2; rewrite Hw3, Hq2; lia|].
        split.
        { intros Hsnd Hstr Hin. destruct (Hexact Hsnd Hstr Hin) as [Hq2e Hq2i].
          split; [rewrite Hw3, Hq2; lia|rewrite Hq2; exact Hq2i]. }
        split; [left; reflexivity|].
        split; [intros _ _; left; eexists _, _; reflexivity|].
        right. split; [reflexivity|]. eexists _, _. reflexivity.
    + rewrite (generator_loop_int_none fuel ch ch1 res st Hst Hq Hrd) in Hloop.
      injection Hloop as <- <-. exists st1. split; [exact Hst1|].
      split; [exists 0; rewrite Hws1, Hsq; lia|].
      split; [intros _ _ Hin; split; [rewrite Hws1, Hsq; reflexivity
                                     |rewrite Hsq; exact Hin]|].
      split; [left; reflexivity|].
      split; [intros _ _; right; rewrite Hsq; exact Hq|].
      left. exact Hwf1.
Qed.

(** With frames of at least one sample, and a queue that is an [int], the
    loop returns within as many turns as the queue holds samples. *)
Lemma generator_loop_int_terminates (fuel : nat) :
  sounds_all h (fun f => 0 < frame_samples f <= 2147483647) ->
  forall (ch : ast_channel) (res : Z) (st : playbg_state),
    chan_state ch = Some st ->
    stream_all (fun f => 0 < frame_samples f <= 2147483647) ch ->
    in_int (sample_queue st) ->
    (Z.to_nat (sample_queue st) <= fuel)%nat ->
    exists r ch', generator_loop_int h fuel ch res = Some (r, ch').
Proof.
  intros Hsnd. induction fuel as [|fuel IH]; intros ch res st Hst Hstr Hin Hfuel.
  - rewrite (generator_loop_int_done 0 ch res st Hst) by lia.
    eexists _, _. reflexivity.
  - destruct (Z_le_gt_dec (sample_queue st) 0) as [Hle|Hgt].
    { rewrite (generator_loop_int_done (S fuel) ch res st Hst Hle).
      eexists _, _. reflexivity. }
    assert (Hq : 0 < sample_queue st) by lia.
    pose proof (playbg_readframe_frames h _ ch st Hst Hsnd Hstr) as [Hpos Hstr1].
    destruct (playbg_readframe h ch) as [[f|] ch1] eqn:Hrd; cbn [fst snd] in *.
    + destruct (generator_loop_int_turn fuel ch ch1 res st f Hst Hq Hrd)
        as (st1 & Hst1 & _ & Hturn).
      rewrite Hturn. cbv zeta.
      destruct (write_ok h (events ch1) f); [|eexists _, _; reflexivity].
      pose proof (Hpos f eq_refl) as Hf. cbn beta in Hf. unfold in_int in Hin.
      assert (Hin2 : in_int (sample_queue st - frame_samples f))
        by (unfold in_int; lia).
      eapply IH; [reflexivity|exact Hstr1| |];
        cbn [sample_queue set_sample_queue]; rewrite (wrap_int_id _ Hin2);
        [exact Hin2|lia].
    + rewrite (generator_loop_int_none fuel ch ch1 res st Hst Hq Hrd).
      eexists _, _. reflexivity.
Qed.

(** ** Where the two generators agree *)

(** A seek step and a read on a channel whose offset is an [int]. *)
Lemma seek_and_read_bound (ch : ast_channel) (st : playbg_state) :
  chan_state ch = Some st -> sounds_all h sample_count -> durations_in_int h ->
  0 <= samples st <= 2147483647 ->
  let res := seek_and_read h ch in
  exists st1,
    chan_state (snd res) = Some st1
    /\ samples st1 = samples st /\ sample_queue st1 = sample_queue st
    /\ match fst res with
       | Some f =>
           exists s1, stream (snd res) = Some s1
                      /\ samples st + frame_samples f + sum_samples (fs_rest s1)
                         <= 2147483647
       | None =>
           forall s, stream (snd res) = Some s ->
                     samples st + sum_samples (fs_rest s) <= 2147483647
       end.
Proof.
  intros Hst Hsnd Hdur Hsm. cbn zeta.
  destruct (seek_target h st) as [[name fr]|] eqn:Et.
  - destruct (seek_target_some h st name fr Et) as [Hfa Hfr].
    destruct (seek_and_read_opens h ch st name fr Hst Hfa Hfr)
      as (Hf & Hs & Hstr & _).
    pose proof (seek_frames_bound fr (Hsnd _ _ Hfr) (samples st) (proj1 Hsm)) as Hb.
    pose proof (Hdur _ _ Hfr) as Hd.
    exists (set_pos st (seek_pos st)). split; [exact Hs|].
    split; [reflexivity|]. split; [reflexivity|].
    rewrite Hf, Hstr.
    destruct (seek_frames (samples st) fr) as [|f t]; cbn [hd_error tl].
    + intros s [= <-]. cbn. lia.
    + eexists. split; [reflexivity|]. cbn [fs_rest]. cbn [sum_samples] in Hb. lia.
  - destruct (seek_and_read_fails h ch st Hst Et) as (Hf & Hs & Hstr & _).
    eexists. split; [exact Hs|]. split; [reflexivity|]. split; [reflexivity|].
    rewrite Hf, Hstr. intros s [=].
Qed.

(** A frame request on a channel whose offset is where the stream is. *)
Lemma playbg_readframe_bound (ch : ast_channel) (st : playbg_state) :
  chan_state ch = Some st -> sounds_all h sample_count -> durations_in_int h ->
  offsets_in_int ch st ->
  let res := playbg_readframe h ch in
  exists st1,
    chan_state (snd res) = Some st1
    /\ 0 <= samples st1 <= 2147483647
    /\ match fst res with
       | Some f =>
           exists s1, stream (snd res) = Some s1
                      /\ samples st1 + frame_samples f + sum_samples (fs_rest s1)
                         <= 2147483647
       | None =>
           forall s, stream (snd res) = Some s ->
                     samples st1 + sum_samples (fs_rest s) <= 2147483647
       end.
Proof.
  intros Hst Hsnd Hdur (Hq & Hsm & Hoff). cbn zeta.
  destruct (fst (ast_readframe ch)) as [f|] eqn:Ef.
  - unfold ast_readframe in Ef.
    destruct (stream ch) as [s|] eqn:Es; [|discriminate].
    destruct (fs_rest s) as [|g r] eqn:Er; [discriminate|].
    rewrite (playbg_readframe_hot h ch s g r Es Er). cbn [fst snd].
    exists st. split; [exact Hst|]. split; [exact Hsm|].
    eexists. split; [reflexivity|]. cbn [fs_rest].
    specialize (Hoff s eq_refl). rewrite Er in Hoff. cbn [sum_samples] in Hoff. lia.
  - rewrite (playbg_readframe_cold h ch Ef).
    pose proof (ast_readframe_keeps ch) as (Hd & _).
    set (c0 := snd (ast_readframe ch)) in *.
    assert (Hst0 : chan_state c0 = Some st)
      by (unfold chan_state; rewrite Hd; exact Hst).
    destruct (seek_and_read_bound c0 st Hst0 Hsnd Hdur Hsm)
      as (st1 & Hst1 & Hsm1 & _ & Hb1).
    destruct (seek_and_read h c0) as [[f|] c1]; cbn [fst snd] in *.
    + exists st1. split; [exact Hst1|]. split; [rewrite Hsm1; exact Hsm|].
      rewrite Hsm1. exact Hb1.
    + rewrite Hst1.
      assert (Hsm0 : 0 <= samples (advance st1) <= 2147483647) by (cbn; lia).
      destruct (seek_and_read_bound (store_state c1 (advance st1)) (advance st1)
                  eq_refl Hsnd Hdur Hsm0) as (st2 & Hst2 & Hsm2 & _ & Hb2).
      exists st2. split; [exact Hst2|]. split; [rewrite Hsm2; exact Hsm0|].
      rewrite Hsm2. exact Hb2.
Qed.

(** Frames that are sample counts, files that an [int] can count and an
    offset that is where the stream is: the loop in the arithmetic of
    [int] is the loop in [Z], and the channel it leaves is such a channel
    again. *)
Lemma generator_loop_int_agrees (fuel : nat) :
  sounds_all h sample_count -> durations_in_int h ->
  forall (ch : ast_channel) (res : Z) (st : playbg_state),
    chan_state ch = Some st -> stream_all sample_count ch ->
    offsets_in_int ch st ->
    generator_loop_int h fuel ch res = generator_loop h fuel ch res
    /\ (forall r ch' st',
          generator_loop h fuel ch res = Some (r, ch') ->
          chan_state ch' = Some st' ->
          stream_all sample_count ch' /\ offsets_in_int ch' st').
Proof.
  intros Hsnd Hdur.
  induction fuel as [|fuel IH]; intros ch res st Hst Hstr Hoff.
  - cbn [generator_loop_int generator_loop]. rewrite Hst.
    split; [reflexivity|].
    destruct (sample_queue st >? 0); [discriminate|].
    intros r ch' st' [= <- <-] Hst'. rewrite Hst in Hst'. injection Hst' as <-.
    split; assumption.
  - destruct (Z_le_gt_dec (sample_queue st) 0) as [Hle|Hgt].
    { rewrite (generator_loop_int_done (S fuel) ch res st Hst Hle).
      rewrite (generator_loop_done h (S fuel) ch res st Hst Hle).
      split; [reflexivity|].
      intros r ch' st' [= <- <-] Hst'. rewrite Hst in Hst'. injection Hst' as <-.
      split; assumption. }
    assert (Hq : 0 < sample_queue st) by lia.
    destruct (playbg_readframe_keeps h ch st Hst)
      as (st1 & Hst1 & _ & _ & _ & Hsq & _).
    destruct (playbg_readframe_bound ch st Hst Hsnd Hdur Hoff)
      as (s1 & Hs1 & Hsm1 & Hb1).
    assert (s1 = st1) by congruence. subst s1.
    pose proof (playbg_readframe_frames h sample_count ch st Hst Hsnd Hstr)
      as [Hcount Hstr1].
    destruct Hoff as (Hqi & Hsm & Hoff).
    destruct (playbg_readframe h ch) as [[f|] ch1] eqn:Hrd; cbn [fst snd] in *.
    + destruct Hb1 as (str1 & Hstr1' & Hb1).
      pose proof (Hcount f eq_refl) as Hf. unfold sample_count in Hf.
      unfold in_int in Hqi.
      assert (Hin_s : in_int (samples st1 + frame_samples f))
        by (assert (0 <= sum_samples (fs_rest str1))
              by (apply sum_samples_count, (Hstr1 str1 Hstr1'));
            unfold in_int; lia).
      assert (Hin_q : in_int (sample_queue st - frame_samples f))
        by (unfold in_int; lia).
      destruct (generator_loop_int_turn fuel ch ch1 res st f Hst Hq Hrd)
        as (s1 & Hs1' & _ & Hturn).
      assert (s1 = st1) by congruence. subst s1.
      rewrite Hturn. cbv zeta.
      rewrite (wrap_int_id _ Hin_s), (wrap_int_id _ Hin_q).
      set (st2 := set_sample_queue (set_samples st1 (samples st1 + frame_samples f))
                    (sample_queue st - frame_samples f)).
      assert (Hz : generator_loop h (S fuel) ch res
                   = (if write_ok h (events ch1) f
                      then generator_loop h fuel
                             (log (store_state ch1 st2) (EvWrite f 0)) 0
                      else Some (-1, log (store_state ch1 st2) (EvWrite f (-1))))).
      { cbn [generator_loop]. rewrite Hst.
        destruct (sample_queue st >? 0) eqn:E;
          [|rewrite Z.gtb_ltb in E; apply Z.ltb_ge in E; lia].
        rewrite Hrd, Hst1. unfold ast_write. cbv zeta.
        cbn [events store_state set_datastore sample_queue set_samples].
        rewrite Hsq. fold st2.
        destruct (write_ok h (events ch1) f); reflexivity. }
      rewrite Hz.
      assert (Hoff2 : forall e, offsets_in_int (log (store_state ch1 st2) e) st2).
      { intros e. split; [exact Hin_q|].
        assert (0 <= sum_samples (fs_rest str1))
          by (apply sum_samples_count, (Hstr1 str1 Hstr1')).
        split; [cbn; lia|].
        intros s Hs. cbn in Hs. rewrite Hstr1' in Hs. injection Hs as <-.
        cbn. lia. }
      destruct (write_ok h (events ch1) f).
      * destruct (IH (log (store_state ch1 st2) (EvWrite f 0)) 0 st2 eq_refl Hstr1
                    (Hoff2 _)) as [Heq Hinv].
        split; [exact Heq|exact Hinv].
      * split; [reflexivity|].
        intros r ch' st' [= <- <-] Hst'. injection Hst' as <-.
        split; [exact Hstr1|apply Hoff2].
    + rewrite (generator_loop_int_none fuel ch ch1 res st Hst Hq Hrd).
      assert (Hz : generator_loop h (S fuel) ch res = Some (-1, ch1)).
      { cbn [generator_loop]. rewrite Hst.
        destruct (sample_queue st >? 0) eqn:E;
          [|rewrite Z.gtb_ltb in E; apply Z.ltb_ge in E; lia].
        rewrite Hrd. reflexivity. }
      rewrite Hz. split; [reflexivity|].
      intros r ch' st' [= <- <-] Hst'. rewrite Hst1 in Hst'. injection Hst' as <-.
      split; [exact Hstr1|].
      split; [rewrite Hsq; exact Hqi|]. split; [exact Hsm1|exact Hb1].
Qed.

Lemma playbg_generator_int_agrees (fuel : nat) (ch : ast_channel)
      (st : playbg_state) (n : Z) :
  chan_state ch = Some st ->
  sounds_all h sample_count -> durations_in_int h ->
  stream_all sample_count ch -> offsets_in_int ch st ->
  in_int (sample_queue st + n) ->
  playbg_generator_int h fuel ch n = playbg_generator h fuel ch n
  /\ (forall r ch' st',
        playbg_generator h fuel ch n = Some (r, ch') ->
        chan_state ch' = Some st' ->
        stream_all sample_count ch' /\ offsets_in_int ch' st').
Proof.
  intros Hst Hsnd Hdur Hstr (Hq & Hsm & Hoff) Hin.
  rewrite (playbg_generator_int_unfold fuel ch st n Hst).
  rewrite (playbg_generator_unfold h fuel ch st n Hst).
  rewrite (wrap_int_id _ Hin).
  apply (generator_loop_int_agrees fuel Hsnd Hdur
           (store_state ch (set_sample_queue st (sample_queue st + n))) 0
           (set_sample_queue st (sample_queue st + n)) eq_refl Hstr).
  split; [exact Hin|]. split; [exact Hsm|exact Hoff].
Qed.

(** ** The generator, claim by claim *)

(** C5: a generator invocation adds the request to the queue, in the
    arithmetic of [int], and runs the loop.  For every frame the loop
    gets, whatever the channel and whether the stream was open or a file
    had to be opened, it adds the samples of the frame to the offset and
    takes them from the queue, and only then hands the frame to the
    channel.  Whenever the invocation returns it returns 0 or -1; the
    queue is at or below 0 when it returns 0; when it returns -1, either
    its last call is the write that failed or the queue is still above 0;
    and the queue and the samples handed over balance, modulo 2^32 always
    and exactly when the frames are sample counts and the queue with the
    request is an [int].  An invocation whose first frame request gives
    no frame returns -1 with the whole queue left.  Where the offsets stay
    within an [int] the invocation is the one computed in [Z], and on an
    open stream that holds enough frames the frames read are written in
    turn and the offset has grown by their samples.  With frames of at
    least one sample the invocation returns within as many turns as the
    queue holds samples. *)
Theorem C5_generator_accounting (fuel : nat) (ch : ast_channel)
        (st : playbg_state) (n : Z) :
  chan_state ch = Some st ->
  let q0 := wrap_int (sample_queue st + n) in
  let c0 := store_state ch (set_sample_queue st q0) in
  playbg_generator_int h fuel ch n = generator_loop_int h fuel c0 0
  /\ (forall c s res f c1,
        chan_state c = Some s -> 0 < sample_queue s ->
        playbg_readframe h c = (Some f, c1) ->
        exists s1,
          chan_state c1 = Some s1 /\ sample_queue s1 = sample_queue s
          /\ generator_loop_int h (S fuel) c res
             = (let s2 := set_sample_queue
                            (set_samples s1 (wrap_int (samples s1 + frame_samples f)))
                            (wrap_int (sample_queue s - frame_samples f)) in
                let c2 := store_state c1 s2 in
                if write_ok h (events c1) f
                then generator_loop_int h fuel (log c2 (EvWrite f 0)) 0
                else Some (-1, log c2 (EvWrite f (-1)))))
  /\ (forall r ch',
        playbg_generator_int h fuel ch n = Some (r, ch') ->
        exists st',
          chan_state ch' = Some st'
          /\ (r = 0 \/ r = -1)
          /\ (r = 0 -> sample_queue st' <= 0)
          /\ (r = -1 ->
              (exists evs f, events ch' = (evs ++ [EvWrite f (-1)])%list)
              \/ 0 < sample_queue st')
          /\ (exists k, sample_queue st' + written_samples (events ch')
                        = sample_queue st + n + written_samples (events ch)
                          + k * 4294967296)
          /\ (sounds_all h sample_count -> stream_all sample_count ch ->
              in_int (sample_queue st + n) ->
              sample_queue st' + written_samples (events ch')
              = sample_queue st + n + written_samples (events ch)))
  /\ (forall ch1,
        0 < q0 -> playbg_readframe h c0 = (None, ch1) ->
        playbg_generator_int h (S fuel) ch n = Some (-1, ch1)
        /\ exists st1, chan_state ch1 = Some st1 /\ sample_queue st1 = q0)
  /\ (sounds_all h sample_count -> durations_in_int h ->
      stream_all sample_count ch -> offsets_in_int ch st ->
      in_int (sample_queue st + n) ->
      playbg_generator_int h fuel ch n = playbg_generator h fuel ch n
      /\ forall name frames rest,
          (forall evs f, write_ok h evs f = true) ->
          stream ch = Some (mkStream name frames rest) ->
          let l := consume (sample_queue st + n) rest in
          sample_queue st + n - sum_samples l <= 0 ->
          (List.length l <= fuel)%nat ->
          exists ch',
            playbg_generator_int h fuel ch n = Some (0, ch')
            /\ chan_state ch'
               = Some (set_sample_queue
                         (set_samples st (samples st + sum_samples l))
                         (sample_queue st + n - sum_samples l))
            /\ stream ch' = Some (mkStream name frames (skipn (List.length l) rest))
            /\ events ch' = (events ch ++ play_events name l)%list)
  /\ (sounds_all h (fun f => 0 < frame_samples f <= 2147483647) ->
      stream_all (fun f => 0 < frame_samples f <= 2147483647) ch ->
      (Z.to_nat q0 <= fuel)%nat ->
      exists r ch', playbg_generator_int h fuel ch n = Some (r, ch')).
Proof.
  intros Hst q0 c0.
  assert (Hst0 : chan_state c0 = Some (set_sample_queue st q0)) by reflexivity.
  pose proof (playbg_generator_int_unfold fuel ch st n Hst) as Hunf.
  fold q0 in Hunf. fold c0 in Hunf.
  split; [exact Hunf|].
  split.
  { intros c s res f c1 Hs Hq Hrd.
    exact (generator_loop_int_turn fuel c c1 res s f Hs Hq Hrd). }
  split.
  { intros r ch' Hgen. rewrite Hunf in Hgen.
    destruct (generator_loop_int_keeps fuel c0 0 _ r ch' Hst0 Hgen)
      as (st' & Hst' & (k & Hacc) & Hex & Hr & Hneg & _).
    cbn [sample_queue set_sample_queue] in Hacc, Hex.
    change (events c0) with (events ch) in Hacc, Hex.
    destruct (wrap_int_congr (sample_queue st + n)) as (k0 & Hk0). fold q0 in Hk0.
    exists st'. split; [exact Hst'|].
    split; [destruct Hr as [Hr|[_ [Hr|Hr]]]; auto|].
    split; [intros Hr0; destruct Hr as [Hr|[Hq _]]; [lia|exact Hq]|].
    split; [intros Hm1; apply Hneg; [exact Hm1|discriminate]|].
    split; [exists (k + k0); lia|].
    intros Hsnd Hstr Hin.
    assert (Hq0 : q0 = sample_queue st + n) by (apply wrap_int_id, Hin).
    destruct (Hex Hsnd Hstr) as [Hacc' _]; [rewrite Hq0; exact Hin|]. lia. }
  split.
  { intros ch1 Hq Hrd. rewrite (playbg_generator_int_unfold (S fuel) ch st n Hst).
    fold q0. fold c0.
    split; [exact (generator_loop_int_none fuel c0 ch1 0 _ Hst0 Hq Hrd)|].
    destruct (playbg_readframe_keeps h c0 _ Hst0) as (st1 & Hst1 & _ & _ & _ & Hsq & _).
    rewrite Hrd in Hst1. cbn [snd] in Hst1.
    exists st1. split; [exact Hst1|exact Hsq]. }
  split.
  { intros Hsnd Hdur Hstr Hoff Hin.
    destruct (playbg_generator_int_agrees fuel ch st n Hst Hsnd Hdur Hstr Hoff Hin)
      as [Hagree _].
    split; [exact Hagree|].
    intros name frames rest Hw Hs l Hq Hfuel. rewrite Hagree.
    rewrite (playbg_generator_unfold h fuel ch st n Hst).
    destruct (generator_loop_hot h rest fuel
                (store_state ch (set_sample_queue st (sample_queue st + n))) 0
                (set_sample_queue st (sample_queue st + n)) name frames Hw eq_refl Hs
                Hq Hfuel)
      as (ch' & Hloop & Hst' & Hs' & Hev & _).
    exists ch'. split.
    - rewrite Hloop. cbn [sample_queue set_sample_queue]. fold l.
      destruct l; reflexivity.
    - split; [exact Hst'|]. split; [exact Hs'|exact Hev]. }
  intros Hsnd Hstr Hfuel. rewrite Hunf.
  apply (generator_loop_int_terminates fuel Hsnd c0 0 _ Hst0);
    [exact Hstr|apply wrap_int_range|exact Hfuel].
Qed.

(** A state for a list of one file that cannot be opened: a request that
    leaves the queue above 0 makes the generator return -1 after two opens
    that fail, with the queue as it was left. *)
Lemma single_unreadable_invocation (fuel : nat) (ch : ast_channel)
      (st : playbg_state) (name : string) (n : Z) :
  chan_state ch = Some st -> stream ch = None ->
  filearray st = [Some name] -> nfiles st = 1 -> 0 <= pos st ->
  sounds h name = None -> 0 < wrap_int (sample_queue st + n) ->
  exists ch' st',
    playbg_generator_int h (S fuel) ch n = Some (-1, ch')
    /\ chan_state ch' = Some st' /\ stream ch' = None
    /\ filearray st' = [Some name] /\ nfiles st' = 1
    /\ pos st' = 1 /\ samples st' = 0
    /\ sample_queue st' = wrap_int (sample_queue st + n)
    /\ events ch' = (events ch ++ [EvOpen name false; EvOpen name false])%list.
Proof.
  intros Hst Hs Hfa Hnf Hp Hsnd Hq.
  rewrite (playbg_generator_int_unfold (S fuel) ch st n Hst).
  set (st0 := set_sample_queue st (wrap_int (sample_queue st + n))).
  set (c0 := store_state ch st0).
  assert (Hrd : fst (ast_readframe c0) = None)
    by (unfold ast_readframe; cbn; rewrite Hs; reflexivity).
  assert (Htgt : forall s, filearray s = [Some name] -> nfiles s = 1 -> 0 <= pos s ->
                           seek_target h s = None /\ seek_pos s = 0
                           /\ failed_open_events s = [EvOpen name false]).
  { intros s Hf Hn Hps. unfold seek_target, failed_open_events.
    assert (Hsp : seek_pos s = 0).
    { unfold seek_pos. rewrite Hn. destruct (pos s >=? 1) eqn:E; [reflexivity|].
      rewrite Z.geb_leb in E. apply Z.leb_gt in E. lia. }
    rewrite Hsp. unfold filearray_at. rewrite Hf. cbn. rewrite Hsnd. auto. }
  destruct (Htgt st0 Hfa Hnf Hp) as (Ht0 & Hsp0 & Hfe0).
  set (st1 := advance (set_pos st0 (seek_pos st0 + 1))).
  assert (Hp1 : 0 <= pos st1) by (cbn; rewrite Hsp0; lia).
  destruct (Htgt st1 Hfa Hnf Hp1) as (Ht1 & Hsp1 & Hfe1).
  destruct (playbg_readframe_fails h c0 st0 eq_refl Hrd Ht0 Ht1)
    as (Hf & Hst' & Hs' & Hev & _).
  fold st1 in Hst', Hev. rewrite Hfe0, Hfe1, Hsp1 in *.
  assert (Heof : eof_events c0 = [])
    by (unfold eof_events; cbn; rewrite Hs; reflexivity).
  rewrite Heof in Hev. cbn [app] in Hev.
  destruct (playbg_readframe h c0) as [[f|] c1] eqn:Erd; cbn [fst snd] in *;
    [discriminate|].
  rewrite (generator_loop_int_none fuel c0 c1 0 st0 eq_refl Hq Erd).
  exists c1, (set_pos st1 (0 + 1)).
  repeat split; try assumption; reflexivity.
Qed.

Lemma requests_nonneg (reqs : list Z) :
  Forall (fun n => 0 < n) reqs -> 0 <= fold_right Z.add 0 reqs.
Proof. induction 1 as [|n t Hn Ht IH]; cbn [fold_right]; lia. Qed.

(** The same for a run of requests whose sum, with the queue, an [int]
    still holds. *)
Lemma single_unreadable_run (fuel : nat) (name : string) (reqs : list Z) :
  sounds h name = None -> Forall (fun n => 0 < n) reqs ->
  forall (ch : ast_channel) (st : playbg_state),
    chan_state ch = Some st -> stream ch = None ->
    filearray st = [Some name] -> nfiles st = 1 -> 0 <= pos st ->
    0 <= sample_queue st ->
    sample_queue st + fold_right Z.add 0 reqs <= 2147483647 ->
    exists ch',
      generator_run_int h (S fuel) ch reqs = Some (map (fun _ => -1) reqs, ch')
      /\ events ch'
         = (events ch ++ repeat (EvOpen name false) (2 * List.length reqs))%list.
Proof.
  intros Hsnd Hreqs. induction Hreqs as [|n reqs Hn Hreqs IH];
    intros ch st Hst Hs Hfa Hnf Hp Hq Hsum.
  - exists ch. cbn. rewrite app_nil_r. split; reflexivity.
  - pose proof (requests_nonneg reqs Hreqs) as Hnn. cbn [fold_right] in Hsum.
    assert (Hin : in_int (sample_queue st + n)) by (unfold in_int; lia).
    pose proof (wrap_int_id _ Hin) as Hw.
    destruct (single_unreadable_invocation fuel ch st name n Hst Hs Hfa Hnf Hp Hsnd)
      as (c1 & st1 & Hgen & Hst1 & Hs1 & Hfa1 & Hnf1 & Hp1 & Hsm1 & Hq1 & Hev1);
      [lia|].
    rewrite Hw in Hq1.
    destruct (IH c1 st1 Hst1 Hs1 Hfa1 Hnf1) as (ch' & Hrun & Hev); [lia|lia|lia|].
    exists ch'. cbn [generator_run_int map]. rewrite Hgen, Hrun.
    split; [reflexivity|].
    rewrite Hev, Hev1, <- app_assoc. f_equal.
    replace (2 * List.length (n :: reqs))%nat
      with (S (S (2 * List.length reqs))) by (cbn; lia).
    reflexivity.
Qed.

(** C6: a generator invocation in which a write fails returns -1 right
    after that write, and an invocation whose frame request gives no frame
    returns -1, at the first turn of its loop as at any later one.  With a
    list of one file that cannot be opened, every invocation that asks for
    samples returns -1 after two opens that fail, as long as an [int]
    holds the samples asked for so far, which no such invocation takes
    from the queue; an invocation that finds the queue at or below 0,
    because it asks for nothing or because the queue wrapped around,
    returns 0 and opens nothing. *)
Theorem C6_generator_errors (fuel : nat) (ch : ast_channel)
        (st : playbg_state) (n : Z) :
  chan_state ch = Some st ->
  let q0 := wrap_int (sample_queue st + n) in
  let c0 := store_state ch (set_sample_queue st q0) in
  (forall r ch',
     playbg_generator_int h fuel ch n = Some (r, ch') ->
     write_failed (events ch') <> write_failed (events ch) ->
     r = -1 /\ exists evs f, events ch' = (evs ++ [EvWrite f (-1)])%list)
  /\ (forall f ch1,
        0 < q0 -> playbg_readframe h c0 = (Some f, ch1) ->
        write_ok h (events ch1) f = false ->
        exists ch',
          playbg_generator_int h (S fuel) ch n = Some (-1, ch')
          /\ events ch' = (events ch1 ++ [EvWrite f (-1)])%list)
  /\ (forall ch1,
        0 < q0 -> playbg_readframe h c0 = (None, ch1) ->
        playbg_generator_int h (S fuel) ch n = Some (-1, ch1))
  /\ (forall c s res f c1,
        chan_state c = Some s -> 0 < sample_queue s ->
        playbg_readframe h c = (Some f, c1) ->
        write_ok h (events c1) f = false ->
        exists c',
          generator_loop_int h (S fuel) c res = Some (-1, c')
          /\ events c' = (events c1 ++ [EvWrite f (-1)])%list)
  /\ (forall c s res c1,
        chan_state c = Some s -> 0 < sample_queue s ->
        playbg_readframe h c = (None, c1) ->
        generator_loop_int h (S fuel) c res = Some (-1, c1))
  /\ (forall name,
        filearray st = [Some name] -> nfiles st = 1 -> 0 <= pos st ->
        stream ch = None -> sounds h name = None ->
        (0 < q0 ->
         exists ch',
           playbg_generator_int h (S fuel) ch n = Some (-1, ch')
           /\ events ch' = (events ch ++ [EvOpen name false; EvOpen name false])%list)
        /\ (forall reqs,
              0 <= sample_queue st -> Forall (fun m => 0 < m) reqs ->
              sample_queue st + fold_right Z.add 0 reqs <= 2147483647 ->
              exists ch',
                generator_run_int h (S fuel) ch reqs
                = Some (map (fun _ => -1) reqs, ch')
                /\ events ch'
                   = (events ch
                        ++ repeat (EvOpen name false) (2 * List.length reqs))%list))
  /\ (q0 <= 0 -> playbg_generator_int h fuel ch n = Some (0, c0)).
Proof.
  intros Hst q0 c0.
  assert (Hst0 : chan_state c0 = Some (set_sample_queue st q0)) by reflexivity.
  pose proof (playbg_generator_int_unfold fuel ch st n Hst) as Hunf.
  pose proof (playbg_generator_int_unfold (S fuel) ch st n Hst) as HunfS.
  fold q0 in Hunf, HunfS. fold c0 in Hunf, HunfS.
  assert (Hwrite : forall c s res f c1,
             chan_state c = Some s -> 0 < sample_queue s ->
             playbg_readframe h c = (Some f, c1) ->
             write_ok h (events c1) f = false ->
             exists c',
               generator_loop_int h (S fuel) c res = Some (-1, c')
               /\ events c' = (events c1 ++ [EvWrite f (-1)])%list).
  { intros c s res f c1 Hs Hq Hrd Hw.
    destruct (generator_loop_int_turn fuel c c1 res s f Hs Hq Hrd)
      as (s1 & _ & _ & Hturn).
    rewrite Hturn. cbv zeta. rewrite Hw. eexists. split; reflexivity. }
  split.
  { intros r ch' Hgen Hne. rewrite Hunf in Hgen.
    destruct (generator_loop_int_keeps fuel c0 0 _ r ch' Hst0 Hgen)
      as (st' & _ & _ & _ & _ & _ & Hfail).
    destruct Hfail as [Hfail|Hfail]; [contradiction|exact Hfail]. }
  split.
  { intros f ch1 Hq Hrd Hw. rewrite HunfS.
    exact (Hwrite c0 _ 0 f ch1 Hst0 Hq Hrd Hw). }
  split.
  { intros ch1 Hq Hrd. rewrite HunfS.
    exact (generator_loop_int_none fuel c0 ch1 0 _ Hst0 Hq Hrd). }
  split; [exact Hwrite|].
  split.
  { intros c s res c1 Hs Hq Hrd.
    exact (generator_loop_int_none fuel c c1 res s Hs Hq Hrd). }
  split.
  { intros name Hfa Hnf Hp Hs Hsnd. split.
    - intros Hq.
      destruct (single_unreadable_invocation fuel ch st name n Hst Hs Hfa Hnf Hp
                  Hsnd Hq) as (ch' & st' & Hgen & _ & _ & _ & _ & _ & _ & _ & Hev).
      exists ch'. split; [exact Hgen|exact Hev].
    - intros reqs Hq Hreqs Hsum.
      apply (single_unreadable_run fuel name reqs Hsnd Hreqs ch st); assumption. }
  intros Hq. rewrite Hunf.
  exact (generator_loop_int_done fuel c0 0 _ Hst0 Hq).
Qed.

(** ** The release hook *)

(** C9: on a channel that carries a state the release hook closes the open
    stream, with one call to the host, and then asks the channel for the
    recorded write format when that is not 0, once, which puts it back
    when the channel accepts it; it makes no other call, and the state,
    with its files, index and offset, stays on the channel as it was.  On
    a channel without a state, as Stop and Start have it when they
    deactivate the generator, the hook does nothing: a stream that is open
    stays open and the write format is not put back.  In no case does the
    hook touch the datastore or the generator slot. *)
Theorem C9_release_keeps_state (ch : ast_channel) (st : playbg_state) :
  chan_state ch = Some st ->
  events (playbg_release h ch)
  = (events ch ++ close_events ch ++ restore_events h st)%list
  /\ stream (playbg_release h ch) = None
  /\ writeformat (playbg_release h ch)
     = (if negb (origwfmt st =? 0) && fmt_ok h (origwfmt st)
        then origwfmt st else writeformat ch)
  /\ chan_state (playbg_release h ch) = Some st
  /\ (forall c, chan_state c = None -> playbg_release h c = c)
  /\ (forall c, playbg_release h (set_datastore c None) = set_datastore c None
                /\ ast_deactivate_generator h (set_datastore c None)
                   = set_generatordata (set_datastore c None) false)
  /\ (forall c, datastore (playbg_release h c) = datastore c
                /\ generatordata (playbg_release h c) = generatordata c).
Proof.
  intros Hst. pose proof (chan_state_datastore ch st Hst) as Hds.
  assert (Hall : forall c, datastore (playbg_release h c) = datastore c
                           /\ generatordata (playbg_release h c) = generatordata c).
  { intros c.
    unfold playbg_release, ast_channel_datastore_find, ast_set_write_format,
      close_stream.
    destruct c as [[s|] w [[[st0|]]|] g ev]; cbn; try (split; reflexivity);
      destruct (origwfmt st0 =? 0); cbn; try (split; reflexivity);
      destruct (fmt_ok h (origwfmt st0)); split; reflexivity. }
  assert (Hnone : forall c, chan_state c = None -> playbg_release h c = c).
  { intros c Hc. unfold chan_state in Hc.
    unfold playbg_release, ast_channel_datastore_find.
    destruct (datastore c) as [[[s|]]|]; cbn in *; [discriminate| |]; reflexivity. }
  assert (Hwith :
            events (playbg_release h ch)
            = (events ch ++ close_events ch ++ restore_events h st)%list
            /\ stream (playbg_release h ch) = None
            /\ writeformat (playbg_release h ch)
               = (if negb (origwfmt st =? 0) && fmt_ok h (origwfmt st)
                  then origwfmt st else writeformat ch)).
  { unfold playbg_release, ast_channel_datastore_find, ast_set_write_format,
      close_stream, close_events, restore_events.
    rewrite Hds. cbn [data].
    destruct ch as [[s|] w d g ev]; cbn;
      destruct (origwfmt st =? 0); cbn; rewrite ?app_nil_r;
      try (repeat split; reflexivity);
      destruct (fmt_ok h (origwfmt st)); cbn; rewrite <- ?app_assoc;
      repeat split; reflexivity. }
  destruct Hwith as (Hev & Hs & Hw).
  split; [exact Hev|]. split; [exact Hs|]. split; [exact Hw|].
  split; [unfold chan_state in *; rewrite (proj1 (Hall ch)); exact Hst|].
  split; [exact Hnone|].
  split; [|exact Hall].
  intros c. split; [apply Hnone; reflexivity|].
  unfold ast_deactivate_generator.
  destruct (generatordata (set_datastore c None)) eqn:Eg.
  - rewrite Hnone by reflexivity. reflexivity.
  - destruct c as [s w d g ev]; cbn in *. subst g. reflexivity.
Qed.

End IntFacts.

(** * Runs on concrete channels *)

(** C1, as stated, fails: with two files of 160 samples, Start and two
    invocations of 160 samples leave the index at 0, 0, 1, and the files
    opened are "a", "a" again at its end, and "b"; the index is not back
    at 0 after the second invocation, and "a" is not opened after "b". *)
Lemma C1_counterexample :
  index_trace two_files_host 4 (fresh_chan 0) "a&b" [160; 160] = Some [0; 0; 1]
  /\ option_map (fun x => opened (events (snd x)))
       (generator_run two_files_host 4
          (snd (playbg_exec_start two_files_host (fresh_chan 0) (Some "a&b")))
          [160; 160])
     = Some ["a"; "a"; "b"]
  /\ ~ visits_then_wraps two_files_host 4 (fresh_chan 0) ["a"; "b"].
Proof.
  split; [vm_compute; reflexivity|].
  split; [vm_compute; reflexivity|].
  unfold visits_then_wraps. vm_compute. discriminate.
Qed.

(** C3, as stated, fails: with one file of one frame of 100 samples and a
    request of 160 samples, the file is never sought to 0 (it is sought to
    100, then opened again with no seek), and 100 samples, not 60, are
    taken from its start: the offset ends at 100 and the queue at -40. *)
Lemma C3_counterexample :
  (exists ch',
     playbg_generator (one_file_host "a" [100]) 4
       (snd (playbg_exec_start (one_file_host "a" [100]) (fresh_chan 0) (Some "a")))
       160 = Some (0, ch')
     /\ chan_state ch' = Some (mkState [Some "a"] 0 1 0 100 (-40))
     /\ events ch'
        = [EvOpen "a" true; EvRead "a" (Some (mkFrame 100)); EvWrite (mkFrame 100) 0;
           EvRead "a" None; EvClose "a";
           EvOpen "a" true; EvSeek "a" 100; EvRead "a" None; EvClose "a";
           EvOpen "a" true; EvRead "a" (Some (mkFrame 100)); EvWrite (mkFrame 100) 0])
  /\ ~ wraps_exactly (one_file_host "a" [100]) 4 (fresh_chan 0) "a" 160 100.
Proof.
  split.
  - eexists. vm_compute. repeat split; reflexivity.
  - intros (ch' & st' & Hgen & Hst & _ & Hsm & _).
    vm_compute in Hgen. injection Hgen as <-.
    vm_compute in Hst. injection Hst as <-.
    vm_compute in Hsm. discriminate.
Qed.

(** C4, as stated, fails: with the list "a", "bad", "c", where "bad"
    cannot be opened, the invocation that follows the end of "a" returns
    -1 and writes no frame, although "c" can be played; the index is then
    2, that of "c". *)
Lemma C4_counterexample :
  option_map (fun x => (fst x, events (snd x)))
    (generator_run gap_host 4
       (snd (playbg_exec_start gap_host (fresh_chan 0) (Some "a&bad&c")))
       [160; 160])
  = Some ([(0, Some (0, 160)); (-1, Some (2, 0))],
          [EvOpen "a" true; EvRead "a" (Some (mkFrame 160)); EvWrite (mkFrame 160) 0;
           EvRead "a" None; EvClose "a";
           EvOpen "a" true; EvSeek "a" 160; EvRead "a" None; EvClose "a";
           EvOpen "bad" false])
  /\ ~ never_halts gap_host 4 (fresh_chan 0) "a&bad&c" [160; 160].
Proof.
  split; [vm_compute; reflexivity|].
  intros (l & ch' & Hrun & Hall).
  vm_compute in Hrun. injection Hrun as <- <-.
  inversion Hall as [|? ? _ Hall']; subst.
  inversion Hall' as [|? ? Hne _]; subst.
  apply Hne. reflexivity.
Qed.

(** C5, as stated, fails: after Start on "bad" alone, which cannot be
    opened, an invocation that asks for 160 samples returns -1 with the
    160 samples still in the queue; the queue is not drained before it
    returns. *)
Lemma C5_counterexample :
  (exists ch',
     playbg_generator_int bad_good_host 1 bad_chan 160 = Some (-1, ch')
     /\ chan_state ch' = Some (mkState [Some "bad"] 1 1 0 0 160))
  /\ ~ drained_on_return bad_good_host 1 bad_chan 160.
Proof.
  split.
  - eexists. vm_compute. split; reflexivity.
  - intros Hdr.
    assert (Hq : sample_queue (mkState [Some "bad"] 1 1 0 0 160) <= 0).
    { eapply Hdr; vm_compute; reflexivity. }
    cbn in Hq. lia.
Qed.

(** C6, as stated, fails: after Start on "bad" alone, an invocation that
    asks for no sample returns 0 and opens nothing; and of two invocations
    that ask for 2147483647 samples and for 1, the first returns -1 and
    leaves its samples in the queue, which the second wraps around below
    0: it returns 0 and opens nothing. *)
Lemma C6_counterexample :
  playbg_generator_int bad_good_host 1 bad_chan 0
  = Some (0, bad_chan)
  /\ option_map (fun x => (fst x, events (snd x)))
       (generator_run_int bad_good_host 1 bad_chan [2147483647; 1])
     = Some ([-1; 0], [EvOpen "bad" false; EvOpen "bad" false])
  /\ ~ every_invocation_fails bad_good_host 1 bad_chan [0]
  /\ ~ every_invocation_fails bad_good_host 1 bad_chan [2147483647; 1].
Proof.
  split; [vm_compute; reflexivity|].
  split; [vm_compute; reflexivity|].
  split.
  - intros (l & ch' & Hrun & Hall).
    vm_compute in Hrun. injection Hrun as <- <-.
    inversion Hall as [|? ? Hne _]; subst. discriminate.
  - intros (l & ch' & Hrun & Hall).
    vm_compute in Hrun. injection Hrun as <- <-.
    inversion Hall as [|? ? _ Hall']; subst.
    inversion Hall' as [|? ? Hne _]; subst. discriminate.
Qed.

(** C9, as stated, fails: on the channel as Stop has it when it
    deactivates the generator, the datastore removed and the stream of "a"
    open, the release hook and the deactivation that runs it close nothing
    and ask for no write format; the stream is still open after them. *)
Lemma C9_counterexample :
  stream detached_chan
  = Some (mkStream "a" [mkFrame 160; mkFrame 160] [mkFrame 160])
  /\ playbg_release two_frames_host detached_chan = detached_chan
  /\ events (ast_deactivate_generator two_frames_host
               (set_datastore retuned_chan None))
     = events retuned_chan
  /\ writeformat (snd (playbg_exec_stop two_frames_host retuned_chan)) = 5
  /\ ~ release_closes_stream two_frames_host detached_chan.
Proof.
  split; [reflexivity|]. split; [reflexivity|]. split; [reflexivity|].
  split; [reflexivity|].
  unfold release_closes_stream. vm_compute. discriminate.
Qed.

(** ** The theorems at work *)

(** C1 at work: two files of one frame each, three invocations: the index goes 0, 0, 1, 0. *)
Lemma C1_witness :
  (["a"; "b"] <> []
   /\ Forall no_amp ["a"; "b"]
   /\ String.concat "&" ["a"; "b"] <> ""
   /\ datastore_alloc_ok two_files_host = true
   /\ state_alloc_ok two_files_host = true
   /\ filearray_alloc_ok two_files_host = true
   /\ Forall (fun n => strdup_ok two_files_host n = true) ["a"; "b"]
   /\ (forall evs f, write_ok two_files_host evs f = true)
   /\ Forall (playable two_files_host) ["a"; "b"]
   /\ (forall name fr, In name ["a"; "b"] -> sounds two_files_host name = Some fr ->
                       (List.length fr <= 4)%nat)
   /\ stream (fresh_chan 0) = None)
  /\ index_trace two_files_host 4 (fresh_chan 0) "a&b" [160; 160; 160]
     = Some [0; 0; 1; 0].
Proof.
  assert (H1 : ["a"; "b"] <> []) by discriminate.
  assert (H2 : Forall no_amp ["a"; "b"]) by (repeat constructor).
  assert (H3 : String.concat "&" ["a"; "b"] <> "") by discriminate.
  assert (H7 : Forall (fun n => strdup_ok two_files_host n = true) ["a"; "b"])
    by (repeat constructor).
  assert (H8 : forall evs f, write_ok two_files_host evs f = true)
    by (intros; reflexivity).
  assert (H9 : Forall (playable two_files_host) ["a"; "b"]).
  { repeat constructor; eexists _, _; (split; [reflexivity|]);
      repeat constructor. }
  assert (H10 : forall name fr, In name ["a"; "b"] ->
                                sounds two_files_host name = Some fr ->
                                (List.length fr <= 4)%nat).
  { intros name fr [<-|[<-|[]]] H; injection H as <-; cbn; lia. }
  split; [repeat split; try assumption; reflexivity|].
  exact (proj2 (proj2 (proj2
           (C1_index_visits_files_in_order two_files_host 4 (fresh_chan 0) ["a"; "b"]
              H1 H2 H3 eq_refl eq_refl eq_refl H7 H8 H9 H10 eq_refl)))).
Defined.

(** C2 at work: resume after an interruption in the middle of "a": open, seek to 160, read. *)
Lemma C2_witness :
  chan_state interrupted_chan = Some playing_state
  /\ (let ch' := snd (playbg_exec_resume two_frames_host interrupted_chan) in
      chan_state ch' = Some playing_state
      /\ exists tail,
          events (snd (playbg_readframe two_frames_host ch'))
          = (events ch'
               ++ [EvOpen "a" true; EvSeek "a" 160; EvRead "a" (Some (mkFrame 160))]
               ++ tail)%list).
Proof.
  assert (H : chan_state interrupted_chan = Some playing_state) by reflexivity.
  split; [exact H|].
  destruct (C2_resume_keeps_position two_frames_host interrupted_chan playing_state H)
    as (_ & _ & Hst & _ & _ & Hrd).
  split; [exact Hst|].
  destruct (Hrd "a" [mkFrame 160; mkFrame 160] eq_refl eq_refl) as ((tail & Hev) & _).
  exists tail. exact Hev.
Defined.

(** C3 at work: one file of one frame of 100 samples and a request of 160. *)
Lemma C3_witness :
  ("a" <> "" /\ no_amp "a"
   /\ sounds (one_file_host "a" [100]) "a" = Some [mkFrame 100]
   /\ positive_frames [mkFrame 100]
   /\ sum_samples [mkFrame 100] < 160 <= 2 * sum_samples [mkFrame 100]
   /\ (2 * List.length [mkFrame 100] <= 4)%nat)
  /\ exists ch' st',
      playbg_generator (one_file_host "a" [100]) 4
        (snd (playbg_exec_start (one_file_host "a" [100]) (fresh_chan 0) (Some "a")))
        160 = Some (0, ch')
      /\ chan_state ch' = Some st'
      /\ pos st' = 0 /\ samples st' = 100 /\ sample_queue st' = -40
      /\ events ch'
         = wrap_events "a" [mkFrame 100] [mkFrame 100] 100.
Proof.
  assert (H1 : "a" <> "") by discriminate.
  assert (H2 : no_amp "a") by reflexivity.
  assert (H3 : positive_frames [mkFrame 100]) by (repeat constructor).
  assert (H4 : sum_samples [mkFrame 100] < 160 <= 2 * sum_samples [mkFrame 100])
    by (cbn; lia).
  assert (H5 : (2 * List.length [mkFrame 100] <= 4)%nat) by (cbn; lia).
  split; [repeat split; try assumption; try reflexivity; apply H4|].
  destruct (C3_index_wraps_to_first_file (one_file_host "a" [100]) 4 (fresh_chan 0)
              "a" [mkFrame 100] 160 H1 H2 eq_refl eq_refl eq_refl eq_refl
              (fun _ _ => eq_refl) eq_refl H3 H4 eq_refl eq_refl H5)
    as (_ & _ & _ & ch' & st' & Hgen & Hst & Hp & Hsm & Hq & _ & _ & _ & Hev).
  exists ch', st'. repeat split; assumption.
Defined.

(** C4 at work: "bad&good": the first frame request gives nothing, the next one the first frame of "good". *)
Lemma C4_witness :
  (chan_state bad_good_chan = Some bad_good_state
   /\ 2 <= nfiles bad_good_state /\ 0 <= pos bad_good_state
   /\ 0 <= 0 < nfiles bad_good_state
   /\ entry_frames bad_good_host bad_good_state 0 = None)
  /\ exists ch1 f,
      playbg_readframe bad_good_host bad_good_chan = (None, ch1)
      /\ fst (playbg_readframe bad_good_host ch1) = Some f
      /\ f = mkFrame 160.
Proof.
  assert (H1 : chan_state bad_good_chan = Some bad_good_state) by reflexivity.
  assert (H2 : 2 <= nfiles bad_good_state) by (cbn; lia).
  assert (H3 : 0 <= pos bad_good_state) by (cbn; lia).
  assert (H4 : 0 <= 0 < nfiles bad_good_state) by (cbn; lia).
  assert (H5 : entry_frames bad_good_host bad_good_state 0 = None) by reflexivity.
  assert (H6 : forall i, 0 <= i < nfiles bad_good_state -> i <> 0 ->
                         exists f r, entry_frames bad_good_host bad_good_state i
                                     = Some (f :: r)).
  { intros i Hi Hne. assert (i = 1) by (cbn in Hi; lia). subst i.
    eexists _, _. reflexivity. }
  split; [repeat split; try assumption; apply H4|].
  destruct (C4_unreadable_entry_is_skipped bad_good_host bad_good_chan bad_good_state 0
              H1 H2 H3 H4 H5 H6) as (_ & _ & Hskip).
  destruct (playbg_readframe bad_good_host bad_good_chan) as [fr ch1] eqn:E.
  assert (Hfr : fr = None) by (vm_compute in E; congruence). subst fr.
  destruct (Hskip ch1 eq_refl) as (st1 & f & r & _ & _ & _ & _ & Hent & Hf & _).
  exists ch1, f. split; [reflexivity|]. split; [exact Hf|].
  vm_compute in Hent. congruence.
Defined.

(** C7 at work: Start on "a&b". *)
Lemma C7_witness :
  (["a"; "b"] <> [] /\ Forall no_amp ["a"; "b"] /\ String.concat "&" ["a"; "b"] <> ""
   /\ Forall (fun n => strdup_ok two_files_host n = true) ["a"; "b"])
  /\ exists ch' st,
      playbg_exec_start two_files_host (fresh_chan 0) (Some "a&b") = (0, ch')
      /\ chan_state ch' = Some st
      /\ filearray st = [Some "a"; Some "b"]
      /\ nfiles st = 2 /\ pos st = 0 /\ samples st = 0 /\ sample_queue st = 0.
Proof.
  assert (H1 : ["a"; "b"] <> []) by discriminate.
  assert (H2 : Forall no_amp ["a"; "b"]) by (repeat constructor).
  assert (H3 : String.concat "&" ["a"; "b"] <> "") by discriminate.
  assert (H7 : Forall (fun n => strdup_ok two_files_host n = true) ["a"; "b"])
    by (repeat constructor).
  split; [repeat split; assumption|].
  exact (proj1 (C7_start_parses_specification two_files_host (fresh_chan 0) ["a"; "b"]
                  H1 H2 H3 eq_refl eq_refl eq_refl H7)).
Defined.

(** C8 at work: Stop on a channel nothing happened on. *)
Lemma C8_witness :
  datastore (fresh_chan 0) = None
  /\ playbg_exec_stop two_files_host (fresh_chan 0) = (0, fresh_chan 0).
Proof.
  split; [reflexivity|].
  exact (proj1 (C8_stop_without_state_is_noop two_files_host (fresh_chan 0)) eq_refl).
Defined.

(** C10 at work: release with write format 0 recorded. *)
Lemma C10_witness :
  chan_state bad_good_chan = Some bad_good_state
  /\ origwfmt bad_good_state = 0
  /\ writeformat (playbg_release bad_good_host bad_good_chan) = writeformat bad_good_chan
  /\ events (playbg_release bad_good_host bad_good_chan)
     = events (close_stream bad_good_chan).
Proof.
  assert (H : chan_state bad_good_chan = Some bad_good_state) by reflexivity.
  split; [exact H|]. split; [reflexivity|].
  exact (proj1 (C10_release_restores_nonzero_format bad_good_host bad_good_chan
                  bad_good_state H) eq_refl).
Defined.

(** C5 at work: after an interruption in the middle of "a" and Resume, no
    stream is open; a request of 160 samples opens "a", seeks it to 160
    and writes its second frame, and the offset goes from 160 to 320. *)
Lemma C5_witness :
  chan_state resumed_chan = Some playing_state
  /\ exists ch',
      playbg_generator_int two_frames_host 1 resumed_chan 160 = Some (0, ch')
      /\ chan_state ch' = Some (mkState [Some "a"; Some "b"] 0 2 8 320 0)
      /\ events ch'
         = (events resumed_chan
              ++ [EvOpen "a" true; EvSeek "a" 160; EvRead "a" (Some (mkFrame 160));
                  EvWrite (mkFrame 160) 0])%list.
Proof.
  assert (H : chan_state resumed_chan = Some playing_state) by reflexivity.
  split; [exact H|].
  destruct (C5_generator_accounting two_frames_host 1 resumed_chan playing_state 160 H)
    as (Hgen & _).
  destruct (C5_generator_accounting two_frames_host 0 resumed_chan playing_state 160 H)
    as (_ & Hturn & _).
  cbv zeta in Hgen.
  set (c0 := store_state resumed_chan
               (set_sample_queue playing_state
                  (wrap_int (sample_queue playing_state + 160)))) in *.
  destruct (playbg_readframe two_frames_host c0) as [o c1] eqn:Erd.
  assert (Ho : o = Some (mkFrame 160)) by (vm_compute in Erd; congruence).
  subst o.
  destruct (Hturn c0 _ 0 (mkFrame 160) c1 eq_refl) as (s1 & Hs1 & _ & Hloop);
    [vm_compute; reflexivity|exact Erd|].
  assert (Hc1 : c1 = snd (playbg_readframe two_frames_host c0))
    by (rewrite Erd; reflexivity).
  rewrite Hgen, Hloop. clear Hgen Hloop Hturn.
  rewrite Hc1 in Hs1. vm_compute in Hs1. injection Hs1 as <-.
  rewrite Hc1. eexists. vm_compute. repeat split; reflexivity.
Defined.

(** C6 at work: on "bad" alone, two invocations of 160 samples return -1
    after two opens that fail each; on a host where no write succeeds,
    the first invocation on "a" returns -1 right after the write. *)
Lemma C6_witness :
  (chan_state bad_chan = Some (mkState [Some "bad"] 0 1 0 0 0)
   /\ chan_state deaf_chan = Some (mkState [Some "a"] 0 1 0 0 0))
  /\ (exists ch',
        generator_run_int bad_good_host 1 bad_chan [160; 160] = Some ([-1; -1], ch')
        /\ events ch' = repeat (EvOpen "bad" false) 4)
  /\ (exists ch',
        playbg_generator_int deaf_host 1 deaf_chan 160 = Some (-1, ch')
        /\ events ch'
           = [EvOpen "a" true; EvRead "a" (Some (mkFrame 160));
              EvWrite (mkFrame 160) (-1)]).
Proof.
  assert (H1 : chan_state bad_chan = Some (mkState [Some "bad"] 0 1 0 0 0))
    by reflexivity.
  assert (H2 : chan_state deaf_chan = Some (mkState [Some "a"] 0 1 0 0 0))
    by reflexivity.
  split; [split; assumption|]. split.
  - destruct (C6_generator_errors bad_good_host 0 bad_chan _ 160 H1)
      as (_ & _ & _ & _ & _ & Hsingle & _).
    destruct (Hsingle "bad" eq_refl eq_refl) as [_ Hrun];
      [cbn; lia|reflexivity|reflexivity|].
    destruct (Hrun [160; 160]) as (ch' & Hr & Hev);
      [cbn; lia|repeat constructor; lia|cbn; lia|].
    exists ch'. split; [exact Hr|exact Hev].
  - destruct (C6_generator_errors deaf_host 0 deaf_chan _ 160 H2)
      as (_ & Hwrite & _).
    destruct (playbg_readframe deaf_host
                (store_state deaf_chan
                   (set_sample_queue (mkState [Some "a"] 0 1 0 0 0)
                      (wrap_int (sample_queue (mkState [Some "a"] 0 1 0 0 0) + 160)))))
      as [o c1] eqn:Erd.
    assert (Ho : o = Some (mkFrame 160)) by (vm_compute in Erd; congruence).
    subst o.
    destruct (Hwrite (mkFrame 160) c1) as (ch' & Hgen & Hev);
      [vm_compute; reflexivity|reflexivity|reflexivity|].
    exists ch'. split; [exact Hgen|].
    rewrite Hev. vm_compute in Erd. injection Erd as <-. reflexivity.
Defined.

(** C9 at work: release in the middle of "a" on a channel whose write
    format is 5 while 8 is recorded: the stream is closed, 8 is asked for
    and set; and release on the same channel without its datastore, which
    does nothing. *)
Lemma C9_witness :
  chan_state retuned_chan = Some playing_state
  /\ events (playbg_release two_frames_host retuned_chan)
     = (events retuned_chan ++ [EvClose "a"; EvSetWriteFormat 8 0])%list
  /\ writeformat retuned_chan = 5
  /\ writeformat (playbg_release two_frames_host retuned_chan) = 8
  /\ chan_state (playbg_release two_frames_host retuned_chan) = Some playing_state
  /\ playbg_release two_frames_host detached_chan = detached_chan.
Proof.
  assert (H : chan_state retuned_chan = Some playing_state) by reflexivity.
  split; [exact H|].
  destruct (C9_release_keeps_state two_frames_host retuned_chan playing_state H)
    as (Hev & _ & Hw & Hst & Hnone & _).
  split; [exact Hev|]. split; [reflexivity|]. split; [exact Hw|].
  split; [exact Hst|]. apply Hnone. reflexivity.
Defined.

(** ** The further properties at work *)

(** X1 at work: start on "a&&b": three names, the second one empty. *)
Lemma start_splits_at_every_amp_witness :
  ("a&&b" <> ""
   /\ Forall (fun n => strdup_ok two_files_host n = true) (strsep_all "a&&b"))
  /\ exists ch' st names,
      playbg_exec_start two_files_host (fresh_chan 0) (Some "a&&b") = (0, ch')
      /\ chan_state ch' = Some st
      /\ filearray st = map Some names
      /\ String.concat "&" names = "a&&b"
      /\ List.length names = 3%nat.
Proof.
  assert (H1 : "a&&b" <> "") by discriminate.
  assert (H2 : Forall (fun n => strdup_ok two_files_host n = true) (strsep_all "a&&b"))
    by (repeat constructor).
  split; [split; assumption|].
  destruct (start_splits_at_every_amp two_files_host (fresh_chan 0) "a&&b"
              H1 eq_refl eq_refl eq_refl H2)
    as (ch' & st & names & Hs & Hst & Hfa & Hc & _ & Hl & _).
  exists ch', st, names. repeat split; assumption.
Defined.


(** X3 at work: start on a channel that is playing, where the new state cannot be
    allocated. *)
Lemma start_failure_drops_old_state_witness :
  ("b" <> "" /\ state_alloc_ok no_memory_host = false
   /\ datastore playing_chan <> None)
  /\ fst (playbg_exec_start no_memory_host playing_chan (Some "b")) = -1
  /\ datastore (snd (playbg_exec_start no_memory_host playing_chan (Some "b"))) = None
  /\ stream (snd (playbg_exec_start no_memory_host playing_chan (Some "b"))) = None.
Proof.
  assert (H1 : "b" <> "") by discriminate.
  assert (H2 : datastore playing_chan <> None) by discriminate.
  split; [split; [exact H1|split; [reflexivity|exact H2]]|].
  destruct (start_failure_drops_old_state no_memory_host playing_chan "b" H1
              (or_intror (or_introl eq_refl))) as (Hr & _ & Hd).
  destruct (Hd H2) as (Hds & Hs & _).
  repeat split; assumption.
Defined.

(** X4 at work: start on "b" in the middle of "a": the stream of "a" is closed and the
    list is "b". *)
Lemma start_is_stop_then_start_witness :
  "b" <> ""
  /\ playbg_exec_start two_frames_host playing_chan (Some "b")
     = playbg_exec_start two_frames_host
         (snd (playbg_exec_stop two_frames_host playing_chan)) (Some "b").
Proof.
  assert (H1 : "b" <> "") by discriminate.
  split; [exact H1|].
  exact (start_is_stop_then_start two_frames_host playing_chan "b" H1).
Defined.

(** X5 at work: stop in the middle of "a": the write format stays 8. *)
Lemma stop_leaves_write_format_witness :
  chan_state playing_chan = Some playing_state
  /\ writeformat (snd (playbg_exec_stop two_frames_host playing_chan)) = 8
  /\ events (snd (playbg_exec_stop two_frames_host playing_chan))
     = (events playing_chan ++ [EvClose "a"])%list.
Proof.
  assert (H : chan_state playing_chan = Some playing_state) by reflexivity.
  split; [exact H|].
  destruct (stop_leaves_write_format two_frames_host playing_chan playing_state H)
    as (_ & _ & _ & _ & Hw & Hev).
  split; [exact Hw|exact Hev].
Defined.

(** X7 at work: a request of 0 samples in the middle of "a". *)
Lemma generator_idle_when_queue_covered_witness :
  (chan_state playing_chan = Some playing_state
   /\ sample_queue playing_state + 0 <= 0)
  /\ playbg_generator two_frames_host 0 playing_chan 0
     = Some (0, store_state playing_chan (set_sample_queue playing_state 0)).
Proof.
  assert (H : chan_state playing_chan = Some playing_state) by reflexivity.
  assert (Hq : sample_queue playing_state + 0 <= 0) by (cbn; lia).
  split; [split; assumption|].
  exact (generator_idle_when_queue_covered two_frames_host 0 playing_chan
           playing_state 0 H Hq).
Defined.

(** X8 at work: the first invocation on "bad&good", which returns -1. *)
Lemma generator_keeps_files_and_format_witness :
  (chan_state bad_good_chan = Some bad_good_state
   /\ exists ch',
       playbg_generator bad_good_host 4 bad_good_chan 160 = Some (-1, ch'))
  /\ forall ch',
      playbg_generator bad_good_host 4 bad_good_chan 160 = Some (-1, ch') ->
      exists st',
        chan_state ch' = Some st'
        /\ filearray st' = [Some "bad"; Some "good"] /\ nfiles st' = 2
        /\ writeformat ch' = 0.
Proof.
  assert (H : chan_state bad_good_chan = Some bad_good_state) by reflexivity.
  split; [split; [exact H|eexists; vm_compute; reflexivity]|].
  intros ch' Hgen.
  destruct (generator_keeps_files_and_format bad_good_host 4 bad_good_chan ch'
              bad_good_state 160 (-1) H Hgen)
    as (st' & Hst & Hfa & Hnf & _ & Hw & _).
  exists st'. repeat split; assumption.
Defined.

(** X9 at work: stop in the middle of "a": the one stream that was opened is closed. *)
Lemma no_operation_leaks_a_stream_witness :
  no_leak playing_chan
  /\ no_leak (snd (playbg_exec_stop two_frames_host playing_chan))
  /\ no_leak (snd (playbg_exec_resume two_frames_host playing_chan)).
Proof.
  assert (H : no_leak playing_chan) by reflexivity.
  split; [exact H|].
  destruct (no_operation_leaks_a_stream two_frames_host playing_chan H)
    as (_ & Hstop & Hres & _).
  split; assumption.
Defined.

(** X10 at work: the channel in the middle of "a" is one the module builds. *)
Lemma index_stays_within_array_witness :
  (reachable two_frames_host playing_chan
   /\ chan_state playing_chan = Some playing_state)
  /\ in_bounds playing_state
  /\ 0 <= seek_pos playing_state < 2.
Proof.
  assert (Hr : reachable two_frames_host playing_chan).
  { apply (reach_generator two_frames_host
             (snd (playbg_exec_start two_frames_host (fresh_chan 8) (Some "a&b")))
             4 160 0 playing_chan).
    - apply reach_start, reach_idle. reflexivity.
    - vm_compute. reflexivity. }
  assert (H : chan_state playing_chan = Some playing_state) by reflexivity.
  split; [split; assumption|].
  exact (index_stays_within_array two_frames_host playing_chan playing_state Hr H).
Defined.

(** In the middle of "a": the place of [playing_chan]. *)
Lemma playing_chan_place :
  playing_at two_frames_host ["a"; "b"] 0 [mkFrame 160] playing_chan.
Proof.
  exists playing_state, "a", [mkFrame 160].
  repeat split; try reflexivity. right. reflexivity.
Qed.

Lemma two_frames_playable : Forall (playable two_frames_host) ["a"; "b"].
Proof.
  repeat constructor; eexists _, _; (split; [reflexivity|]); repeat constructor.
Qed.



(** X13 at work: in the middle of "a": the next request of 160 samples, with and
    without a deactivation and Resume before it. *)
Lemma interruption_is_seamless_witness :
  (playing_at two_frames_host ["a"; "b"] 0 [mkFrame 160] playing_chan
   /\ chan_state playing_chan = Some playing_state
   /\ (Z.to_nat (sample_queue playing_state + 160) <= 160)%nat)
  /\ exists l chA chB,
      playbg_generator two_frames_host 160 playing_chan 160 = Some (0, chA)
      /\ playbg_generator two_frames_host 160
           (snd (playbg_exec_resume two_frames_host
                   (ast_deactivate_generator two_frames_host playing_chan))) 160
         = Some (0, chB)
      /\ writes (events chA) = (writes (events playing_chan) ++ l)%list
      /\ writes (events chB) = (writes (events playing_chan) ++ l)%list.
Proof.
  assert (H : chan_state playing_chan = Some playing_state) by reflexivity.
  assert (Hf : (Z.to_nat (sample_queue playing_state + 160) <= 160)%nat)
    by (cbn; lia).
  split; [split; [exact playing_chan_place|]; split; [exact H|exact Hf]|].
  destruct (interruption_is_seamless two_frames_host 160 playing_chan playing_state
              ["a"; "b"] 0 [mkFrame 160] 160 (fun _ _ => eq_refl)
              two_frames_playable playing_chan_place H Hf)
    as (_ & l & chA & chB & stA & stB & HA & HB & HwA & HwB & _).
  exists l, chA, chB. repeat split; assumption.
Defined.
